(** * Feedback dashboard: aggregation, filtering, pagination, notifications

    A shallow embedding of the client-side logic of the feedback dashboard
    (Analytics.tsx, DashboardOverview.tsx, EnhancedDashboardOverview.tsx,
    FeedbackManagement.tsx, AdvancedSearch.tsx, RealTimeNotifications.tsx)
    and the properties of it that the specification states.

    Conventions of the embedding:
    - a JavaScript [number] that is finite is the rational ([Q]) it
      stands for; every constant the code compares with (4, 2.5, 3, 1.5,
      ...) is exactly representable, so the comparisons of the code are the
      comparisons of [Q]. An integer-valued number (a page, a row count) is
      a [Z], a length is a [nat]. [null] in a nullable column is [None];
    - sums and quotients that the code only compares or shows are taken
      exactly; where their result is rounded again ([toFixed],
      [Math.round]) or where the end of a range is met by rounding, every
      operation rounds to the nearest binary64 value as IEEE 754 has it
      ([Js.add], [Js.sub], [Js.mul], [Js.div]);
    - React state is an explicit record, an event handler is a function on it;
    - [Math.random()] and [new Date()] are explicit inputs of the functions
      that call them. *)

From Stdlib Require Import ZArith QArith Qround Qabs Qpower Lqa Lia Bool List String.
From Stdlib Require Import Sorted Permutation.
From stdpp Require Import list strings pretty.
Import ListNotations.

(** ** JavaScript numbers *)

Module Js.

Abbreviation number := Q.

(** [a >= b], [a > b] and [a < b] on numbers. *)
Definition geb (a b : number) : bool := Qle_bool b a.
Definition ltb (a b : number) : bool := negb (Qle_bool b a).
Definition gtb (a b : number) : bool := negb (Qle_bool a b).

(** Truthiness of a number: only zero is falsy (there is no NaN among the
    finite numbers). *)
Definition truthy (a : number) : bool := negb (Qeq_bool a 0).

(** [a || b] on numbers. *)
Definition or (a b : number) : number := if truthy a then a else b.

(** [Number(v)] for [v : number | null]: [Number(null)] is [0]. *)
Definition Number (v : option number) : number :=
  match v with
  | Some q => q
  | None => 0
  end.

(** Truthiness of a [number | null] value: [null] and [0] are falsy. *)
Definition truthy_opt (v : option number) : bool :=
  match v with
  | Some q => truthy q
  | None => false
  end.

(** [v || b] for [v : number | null]. *)
Definition or_opt (v : option number) (b : number) : number :=
  match v with
  | Some q => or q b
  | None => b
  end.

(** [v || b] for [v : string | null]: [null] and the empty string are
    falsy. *)
Definition or_str (v : option string) (b : string) : string :=
  match v with
  | Some s => if String.eqb s "" then b else s
  | None => b
  end.

(** Truthiness of a [string | null] value. *)
Definition truthy_str (v : option string) : bool :=
  match v with
  | Some s => negb (String.eqb s "")
  | None => false
  end.

(** [Math.ceil], [Math.floor] and [Math.round] (the last one rounds a tie
    towards plus infinity). *)
Definition ceil (x : number) : Z := Qceiling x.
Definition floor (x : number) : Z := Qfloor x.
Definition round (x : number) : Z := Qfloor (x + (1 # 2)).

(** The decimal that the text [x.toFixed(1)] shows: [toFixed] puts the
    sign of a negative [x] aside, then takes the integer [n] with [n / 10]
    closest to [x], the larger one on a tie. *)
Definition toFixed1 (x : number) : number :=
  if ltb x 0
  then - (inject_Z (Qfloor ((- x) * 10 + (1 # 2))) / 10)
  else inject_Z (Qfloor (x * 10 + (1 # 2))) / 10.

(** *** Binary64

    A number of the code is a binary64 value: zero, or plus or minus
    [m * 2^e] for integers [m] below [2^53] and [e] from -1074 on. An
    operation of the code gives the binary64 value nearest to the exact
    result, the one with the even [m] on a tie. (The largest binary64
    value, about [2^1024], is far from every number met below: no result
    is infinite.) *)

Definition pow2 (e : Z) : Q := 2 ^ e.

(** For [x > 0], the [k] with [2^k <= x < 2^(k+1)]: the difference of the
    sizes of numerator and denominator, or one less. *)
Definition ilog2 (x : Q) : Z :=
  let k := (Z.log2 (Qnum x) - Z.log2 (Zpos (Qden x)))%Z in
  if Qle_bool (pow2 k) x then k else (k - 1)%Z.

(** The exponent [e] of the binary64 values around [x > 0]: they are the
    multiples of [2^e]; 53 bits for [m], and no exponent below -1074. *)
Definition ulp (x : Q) : Z := Z.max (ilog2 x - 52) (-1074).

(** The integer nearest to [x], the even one on a tie. *)
Definition nearest_even (x : Q) : Z :=
  let f := Qfloor x in
  match (x - inject_Z f ?= 1 # 2)%Q with
  | Lt => f
  | Gt => (f + 1)%Z
  | Eq => if Z.even f then f else (f + 1)%Z
  end.

(** The binary64 value nearest to [x]. *)
Definition double (x : Q) : number :=
  match (x ?= 0)%Q with
  | Eq => 0
  | Gt => inject_Z (nearest_even (x / pow2 (ulp x))) * pow2 (ulp x)
  | Lt => - (inject_Z (nearest_even (- x / pow2 (ulp (- x)))) * pow2 (ulp (- x)))
  end.

(** [a + b], [a - b], [a * b] and [a / b] on numbers. *)
Definition add (a b : number) : number := double (a + b).
Definition sub (a b : number) : number := double (a - b).
Definition mul (a b : number) : number := double (a * b).
Definition div (a b : number) : number := double (a / b).

(** The number of elements of an array, as a number. *)
Definition len {A : Type} (l : list A) : number := inject_Z (Z.of_nat (length l)).

End Js.

(** ** Rows of the store (lib/supabase.ts, [Database]) *)

Module Db.

(** A row of [feedbacks]. [raw_json] is an opaque payload that none of the
    functions below reads; it is kept as its text. *)
Record feedback : Type := mkFeedback {
  id : string;
  user_id : string;
  username : string;
  sender_email : string;
  sender_name : option string;
  subject : option string;
  raw_json : string;
  average_rating : option Js.number;
  feedback_summary : option string;
  processed_at : option string;
  received_at : string
}.

(** A row of [current_issues]. *)
Record issue : Type := mkIssue {
  issue_id : string;
  issue_username : string;
  issue_title : string;
  created_at : string
}.

End Db.

(** ** Dates

    The [Date] operations the code calls, for the time zone and locale of
    the browser. A date is its time value (milliseconds since the epoch);
    [now] is what [new Date()] and [Date.now()] return while the function
    at hand runs. *)
Record DateEnv : Type := mkDateEnv {
  now : Z;
  parse : string -> Z;                 (* new Date(s) *)
  toISOString : Z -> string;
  toLocaleDateString : Z -> string;
  toDateString : Z -> string;
  weekdayShort : Z -> string;          (* toLocaleDateString('en-US', { weekday: 'short' }) *)
  monthDay : Z -> string;              (* toLocaleDateString('en-US', { month: 'short', day: 'numeric' }) *)
  getHours : Z -> Z;
  startOfDay : Z -> Z;                 (* d.setHours(0, 0, 0, 0) *)
  addDays : Z -> Z -> Z;               (* d.setDate(d.getDate() + k) *)
  addMonths : Z -> Z -> Z;             (* d.setMonth(d.getMonth() + k) *)
  addYears : Z -> Z -> Z               (* d.setFullYear(d.getFullYear() + k) *)
}.

(** ** Ratings as the aggregation code reads them *)

(** [Number(f.average_rating) || 0] *)
Definition rating_or_zero (f : Db.feedback) : Js.number :=
  Js.or (Js.Number (Db.average_rating f)) 0.

(** [feedbacks.reduce((sum, f) => sum + (Number(f.average_rating) || 0), 0)] *)
Definition sum_ratings (feedbacks : list Db.feedback) : Js.number :=
  fold_left (fun sum f => sum + rating_or_zero f)%Q feedbacks 0%Q.

(** ** Sentiment buckets

    Analytics.tsx, EnhancedDashboardOverview.tsx and DashboardOverview.tsx
    hold the same three filters. *)

Record sentiment : Type := mkSentiment {
  positive : nat;
  neutral : nat;
  negative : nat
}.

Definition is_positive (f : Db.feedback) : bool := Js.geb (rating_or_zero f) 4.

Definition is_neutral (f : Db.feedback) : bool :=
  let rating := rating_or_zero f in
  Js.geb rating 2.5 && Js.ltb rating 4.

Definition is_negative (f : Db.feedback) : bool := Js.ltb (rating_or_zero f) 2.5.

Definition sentimentBuckets (feedbacks : list Db.feedback) : sentiment :=
  {| positive := length (List.filter is_positive feedbacks);
     neutral := length (List.filter is_neutral feedbacks);
     negative := length (List.filter is_negative feedbacks) |}.

(** ** Analytics.tsx *)

Module Analytics.

(** An entry of [timeSeriesData]. *)
Record timePoint : Type := mkTimePoint {
  date : string;
  count : Z;
  totalRating : Js.number;
  avgRating : Js.number
}.

(** [existing.count += 1; existing.totalRating += ...; existing.avgRating = ...] *)
Definition bump (existing : timePoint) (f : Db.feedback) : timePoint :=
  let count' := (count existing + 1)%Z in
  let totalRating' := (totalRating existing + rating_or_zero f)%Q in
  {| date := date existing;
     count := count';
     totalRating := totalRating';
     avgRating := (totalRating' / inject_Z count')%Q |}.

(** The object pushed for a date seen for the first time. *)
Definition fresh (d : string) (f : Db.feedback) : timePoint :=
  {| date := d;
     count := 1;
     totalRating := rating_or_zero f;
     avgRating := rating_or_zero f |}.

(** [acc.find(item => item.date === date)] followed by the update of the
    entry found: [None] when no entry has the date. *)
Fixpoint bump_first (d : string) (f : Db.feedback) (acc : list timePoint)
  : option (list timePoint) :=
  match acc with
  | [] => None
  | item :: rest =>
      if String.eqb (date item) d
      then Some (bump item f :: rest)
      else option_map (cons item) (bump_first d f rest)
  end.

(** The body of the [reduce] of [timeSeriesData]. *)
Definition timeSeriesStep (env : DateEnv) (acc : list timePoint) (f : Db.feedback)
  : list timePoint :=
  let d := toLocaleDateString env (parse env (Db.received_at f)) in
  match bump_first d f acc with
  | Some acc' => acc'
  | None => acc ++ [fresh d f]
  end.

Definition timeSeriesData (env : DateEnv) (feedbacks : list Db.feedback)
  : list timePoint :=
  fold_left (timeSeriesStep env) feedbacks [].

(** An entry of [ratingDistribution]; the label of the entry is derived
    from [rating] alone. *)
Record ratingBar : Type := mkRatingBar {
  rating : Z;
  bar_count : nat
}.

Definition in_bar (r : Z) (f : Db.feedback) : bool :=
  let avg := rating_or_zero f in
  Z.eqb (Js.floor avg) r || (Z.eqb r 5 && Js.gtb avg 4.5).

Definition ratingDistribution (feedbacks : list Db.feedback) : list ratingBar :=
  map (fun r => {| rating := r; bar_count := length (List.filter (in_bar r) feedbacks) |})
      [1; 2; 3; 4; 5]%Z.

(** An entry of [weeklyData]. *)
Record weekDay : Type := mkWeekDay {
  wd_date : string;
  wd_feedback : nat;
  wd_avgRating : Js.number
}.

(** One turn of the loop [for (let i = 6; i >= 0; i--)]. *)
Definition weekDayOf (env : DateEnv) (feedbacks : list Db.feedback) (i : Z) : weekDay :=
  let d := addDays env (now env) (- i) in
  let dateStr := toLocaleDateString env d in
  let dayFeedbacks :=
    List.filter (fun f => String.eqb (toLocaleDateString env (parse env (Db.received_at f))) dateStr)
                feedbacks in
  {| wd_date := weekdayShort env d;
     wd_feedback := length dayFeedbacks;
     wd_avgRating :=
       if (0 <? length dayFeedbacks)%nat
       then (sum_ratings dayFeedbacks / Js.len dayFeedbacks)%Q
       else 0%Q |}.

Definition weeklyData (env : DateEnv) (feedbacks : list Db.feedback) : list weekDay :=
  map (weekDayOf env feedbacks) [6; 5; 4; 3; 2; 1; 0]%Z.

(** An entry of [hourlyData]; the label is derived from [hour]. *)
Record hourBar : Type := mkHourBar {
  hour : Z;
  hour_count : nat
}.

Definition hourlyData (env : DateEnv) (feedbacks : list Db.feedback) : list hourBar :=
  map (fun h =>
         {| hour := h;
            hour_count :=
              length (List.filter
                        (fun f => Z.eqb (getHours env (parse env (Db.received_at f))) h)
                        feedbacks) |})
      (map Z.of_nat (seq 0 24)).

Record chartDataT : Type := mkChartData {
  cd_timeSeriesData : list timePoint;
  cd_sentimentData : sentiment;
  cd_ratingDistribution : list ratingBar;
  cd_weeklyData : list weekDay;
  cd_hourlyData : list hourBar
}.

(** [chartData]: [null] for an empty list. *)
Definition chartData (env : DateEnv) (feedbacks : list Db.feedback) : option chartDataT :=
  match feedbacks with
  | [] => None
  | _ =>
      Some {| cd_timeSeriesData := timeSeriesData env feedbacks;
              cd_sentimentData := sentimentBuckets feedbacks;
              cd_ratingDistribution := ratingDistribution feedbacks;
              cd_weeklyData := weeklyData env feedbacks;
              cd_hourlyData := hourlyData env feedbacks |}
  end.

Record statsT : Type := mkStats {
  totalFeedback : nat;
  st_avgRating : Js.number;
  responseRate : Z;
  avgResponseTime : Z;
  feedbackTrend : Z;
  ratingTrend : Js.number;
  responseRateTrend : Z;
  totalIssues : nat
}.

(** [stats]: [null] for an empty list. [random k] is what the [k]-th call
    of [Math.random()] returns during this evaluation. *)
Definition stats (random : nat -> Js.number)
  (feedbacks : list Db.feedback) (issues : list Db.issue) : option statsT :=
  match feedbacks with
  | [] => None
  | _ =>
      Some {| totalFeedback := length feedbacks;
              st_avgRating := (sum_ratings feedbacks / Js.len feedbacks)%Q;
              responseRate := Js.round (random 0%nat * 20 + 80)%Q;
              avgResponseTime := Js.round (random 1%nat * 4 + 2)%Q;
              feedbackTrend := Js.round (random 2%nat * 40 - 20)%Q;
              ratingTrend := ((random 3%nat - 0.5) * 2)%Q;
              responseRateTrend := Js.round (random 4%nat * 10 - 5)%Q;
              totalIssues := length issues |}
  end.

End Analytics.

(** ** The objects of [timeSeriesData]

    The [reduce] of [timeSeriesData] writes to objects ([existing.count +=
    1] ...). Here the rows and the entries of the accumulator live in one
    heap, an array is the list of the addresses of its elements, and a
    write goes to an address: a write to a row would show. *)

Module Heap.

Inductive object : Type :=
| Row (f : Db.feedback)
| Point (p : Analytics.timePoint).

(** The object at address [a] of a heap [h : list object] is [h !! a]; a
    new object goes to the address [length h]. *)

(** [acc.find(item => item.date === date)]: the address of the first
    element of [acc] whose [date] is [d]. A row has no [date]. *)
Fixpoint find (h : list object) (d : string) (acc : list nat) : option nat :=
  match acc with
  | [] => None
  | a :: rest =>
      match h !! a with
      | Some (Point p) => if String.eqb (Analytics.date p) d then Some a else find h d rest
      | _ => find h d rest
      end
  end.

(** The body of the [reduce], on the heap and the accumulator, for the
    element of [feedbacks] at address [a]. *)
Definition step (env : DateEnv) (st : list object * list nat) (a : nat)
  : list object * list nat :=
  let (h, acc) := st in
  match h !! a with
  | Some (Row f) =>
      let d := toLocaleDateString env (parse env (Db.received_at f)) in
      match find h d acc with
      | Some e =>
          match h !! e with
          | Some (Point existing) => (<[e := Point (Analytics.bump existing f)]> h, acc)
          | _ => (h, acc)
          end
      | None => (h ++ [Point (Analytics.fresh d f)], acc ++ [length h])
      end
  | _ => (h, acc)
  end.

(** The heap after the [reduce] and the array it returns. *)
Definition timeSeriesData (env : DateEnv) (h : list object) (feedbacks : list nat)
  : list object * list nat :=
  fold_left (step env) feedbacks (h, []).

(** The array [arr] holds the rows [rows]. *)
Definition holds_rows (h : list object) (arr : list nat) (rows : list Db.feedback) : Prop :=
  Forall2 (fun a f => h !! a = Some (Row f)) arr rows.

(** The array [arr] holds the entries [ps]. *)
Definition holds_points (h : list object) (arr : list nat) (ps : list Analytics.timePoint)
  : Prop :=
  Forall2 (fun a p => h !! a = Some (Point p)) arr ps.

(** What the [reduce] keeps true from one element to the next: the heap
    [h0] it started from is still there, below the addresses of the
    accumulator. *)
Definition extends (h0 : list object) (st : list object * list nat) : Prop :=
  length h0 <= length st.1
  /\ (forall a, a < length h0 -> st.1 !! a = h0 !! a)
  /\ Forall (fun e => length h0 <= e) st.2.

(** The state [st] extends [h0] and its accumulator holds the entries
    [ps], each at an address of its own. *)
Definition computes (h0 : list object) (st : list object * list nat)
  (ps : list Analytics.timePoint) : Prop :=
  extends h0 st
  /\ holds_points st.1 st.2 ps
  /\ NoDup st.2
  /\ Forall (fun e => e < length st.1) st.2.

End Heap.

(** ** EnhancedDashboardOverview.tsx

    The fields of [analytics] that are computed from the ratings; the
    fields over date windows ([feedbackTrend], [weeklyData], the week and
    month counts) are not needed below and are left out. *)

Module EnhancedOverview.

Record analyticsT : Type := mkAnalytics {
  totalFeedback : nat;
  avgRating : Js.number;
  responseRate : Z;
  sentimentData : sentiment
}.

(** [analytics]: [null] for an empty list. *)
Definition analytics (feedbacks : list Db.feedback) : option analyticsT :=
  match feedbacks with
  | [] => None
  | _ =>
      Some {| totalFeedback := length feedbacks;
              avgRating := (sum_ratings feedbacks / Js.len feedbacks)%Q;
              responseRate :=
                Js.round
                  (Js.mul
                     (Js.div
                        (Js.len (List.filter (fun f => Js.truthy_str (Db.processed_at f))
                                             feedbacks))
                        (Js.len feedbacks))
                     100);
              sentimentData := sentimentBuckets feedbacks |}
  end.

End EnhancedOverview.

(** ** DashboardOverview.tsx (components/) *)

Module Overview.

Definition averageRating (feedbacks : list Db.feedback) : Js.number :=
  if (0 <? length feedbacks)%nat
  then (sum_ratings feedbacks / Js.len feedbacks)%Q
  else 0%Q.

Definition sentimentData (feedbacks : list Db.feedback) : sentiment :=
  sentimentBuckets feedbacks.

End Overview.

(** ** The dashboard overview that loads its data itself
    ([loadDashboardData]) *)

Module Dashboard.

(** [feedbackData?.filter(f => f.average_rating) || []];
    [feedbackData] is [null] when the read failed. *)
Definition ratingsData (feedbackData : option (list Db.feedback)) : list Db.feedback :=
  match feedbackData with
  | Some rows => List.filter (fun f => Js.truthy_opt (Db.average_rating f)) rows
  | None => []
  end.

(** The [averageRating] local of [loadDashboardData]: the sum of the
    [reduce], one binary64 addition per row, divided by the length. *)
Definition averageRating_raw (feedbackData : option (list Db.feedback)) : Js.number :=
  let rows := ratingsData feedbackData in
  if (0 <? length rows)%nat
  then Js.div
         (fold_left (fun sum f => Js.add sum (Js.or_opt (Db.average_rating f) 0)) rows 0%Q)
         (Js.len rows)
  else 0%Q.

(** [stats.averageRating]: [Number(averageRating.toFixed(1))]; [Number]
    reads the text as the binary64 value nearest to its decimal. *)
Definition averageRating (feedbackData : option (list Db.feedback)) : Js.number :=
  Js.double (Js.toFixed1 (averageRating_raw feedbackData)).

Record slice : Type := mkSlice {
  name : string;
  value : Z;
  color : string
}.

(** The constant the code assigns ("mock data for demo"). *)
Definition sentimentDistribution : list slice :=
  [ {| name := "Positive"; value := 45; color := "#22c55e" |};
    {| name := "Neutral"; value := 35; color := "#f59e0b" |};
    {| name := "Negative"; value := 20; color := "#ef4444" |} ].

Record trendPoint : Type := mkTrendPoint {
  tr_date : string;
  tr_rating : Js.number
}.

(** [Array.from({ length: 7 }, (_, i) => ...)]: entry [i] takes the
    [i]-th random number. *)
Definition ratingTrends (env : DateEnv) (random : nat -> Js.number) : list trendPoint :=
  map (fun i =>
         {| tr_date := monthDay env (now env - (6 - Z.of_nat i) * 24 * 60 * 60 * 1000)%Z;
            tr_rating := Js.add (Js.mul (random i) 2) 3 |})
      (seq 0 7).

Record DashboardStats : Type := mkDashboardStats {
  totalFeedback : Z;
  ds_averageRating : Js.number;
  weeklyChange : Js.number;
  monthlyChange : Js.number;
  ds_sentimentDistribution : list slice;
  ds_ratingTrends : list trendPoint
}.

(** The value [loadDashboardData] passes to [setStats], from the results
    of its reads: [count] is the exact count of the first read,
    [feedbackData] the rows of the second one. The issue ranking and the
    list of recent rows are not needed below and are left out. *)
Definition loadDashboardData (env : DateEnv) (random : nat -> Js.number)
  (count : option Z) (feedbackData : option (list Db.feedback)) : DashboardStats :=
  {| totalFeedback := match count with Some c => c | None => 0%Z end;
     ds_averageRating := averageRating feedbackData;
     weeklyChange := Js.sub (Js.mul (random 7%nat) 20) 10;
     monthlyChange := Js.sub (Js.mul (random 8%nat) 30) 15;
     ds_sentimentDistribution := sentimentDistribution;
     ds_ratingTrends := ratingTrends env random |}.

End Dashboard.

(** ** Queries against the row store

    A query is the list of the builder calls made on it, in order. *)

Module RowStore.

Inductive value : Type :=
| VNum (q : Js.number)
| VText (s : string).

Inductive op : Type :=
| OrIlike (columns : list string) (needle : string)   (* .or('c1.ilike.%s%,c2.ilike.%s%,...') *)
| Gte (column : string) (v : value)
| Lt (column : string) (v : value)
| Order (column : string) (ascending : bool)
| Range (from to : Z)
| Limit (n : Z).

Definition query : Type := list op.

(** What a comparison of the store means for the [average_rating] of a
    row: a comparison with a [null] column selects nothing; a call that
    does not constrain [average_rating] lets every row through. *)
Definition rating_sat (o : op) (r : option Js.number) : bool :=
  match o with
  | Gte column (VNum v) =>
      if String.eqb column "average_rating"
      then match r with Some q => Js.geb q v | None => false end
      else true
  | Lt column (VNum v) =>
      if String.eqb column "average_rating"
      then match r with Some q => Js.ltb q v | None => false end
      else true
  | _ => true
  end.

Definition rating_matches (q : query) (r : option Js.number) : bool :=
  forallb (fun o => rating_sat o r) q.

End RowStore.

(** ** AdvancedSearch.tsx *)

Module Search.

Record SearchFilters : Type := mkSearchFilters {
  query : string;
  rating : string;
  dateRange : string;
  sender : string;
  sortBy : string;
  sortOrder : string;
  category : string
}.

Inductive key : Type :=
| Kquery | Krating | KdateRange | Ksender | KsortBy | KsortOrder | Kcategory.

(** The initial state of [filters], which is also what [clearFilters]
    sets. *)
Definition initialFilters : SearchFilters :=
  {| query := "";
     rating := "all";
     dateRange := "all";
     sender := "";
     sortBy := "received_at";
     sortOrder := "desc";
     category := "all" |}.

Definition clearFilters (filters : SearchFilters) : SearchFilters := initialFilters.

(** [{ ...filters, [key]: value }] *)
Definition updateFilter (filters : SearchFilters) (k : key) (v : string) : SearchFilters :=
  match k with
  | Kquery => {| query := v; rating := rating filters; dateRange := dateRange filters;
                 sender := sender filters; sortBy := sortBy filters;
                 sortOrder := sortOrder filters; category := category filters |}
  | Krating => {| query := query filters; rating := v; dateRange := dateRange filters;
                  sender := sender filters; sortBy := sortBy filters;
                  sortOrder := sortOrder filters; category := category filters |}
  | KdateRange => {| query := query filters; rating := rating filters; dateRange := v;
                     sender := sender filters; sortBy := sortBy filters;
                     sortOrder := sortOrder filters; category := category filters |}
  | Ksender => {| query := query filters; rating := rating filters;
                  dateRange := dateRange filters; sender := v; sortBy := sortBy filters;
                  sortOrder := sortOrder filters; category := category filters |}
  | KsortBy => {| query := query filters; rating := rating filters;
                  dateRange := dateRange filters; sender := sender filters; sortBy := v;
                  sortOrder := sortOrder filters; category := category filters |}
  | KsortOrder => {| query := query filters; rating := rating filters;
                     dateRange := dateRange filters; sender := sender filters;
                     sortBy := sortBy filters; sortOrder := v; category := category filters |}
  | Kcategory => {| query := query filters; rating := rating filters;
                    dateRange := dateRange filters; sender := sender filters;
                    sortBy := sortBy filters; sortOrder := sortOrder filters; category := v |}
  end.

(** [Object.entries(filters)], in the order of the keys of the object. *)
Definition entries (filters : SearchFilters) : list (key * string) :=
  [ (Kquery, query filters); (Krating, rating filters); (KdateRange, dateRange filters);
    (Ksender, sender filters); (KsortBy, sortBy filters); (KsortOrder, sortOrder filters);
    (Kcategory, category filters) ].

(** [Object.values(filters)] *)
Definition values (filters : SearchFilters) : list string := map snd (entries filters).

(** [v !== '' && v !== 'all'] *)
Definition is_set (v : string) : bool := negb (String.eqb v "") && negb (String.eqb v "all").

(** The [enabled] option of the query: the query function runs when it is
    [true]. *)
Definition enabled (filters : SearchFilters) : bool := existsb is_set (values filters).

Definition is_sort_key (k : key) : bool :=
  match k with
  | KsortBy | KsortOrder => true
  | _ => false
  end.

Definition activeFiltersCount (filters : SearchFilters) : nat :=
  length (List.filter (fun kv => is_set (snd kv) && negb (is_sort_key (fst kv)))
                      (entries filters)).

(** The calls of "Apply rating filter". *)
Definition ratingOps (rating : string) : RowStore.query :=
  if negb (String.eqb rating "all") then
    if String.eqb rating "5" then
      [RowStore.Gte "average_rating" (RowStore.VNum 4.5)]
    else if String.eqb rating "4" then
      [RowStore.Gte "average_rating" (RowStore.VNum 3.5);
       RowStore.Lt "average_rating" (RowStore.VNum 4.5)]
    else if String.eqb rating "3" then
      [RowStore.Gte "average_rating" (RowStore.VNum 2.5);
       RowStore.Lt "average_rating" (RowStore.VNum 3.5)]
    else if String.eqb rating "2" then
      [RowStore.Gte "average_rating" (RowStore.VNum 1.5);
       RowStore.Lt "average_rating" (RowStore.VNum 2.5)]
    else if String.eqb rating "1" then
      [RowStore.Lt "average_rating" (RowStore.VNum 1.5)]
    else []
  else [].

(** [startDate] of "Apply date range filter": [new Date()], moved back as
    the selector asks; a selector the [switch] does not list leaves it at
    [now]. *)
Definition startDate (env : DateEnv) (dateRange : string) : Z :=
  if String.eqb dateRange "today" then startOfDay env (now env)
  else if String.eqb dateRange "week" then addDays env (now env) (-7)
  else if String.eqb dateRange "month" then addMonths env (now env) (-1)
  else if String.eqb dateRange "3months" then addMonths env (now env) (-3)
  else if String.eqb dateRange "year" then addYears env (now env) (-1)
  else now env.

(** The query [queryFn] builds. *)
Definition buildQuery (env : DateEnv) (filters : SearchFilters) : RowStore.query :=
  (if negb (String.eqb (query filters) "")
   then [RowStore.OrIlike ["subject"; "sender_name"; "sender_email"; "feedback_summary"]
                          (query filters)]
   else [])
  ++ ratingOps (rating filters)
  ++ (if negb (String.eqb (dateRange filters) "all")
      then [RowStore.Gte "received_at"
              (RowStore.VText (toISOString env (startDate env (dateRange filters))))]
      else [])
  ++ (if negb (String.eqb (sender filters) "")
      then [RowStore.OrIlike ["sender_name"; "sender_email"] (sender filters)]
      else [])
  ++ [RowStore.Order (sortBy filters) (String.eqb (sortOrder filters) "asc");
      RowStore.Limit 50].

(** What the component sends to the row store for a filter state: the
    query when [enabled] holds, nothing otherwise. *)
Definition issued (env : DateEnv) (filters : SearchFilters) : option RowStore.query :=
  if enabled filters then Some (buildQuery env filters) else None.

(** Whether the search, with its rating selector put to [selector] by
    [updateFilter('rating', selector)], keeps a row rated [r]: what the
    query it sends asks of [average_rating] (when it sends none, no row is
    listed). *)
Definition keeps (env : DateEnv) (filters : SearchFilters) (selector : string) (r : Js.number)
  : bool :=
  match issued env (updateFilter filters Krating selector) with
  | Some q => RowStore.rating_matches q (Some r)
  | None => false
  end.

End Search.

(** ** FeedbackManagement.tsx *)

Module Management.

Definition ITEMS_PER_PAGE : Z := 10.

(** The state of the component ([useState]). *)
Record state : Type := mkState {
  searchTerm : string;
  ratingFilter : string;
  dateFilter : string;
  currentPage : Z;
  selectedFeedback : option Db.feedback
}.

Definition initial : state :=
  {| searchTerm := "";
     ratingFilter := "all";
     dateFilter := "all";
     currentPage := 1;
     selectedFeedback := None |}.

(** The setters of [useState]. *)
Definition setSearchTerm (v : string) (s : state) : state :=
  {| searchTerm := v; ratingFilter := ratingFilter s; dateFilter := dateFilter s;
     currentPage := currentPage s; selectedFeedback := selectedFeedback s |}.

Definition setRatingFilter (v : string) (s : state) : state :=
  {| searchTerm := searchTerm s; ratingFilter := v; dateFilter := dateFilter s;
     currentPage := currentPage s; selectedFeedback := selectedFeedback s |}.

Definition setDateFilter (v : string) (s : state) : state :=
  {| searchTerm := searchTerm s; ratingFilter := ratingFilter s; dateFilter := v;
     currentPage := currentPage s; selectedFeedback := selectedFeedback s |}.

Definition setCurrentPage (f : Z -> Z) (s : state) : state :=
  {| searchTerm := searchTerm s; ratingFilter := ratingFilter s; dateFilter := dateFilter s;
     currentPage := f (currentPage s); selectedFeedback := selectedFeedback s |}.

Definition setSelectedFeedback (v : option Db.feedback) (s : state) : state :=
  {| searchTerm := searchTerm s; ratingFilter := ratingFilter s; dateFilter := dateFilter s;
     currentPage := currentPage s; selectedFeedback := v |}.

(** What the user can do on the page. *)
Inductive event : Type :=
| SearchInput (v : string)       (* onChange of the search input *)
| RatingSelect (v : string)      (* onValueChange of the rating select *)
| DateSelect (v : string)        (* onValueChange of the date select *)
| ClearFilters                   (* onClick of "Clear Filters" *)
| Previous                       (* onClick of "Previous" *)
| Next                           (* onClick of "Next" *)
| View (f : Db.feedback).        (* onClick of the eye button of a row *)

(** The handlers, as the JSX binds them. [totalPages] is the value of the
    last result of the query at the time of the click. *)
Definition onPrevious (s : state) : state :=
  setCurrentPage (fun prev => Z.max 1 (prev - 1)) s.

Definition onNext (totalPages : Z) (s : state) : state :=
  setCurrentPage (fun prev => Z.min totalPages (prev + 1)) s.

Definition onClearFilters (s : state) : state :=
  setCurrentPage (fun _ => 1%Z) (setDateFilter "all" (setRatingFilter "all" (setSearchTerm "" s))).

(** The pagination bar is rendered when [totalPages > 1]; its two buttons
    carry these [disabled] flags. *)
Definition paginationShown (totalPages : Z) : bool := (1 <? totalPages)%Z.
Definition previousDisabled (s : state) : bool := (currentPage s =? 1)%Z.
Definition nextDisabled (totalPages : Z) (s : state) : bool := (currentPage s =? totalPages)%Z.

(** The state after an event. A click reaches [onPrevious] or [onNext]
    only through a button that is rendered and not disabled. *)
Definition handle (totalPages : Z) (s : state) (e : event) : state :=
  match e with
  | SearchInput v => setSearchTerm v s
  | RatingSelect v => setRatingFilter v s
  | DateSelect v => setDateFilter v s
  | ClearFilters => onClearFilters s
  | Previous =>
      if paginationShown totalPages && negb (previousDisabled s) then onPrevious s else s
  | Next =>
      if paginationShown totalPages && negb (nextDisabled totalPages s)
      then onNext totalPages s else s
  | View f => setSelectedFeedback (Some f) s
  end.

(** The calls of "Apply rating filter". *)
Definition ratingOps (ratingFilter : string) : RowStore.query :=
  if negb (String.eqb ratingFilter "all") then
    if String.eqb ratingFilter "4+" then
      [RowStore.Gte "average_rating" (RowStore.VNum 4)]
    else if String.eqb ratingFilter "3+" then
      [RowStore.Gte "average_rating" (RowStore.VNum 3);
       RowStore.Lt "average_rating" (RowStore.VNum 4)]
    else if String.eqb ratingFilter "2+" then
      [RowStore.Gte "average_rating" (RowStore.VNum 2);
       RowStore.Lt "average_rating" (RowStore.VNum 3)]
    else if String.eqb ratingFilter "1+" then
      [RowStore.Lt "average_rating" (RowStore.VNum 2)]
    else []
  else [].

(** [startDate] of "Apply date filter". *)
Definition startDate (env : DateEnv) (dateFilter : string) : Z :=
  if String.eqb dateFilter "today" then startOfDay env (now env)
  else if String.eqb dateFilter "week" then addDays env (now env) (-7)
  else if String.eqb dateFilter "month" then addMonths env (now env) (-1)
  else now env.

(** The query [queryFn] builds for a state. *)
Definition buildQuery (env : DateEnv) (s : state) : RowStore.query :=
  [RowStore.Order "received_at" false]
  ++ (if negb (String.eqb (searchTerm s) "")
      then [RowStore.OrIlike ["subject"; "sender_name"; "sender_email"] (searchTerm s)]
      else [])
  ++ ratingOps (ratingFilter s)
  ++ (if negb (String.eqb (dateFilter s) "all")
      then [RowStore.Gte "received_at"
              (RowStore.VText (toISOString env (startDate env (dateFilter s))))]
      else [])
  ++ (let from := ((currentPage s - 1) * ITEMS_PER_PAGE)%Z in
      let to := (from + ITEMS_PER_PAGE - 1)%Z in
      [RowStore.Range from to]).

(** [count || 0] for the exact count of the read ([null] when the store
    sends none). *)
Definition count_or_zero (count : option Z) : Z :=
  match count with
  | Some c => c
  | None => 0
  end.

(** [Math.ceil((count || 0) / ITEMS_PER_PAGE)] *)
Definition totalPagesOf (count : option Z) : Z :=
  Js.ceil (inject_Z (count_or_zero count) / inject_Z ITEMS_PER_PAGE)%Q.

Record feedbackDataT : Type := mkFeedbackData {
  feedbacks : list Db.feedback;
  totalCount : Z;
  totalPages : Z
}.

(** What [queryFn] returns from the answer of the store. *)
Definition queryResult (data : option (list Db.feedback)) (count : option Z) : feedbackDataT :=
  {| feedbacks := match data with Some rows => rows | None => [] end;
     totalCount := count_or_zero count;
     totalPages := totalPagesOf count |}.

(** Whether the feedback page, with its rating selector put to
    [selector], keeps a row rated [r]: what its query asks of
    [average_rating]. *)
Definition keeps (env : DateEnv) (s : state) (selector : string) (r : Js.number) : bool :=
  RowStore.rating_matches (buildQuery env (setRatingFilter selector s)) (Some r).

(** The store, as far as the count it sends goes: the count depends on
    the three filters of the query (search term, rating, date), not on the
    range asked for. *)
Definition store : Type := string -> string -> string -> option Z.

(** [totalPages] as the component reads it from the result of the query
    for the state [s]. *)
Definition totalPagesFor (answer : store) (s : state) : Z :=
  totalPages (queryResult None (answer (searchTerm s) (ratingFilter s) (dateFilter s))).

(** A sequence of events on the page. The query runs again after every
    change of its key (page and filters), and while it is loading the
    component renders no control: an event meets the [totalPages] of the
    result for the state it acts on. *)
Definition run (answer : store) (events : list event) (s : state) : state :=
  fold_left (fun s e => handle (totalPagesFor answer s) s e) events s.


(** The badge of [getSentimentBadge], by its text. *)
Inductive badge : Type :=
| NotRated
| Positive
| Neutral
| Negative.

Definition getSentimentBadge (rating : option Js.number) : badge :=
  if negb (Js.truthy_opt rating) then NotRated
  else
    let r := Js.Number rating in
    if Js.geb r 4 then Positive
    else if Js.geb r 2.5 then Neutral
    else Negative.

End Management.

(** ** RealTimeNotifications.tsx *)

Module Notifications.

Inductive ntype : Type := feedback | issue | team | system.

Inductive priorityT : Type := low | medium | high.

Record Notification : Type := mkNotification {
  id : string;
  type : ntype;
  title : string;
  message : string;
  timestamp : Z;
  read : bool;
  priority : priorityT
}.

(** The notification the handler of an INSERT into [feedbacks] builds from
    [payload.new]; [t] is [new Date()] at that time. *)
Definition ofFeedback (t : Z) (new : Db.feedback) : Notification :=
  {| id := Db.id new;
     type := feedback;
     title := "New Feedback Received";
     message := "From " ++ Js.or_str (Db.sender_name new) (Db.sender_email new);
     timestamp := t;
     read := false;
     priority := if Js.ltb (Js.Number (Db.average_rating new)) 3 then high else medium |}.

(** The notification the handler of an INSERT into [current_issues]
    builds. *)
Definition ofIssue (t : Z) (new : Db.issue) : Notification :=
  {| id := Db.issue_id new;
     type := issue;
     title := "New Issue Created";
     message := Db.issue_title new;
     timestamp := t;
     read := false;
     priority := high |}.

(** [setNotifications(prev => [newNotification, ...prev.slice(0, 9)])] *)
Definition push (newNotification : Notification) (prev : list Notification)
  : list Notification :=
  newNotification :: take 9 prev.

(** An event of the subscription, with the time it arrives at. *)
Inductive insert_event : Type :=
| FeedbackInsert (t : Z) (new : Db.feedback)
| IssueInsert (t : Z) (new : Db.issue).

Definition notificationOf (e : insert_event) : Notification :=
  match e with
  | FeedbackInsert t new => ofFeedback t new
  | IssueInsert t new => ofIssue t new
  end.

Definition onInsert (prev : list Notification) (e : insert_event) : list Notification :=
  push (notificationOf e) prev.

(** The list after a sequence of events, from the empty list the
    component starts with. *)
Definition run (events : list insert_event) : list Notification :=
  fold_left onInsert events [].

(** [prev.map(n => n.id === id ? { ...n, read: true } : n)] *)
Definition setRead (n : Notification) : Notification :=
  {| id := id n; type := type n; title := title n; message := message n;
     timestamp := timestamp n; read := true; priority := priority n |}.

Definition markAsRead (i : string) (prev : list Notification) : list Notification :=
  map (fun n => if String.eqb (id n) i then setRead n else n) prev.

Definition markAllAsRead (prev : list Notification) : list Notification :=
  map setRead prev.

Definition unreadCount (notifications : list Notification) : nat :=
  length (List.filter (fun n => negb (read n)) notifications).

End Notifications.

(** ** The rules as the specification words them *)

Module Spec.

(** The number of elements of a list that satisfy a test. *)
Definition count {A : Type} (p : A -> bool) (l : list A) : nat := length (List.filter p l).

(** A row whose rating is present (not [null]). *)
Definition rated (f : Db.feedback) : bool :=
  match Db.average_rating f with
  | Some _ => true
  | None => false
  end.

(** The three buckets of section 3, on a rating that is present. *)
Definition rated_positive (f : Db.feedback) : bool :=
  match Db.average_rating f with
  | Some r => Js.geb r 4
  | None => false
  end.

Definition rated_neutral (f : Db.feedback) : bool :=
  match Db.average_rating f with
  | Some r => Js.geb r 2.5 && Js.ltb r 4
  | None => false
  end.

Definition rated_negative (f : Db.feedback) : bool :=
  match Db.average_rating f with
  | Some r => Js.ltb r 2.5
  | None => false
  end.

(** A rating below 2.5, or no rating. *)
Definition negative_or_unrated (f : Db.feedback) : bool :=
  match Db.average_rating f with
  | Some r => Js.ltb r 2.5
  | None => true
  end.

(** "positive + neutral + negative == count(L with non-null rating)" *)
Definition buckets_count_rated (L : list Db.feedback) : Prop :=
  let s := sentimentBuckets L in
  (positive s + neutral s + negative s = count rated L)%nat.



Definition sum (qs : list Q) : Q := fold_right Qplus 0%Q qs.

(** The arithmetic mean; of no number at all it is taken to be 0. *)
Definition mean (qs : list Q) : Q :=
  match qs with
  | [] => 0%Q
  | _ => (sum qs / Js.len qs)%Q
  end.



(** "5" -> [4.5, oo), "4" -> [3.5, 4.5), "3" -> [2.5, 3.5),
    "2" -> [1.5, 2.5), "1" -> (-oo, 1.5), for a filter that [keeps] or
    drops a rating under a selector. *)
Definition rating_bands (keeps : string -> Q -> bool) : Prop :=
  forall r : Q,
    (keeps "5" r = true <-> (4.5 <= r)%Q)
    /\ (keeps "4" r = true <-> (3.5 <= r)%Q /\ (r < 4.5)%Q)
    /\ (keeps "3" r = true <-> (2.5 <= r)%Q /\ (r < 3.5)%Q)
    /\ (keeps "2" r = true <-> (1.5 <= r)%Q /\ (r < 2.5)%Q)
    /\ (keeps "1" r = true <-> (r < 1.5)%Q).

(** "band 3 over ratings [2.4, 2.5, 3.4, 3.5] must match exactly
    {2.5, 3.4}" *)
Definition band_3_example (keeps : string -> Q -> bool) : Prop :=
  List.filter (keeps "3") [2.4; 2.5; 3.4; 3.5]%Q = [2.5; 3.4]%Q.



(** "high priority iff its rating is present and below 3, otherwise
    medium", for the priority [p] given to a feedback whose rating is [v]. *)
Definition present_and_below_3 (v : option Q) : Prop :=
  exists r, v = Some r /\ (r < 3)%Q.

Definition feedback_priority_rule (p : Notifications.priorityT) (v : option Q) : Prop :=
  (p = Notifications.high <-> present_and_below_3 v)
  /\ (p <> Notifications.high -> p = Notifications.medium).

(** "calling it twice with the same input list produces bit-identical
    output": whatever the two calls draw from [Math.random()], for a
    function [f] of the numbers drawn and of the input. *)
Definition same_output_on_every_call {I O : Type} (f : (nat -> Q) -> I -> O) : Prop :=
  forall random1 random2 input, f random1 input = f random2 input.

End Spec.

(** ** RealTimeNotifications.tsx: what the user sees and does *)

Module Bell.

(** What changes the list: an event of the subscription, a click on the
    notification with a given id, a click on "Mark all as read". *)
Inductive action : Type :=
| Insert (e : Notifications.insert_event)
| Click (i : string)
| MarkAll.

Definition apply (prev : list Notifications.Notification) (a : action)
  : list Notifications.Notification :=
  match a with
  | Insert e => Notifications.onInsert prev e
  | Click i => Notifications.markAsRead i prev
  | MarkAll => Notifications.markAllAsRead prev
  end.

(** The list after a sequence of actions, from the empty list. *)
Definition after (actions : list action) : list Notifications.Notification :=
  fold_left apply actions [].

(** [getNotificationColor], called with the type and the priority of a
    notification. *)
Definition getNotificationColor (type : Notifications.ntype)
  (priority : Notifications.priorityT) : string :=
  match priority with
  | Notifications.high => "bg-red-100 text-red-800"
  | _ =>
      match type with
      | Notifications.feedback => "bg-blue-100 text-blue-800"
      | Notifications.issue => "bg-orange-100 text-orange-800"
      | _ => "bg-gray-100 text-gray-800"
      end
  end.

Definition colorOf (n : Notifications.Notification) : string :=
  getNotificationColor (Notifications.type n) (Notifications.priority n).

(** The badge on the bell: none when nothing is unread, "9+" above nine,
    the count otherwise. *)
Inductive badge : Type :=
| NoBadge
| Count (n : nat)
| NinePlus.

Definition bellBadge (notifications : list Notifications.Notification) : badge :=
  let unreadCount := Notifications.unreadCount notifications in
  if (0 <? unreadCount)%nat
  then (if (9 <? unreadCount)%nat then NinePlus else Count unreadCount)
  else NoBadge.

(** The notification is shown in red or in blue. *)
Definition red_or_blue (n : Notifications.Notification) : Prop :=
  colorOf n = "bg-red-100 text-red-800" \/ colorOf n = "bg-blue-100 text-blue-800".

(** A notification without its [read] flag. *)
Definition content (n : Notifications.Notification)
  : string * Notifications.ntype * string * string * Z * Notifications.priorityT :=
  (Notifications.id n, Notifications.type n, Notifications.title n,
   Notifications.message n, Notifications.timestamp n, Notifications.priority n).

End Bell.

(** ** AdvancedSearch.tsx: the fields of the filter object by key *)

Module SearchKeys.

(** [filters[key]] *)
Definition get (filters : Search.SearchFilters) (k : Search.key) : string :=
  match k with
  | Search.Kquery => Search.query filters
  | Search.Krating => Search.rating filters
  | Search.KdateRange => Search.dateRange filters
  | Search.Ksender => Search.sender filters
  | Search.KsortBy => Search.sortBy filters
  | Search.KsortOrder => Search.sortOrder filters
  | Search.Kcategory => Search.category filters
  end.

#[global] Instance key_eq_dec : EqDecision Search.key.
Proof. solve_decision. Defined.

(** The keys, in the order of the object. *)
Definition keys : list Search.key :=
  [Search.Kquery; Search.Krating; Search.KdateRange; Search.Ksender;
   Search.KsortBy; Search.KsortOrder; Search.Kcategory].

(** A field at a value that does not filter: empty or "all". *)
Definition unset (v : string) : Prop := v = "" \/ v = "all".

(** A call that constrains the rows (not an ordering, a range or a
    limit). *)
Definition is_constraint (o : RowStore.op) : bool :=
  match o with
  | RowStore.OrIlike _ _ | RowStore.Gte _ _ | RowStore.Lt _ _ => true
  | _ => false
  end.

End SearchKeys.

(** ** FeedbackManagement.tsx: the window of a page *)

Module Paging.

(** [from] and [to] of "Apply pagination": the indices, from 0, of the
    first and the last row the read asks for. *)
Definition from (s : Management.state) : Z :=
  (Management.currentPage s - 1) * Management.ITEMS_PER_PAGE.

Definition to (s : Management.state) : Z :=
  from s + Management.ITEMS_PER_PAGE - 1.

(** "Showing [showingFrom] to [showingTo] of [totalCount] results" *)
Definition showingFrom (s : Management.state) : Z :=
  ((Management.currentPage s - 1) * Management.ITEMS_PER_PAGE) + 1.

Definition showingTo (s : Management.state) (totalCount : Z) : Z :=
  Z.min (Management.currentPage s * Management.ITEMS_PER_PAGE) totalCount.

End Paging.

(** ** Analytics.tsx: rows by day and by hour *)

Module Days.

(** [new Date(f.received_at).toLocaleDateString()] *)
Definition dayOf (env : DateEnv) (f : Db.feedback) : string :=
  toLocaleDateString env (parse env (Db.received_at f)).

(** [new Date(f.received_at).getHours()] *)
Definition hourOf (env : DateEnv) (f : Db.feedback) : Z :=
  getHours env (parse env (Db.received_at f)).


(** The strings of a list without their repetitions, each where it comes
    first. *)
Definition firsts (l : list string) : list string :=
  fold_left (fun acc d => if existsb (String.eqb d) acc then acc else acc ++ [d]) l [].



(** The day string of the [i]-th day before today. *)
Definition daysAgo (env : DateEnv) (i : Z) : string :=
  toLocaleDateString env (addDays env (now env) (- i)).

(** The number of bars of the rating chart a row is counted in. *)
Definition bars_of (f : Db.feedback) : nat :=
  length (List.filter (fun r => Analytics.in_bar r f) [1; 2; 3; 4; 5]%Z).

End Days.

(** ** What [Math.random()] and the rating scale promise *)

Module Bounds.

(** [Math.random()] returns a number from 0 up to, and not including, 1. *)
Definition unit_interval (random : nat -> Q) : Prop :=
  forall k, (0 <= random k)%Q /\ (random k < 1)%Q.

(** What [Math.random()] returns is a binary64 value. *)
Definition doubles (random : nat -> Q) : Prop :=
  forall k, (Js.double (random k) == random k)%Q.


End Bounds.

(** ** EnhancedDashboardOverview.tsx: windows of time and the issue card *)

Module EnhancedTrends.

(** [lastWeek] and [lastMonth]: seven and thirty days before now, in
    milliseconds. *)
Definition lastWeek (env : DateEnv) : Z := (now env - 7 * 24 * 60 * 60 * 1000)%Z.
Definition lastMonth (env : DateEnv) : Z := (now env - 30 * 24 * 60 * 60 * 1000)%Z.

(** [feedbacks.filter(f => new Date(f.received_at) > lastWeek)] *)
Definition thisWeekFeedbacks (env : DateEnv) (feedbacks : list Db.feedback)
  : list Db.feedback :=
  List.filter (fun f => (lastWeek env <? parse env (Db.received_at f))%Z) feedbacks.

Definition thisMonthFeedbacks (env : DateEnv) (feedbacks : list Db.feedback)
  : list Db.feedback :=
  List.filter (fun f => (lastMonth env <? parse env (Db.received_at f))%Z) feedbacks.

(** [feedbackTrend], which [analytics] computes for a list that is not
    empty; the lengths and their differences are integers, the quotient
    and its product by 100 are binary64 values. *)
Definition feedbackTrend (env : DateEnv) (feedbacks : list Db.feedback) : Z :=
  let thisWeek := Z.of_nat (length (thisWeekFeedbacks env feedbacks)) in
  let before := (Z.of_nat (length feedbacks) - thisWeek)%Z in
  if (0 <? thisWeek)%Z
  then Js.round
         (Js.mul (Js.div (inject_Z (thisWeek - before)) (inject_Z (Z.max before 1))) 100)
  else 0%Z.

(** [array.filter((_, i) => p(i))], from the index [i] on. *)
Fixpoint filter_from {A : Type} (p : nat -> bool) (i : nat) (l : list A) : list A :=
  match l with
  | [] => []
  | x :: l' => if p i then x :: filter_from p (S i) l' else filter_from p (S i) l'
  end.

(** The two badges of the card "Active Issues". *)
Definition highIssues (issues : list Db.issue) : nat :=
  length (filter_from (fun i => (i <? 3)%nat) 0 issues).

Definition lowIssues (issues : list Db.issue) : nat :=
  length (filter_from (fun i => (3 <=? i)%nat) 0 issues).

End EnhancedTrends.

(** ** Objects used as tables from strings to counts

    An object whose own properties are created one by one: the list of
    its properties in the order of their creation. The keys are taken not
    to be names that [Object.prototype] defines: for such a name a lookup
    in an object without an own property of that name finds the inherited
    value, which is not a count. *)

Module JsObject.

(** The names [Object.prototype] defines. *)
Definition inherited : list string :=
  ["constructor"; "__proto__"; "__defineGetter__"; "__defineSetter__";
   "__lookupGetter__"; "__lookupSetter__"; "hasOwnProperty"; "isPrototypeOf";
   "propertyIsEnumerable"; "toLocaleString"; "toString"; "valueOf"].

(** [o[k]]: [None] is [undefined]. *)
Fixpoint get (o : list (string * nat)) (k : string) : option nat :=
  match o with
  | [] => None
  | (k', v) :: o' => if String.eqb k' k then Some v else get o' k
  end.

(** [o[k] = v]: an existing property keeps its place, a new one comes
    last. *)
Fixpoint set (o : list (string * nat)) (k : string) (v : nat) : list (string * nat) :=
  match o with
  | [] => [(k, v)]
  | (k', v') :: o' => if String.eqb k' k then (k', v) :: o' else (k', v') :: set o' k v
  end.

(** [x || 0] for [x : number | undefined]. *)
Definition or_zero (x : option nat) : nat :=
  match x with
  | Some v => v
  | None => 0
  end.

(** The value of a string of decimal digits, [None] if another character
    occurs. *)
Fixpoint digits (s : string) (acc : N) : option N :=
  match s with
  | EmptyString => Some acc
  | String c s' =>
      let n := Ascii.N_of_ascii c in
      if ((48 <=? n) && (n <=? 57))%N then digits s' (acc * 10 + (n - 48))%N else None
  end.

(** A key is an array index when it is the decimal text, without leading
    zeros, of an integer below 2^32 - 1. *)
Definition arrayIndex (k : string) : option N :=
  match k with
  | EmptyString => None
  | String c rest =>
      if (Ascii.N_of_ascii c =? 48)%N && negb (String.eqb rest "") then None
      else match digits k 0 with
           | Some n => if (n <? 4294967295)%N then Some n else None
           | None => None
           end
  end.

Definition isIndex (p : string * nat) : bool :=
  match arrayIndex (fst p) with
  | Some _ => true
  | None => false
  end.

Definition indexOf (p : string * nat) : N :=
  match arrayIndex (fst p) with
  | Some n => n
  | None => 0
  end.

(** The properties whose key is an array index, by ascending index. *)
Fixpoint insert_index (p : string * nat) (l : list (string * nat)) : list (string * nat) :=
  match l with
  | [] => [p]
  | q :: l' => if (indexOf p <? indexOf q)%N then p :: q :: l' else q :: insert_index p l'
  end.

Definition by_index (l : list (string * nat)) : list (string * nat) :=
  fold_right insert_index [] l.

(** [Object.entries(o)]: the properties whose key is an array index come
    first, by ascending index, then the others in the order of their
    creation. *)
Definition entries (o : list (string * nat)) : list (string * nat) :=
  by_index (List.filter isIndex o) ++ List.filter (fun p => negb (isIndex p)) o.

End JsObject.

(** ** The ranking of the issues ([loadDashboardData], and
    [issuesData] of DashboardOverview.tsx) *)

Module Ranking.

Record entry : Type := mkEntry {
  title : string;
  count : nat
}.

(** [acc[issue.issue_title] = (acc[issue.issue_title] || 0) + 1] *)
Definition tally (acc : list (string * nat)) (issue : Db.issue) : list (string * nat) :=
  JsObject.set acc (Db.issue_title issue)
    (JsObject.or_zero (JsObject.get acc (Db.issue_title issue)) + 1).

(** [issueCounts]: [issuesData] is [null] when the read failed. *)
Definition issueCounts (issuesData : option (list Db.issue)) : list (string * nat) :=
  match issuesData with
  | Some issues => fold_left tally issues []
  | None => []
  end.

(** [Object.entries(issueCounts).map(([title, count]) => ({ title, count }))] *)
Definition ranked (o : list (string * nat)) : list entry :=
  map (fun p => {| title := fst p; count := snd p |}) (JsObject.entries o).

(** [sort((a, b) => b.count - a.count)]: the sort of an array is stable,
    so the result is the one of inserting each element, from the last to
    the first, in front of the first element that does not have a higher
    count. *)
Fixpoint insert_desc (x : entry) (l : list entry) : list entry :=
  match l with
  | [] => [x]
  | y :: l' => if (count x <? count y)%nat then y :: insert_desc x l' else x :: y :: l'
  end.

Definition sort_desc (l : list entry) : list entry := fold_right insert_desc [] l.

(** [x] has at least the count of [y]. *)
Definition no_lower (x y : entry) : Prop := (count y <= count x)%nat.

(** [topIssues] of [loadDashboardData]. *)
Definition topIssues (issuesData : option (list Db.issue)) : list entry :=
  take 3 (sort_desc (ranked (issueCounts issuesData))).

(** [issuesData] of DashboardOverview.tsx, and the five entries its chart
    shows. *)
Definition issuesData (issues : list Db.issue) : list entry :=
  ranked (fold_left tally issues []).

Definition shownIssues (issues : list Db.issue) : list entry := take 5 (issuesData issues).

(** No issue is titled with a name that [Object.prototype] defines. *)
Definition own_titles (issues : list Db.issue) : Prop :=
  Forall (fun i => ~ In (Db.issue_title i) JsObject.inherited) issues.

(** The number of issues with the title [t]. *)
Definition reports (issues : list Db.issue) (t : string) : nat :=
  length (List.filter (fun i => String.eqb (Db.issue_title i) t) issues).

End Ranking.

(** ** The recent feedback of [loadDashboardData] *)

Module Recent.

Record item : Type := mkItem {
  id : string;
  sender_name : string;
  subject : string;
  average_rating : Js.number;
  feedback_summary : string;
  received_at : string
}.

(** The object [recentFeedback.map] makes of a row. *)
Definition ofRow (f : Db.feedback) : item :=
  {| id := Db.id f;
     sender_name := Js.or_str (Db.sender_name f) "Unknown Sender";
     subject := Js.or_str (Db.subject f) "No Subject";
     average_rating := Js.or_opt (Db.average_rating f) 0;
     feedback_summary := Js.or_str (Db.feedback_summary f) "No summary available";
     received_at := Db.received_at f |}.

(** [feedbackData?.slice(0, 5) || []], mapped. *)
Definition recentFeedback (feedbackData : option (list Db.feedback)) : list item :=
  map ofRow (match feedbackData with
             | Some rows => take 5 rows
             | None => []
             end).

(** The number of stars filled in front of an item: the positions [i]
    from 0 to 4 with [i < Math.floor(average_rating)]. *)
Definition filledStars (it : item) : nat :=
  length (List.filter (fun i => (Z.of_nat i <? Js.floor (average_rating it))%Z) (seq 0 5)).

End Recent.

(** ** Sample data *)

Definition unrated_row : Db.feedback :=
  {| Db.id := "f1"; Db.user_id := "u1"; Db.username := "ann";
     Db.sender_email := "bob@example.com"; Db.sender_name := None; Db.subject := None;
     Db.raw_json := "{}"; Db.average_rating := None; Db.feedback_summary := None;
     Db.processed_at := None; Db.received_at := "2025-01-01T10:00:00Z" |}.

(** The row [unrated_row] with the rating [r]. *)
Definition rated_row (r : Q) : Db.feedback :=
  {| Db.id := "f2"; Db.user_id := "u1"; Db.username := "ann";
     Db.sender_email := "bob@example.com"; Db.sender_name := Some "Bob"; Db.subject := None;
     Db.raw_json := "{}"; Db.average_rating := Some r; Db.feedback_summary := None;
     Db.processed_at := None; Db.received_at := "2025-01-02T10:00:00Z" |}.

Definition sample_issue (k : nat) : Db.issue :=
  {| Db.issue_id := String (Ascii.ascii_of_nat (65 + k)) "";
     Db.issue_username := "ann";
     Db.issue_title := "Login fails";
     Db.created_at := "2025-01-03T09:00:00Z" |}.

(** Twelve inserts, one per millisecond, the ids "B" to "M". *)
Definition twelve_inserts : list Notifications.insert_event :=
  map (fun k => Notifications.IssueInsert (Z.of_nat k) (sample_issue k)) (seq 1 12).

(** The feedback page on its third page, no filter set. *)
Definition on_page_3 : Management.state :=
  Management.setCurrentPage (fun _ => 3%Z) Management.initial.

(** A browser in UTC: a day is 86400000 ms, a date is shown as the number
    of its day, a month is taken as 30 days and a year as 365. The time of
    a row is read from the day and hour digits of its ISO text. *)
Definition digit (s : string) (k : nat) : Z :=
  match String.get k s with
  | Some c => Z.of_nat (Ascii.nat_of_ascii c) - 48
  | None => 0
  end.

Definition sample_parse (s : string) : Z :=
  (digit s 8 * 10 + digit s 9) * 86400000 + (digit s 11 * 10 + digit s 12) * 3600000.

Definition sample_env : DateEnv :=
  {| now := 3 * 86400000 + 7200000;
     parse := sample_parse;
     toISOString := fun t => pretty t;
     toLocaleDateString := fun t => pretty (t / 86400000)%Z;
     toDateString := fun t => pretty (t / 86400000)%Z;
     weekdayShort := fun t => pretty ((t / 86400000) mod 7)%Z;
     monthDay := fun t => pretty (t / 86400000)%Z;
     getHours := fun t => ((t mod 86400000) / 3600000)%Z;
     startOfDay := fun t => (t - t mod 86400000)%Z;
     addDays := fun t k => (t + k * 86400000)%Z;
     addMonths := fun t k => (t + k * 30 * 86400000)%Z;
     addYears := fun t k => (t + k * 365 * 86400000)%Z |}.

(** The same browser at the time [t], and one day later. *)
Definition at_time (t : Z) (env : DateEnv) : DateEnv :=
  {| now := t;
     parse := parse env;
     toISOString := toISOString env;
     toLocaleDateString := toLocaleDateString env;
     toDateString := toDateString env;
     weekdayShort := weekdayShort env;
     monthDay := monthDay env;
     getHours := getHours env;
     startOfDay := startOfDay env;
     addDays := addDays env;
     addMonths := addMonths env;
     addYears := addYears env |}.

Definition next_day (env : DateEnv) : DateEnv := at_time (now env + 86400000) env.

(** A heap that holds three rows, and the array of them. *)
Definition sample_heap : list Heap.object :=
  [Heap.Row unrated_row; Heap.Row (rated_row 4); Heap.Row (rated_row 2)].

Definition sample_array : list nat := [0; 1; 2]%nat.

(** A source of random numbers that always draws [x]. *)
Definition always (x : Q) : nat -> Q := fun _ => x.



(** The row [rated_row 4] received on the day [day] (two digits), read or
    not. *)
Definition row_of_day (day : string) (read : bool) : Db.feedback :=
  {| Db.id := "f3"; Db.user_id := "u1"; Db.username := "ann";
     Db.sender_email := "bob@example.com"; Db.sender_name := Some "Bob"; Db.subject := None;
     Db.raw_json := "{}"; Db.average_rating := Some 4%Q; Db.feedback_summary := None;
     Db.processed_at := if read then Some "2025-01-28T10:00:00Z" else None;
     Db.received_at := String.append "2025-01-" (String.append day "T10:00:00Z") |}.

(** The browser [sample_env] at noon of day 30: day 25 is of this week,
    day 10 is not. *)
Definition day_30 : DateEnv := at_time (30 * 86400000 + 43200000) sample_env.


(** The largest number below 1 that [Math.random()] can return. *)
Definition below_1 : Q := 1 - Js.pow2 (-53).

(** Issues with the given titles, in this order. *)
Definition issues_titled (titles : list string) : list Db.issue :=
  map (fun t => {| Db.issue_id := t; Db.issue_username := "ann"; Db.issue_title := t;
                   Db.created_at := "2025-01-03T09:00:00Z" |}) titles.

(** * Properties *)

(** ** The functions on small inputs *)

Example toFixed1_rounds : (Js.toFixed1 (7 # 3) == 2.3)%Q /\ (Js.toFixed1 0.25 == 0.3)%Q.
Proof. split; reflexivity. Qed.

Example buckets_of_four_rows :
  sentimentBuckets [rated_row 4.5; rated_row 3; rated_row 1; unrated_row]
  = {| positive := 1; neutral := 1; negative := 2 |}.
Proof. reflexivity. Qed.

Example dashboard_average_of_0_and_4 :
  (Dashboard.averageRating (Some [rated_row 0; rated_row 4]) == 4)%Q.
Proof. reflexivity. Qed.

Example analytics_average_of_null_and_4 :
  option_map Analytics.st_avgRating (Analytics.stats (always 0) [unrated_row; rated_row 4] [])
  = Some (4 # 2).
Proof. reflexivity. Qed.

Example total_pages :
  map Management.totalPagesOf [None; Some 0; Some 1; Some 10; Some 11; Some 23]%Z
  = [0; 0; 1; 1; 2; 3]%Z.
Proof. reflexivity. Qed.

Example third_page_range :
  Management.buildQuery sample_env on_page_3
  = [RowStore.Order "received_at" false; RowStore.Range 20 29].
Proof. reflexivity. Qed.

Example search_for_rating_3 :
  Search.issued sample_env (Search.updateFilter Search.initialFilters Search.Krating "3")
  = Some [RowStore.Gte "average_rating" (RowStore.VNum 2.5);
          RowStore.Lt "average_rating" (RowStore.VNum 3.5);
          RowStore.Order "received_at" false;
          RowStore.Limit 50].
Proof. reflexivity. Qed.

Example time_series_of_three_rows :
  map (fun p => (Analytics.date p, Analytics.count p, Analytics.totalRating p))
      (Analytics.timeSeriesData sample_env [unrated_row; rated_row 4; rated_row 2])
  = [("1", 1%Z, 0%Q); ("2", 2%Z, 6%Q)].
Proof. reflexivity. Qed.

(** ** Comparisons and coercions of numbers *)

Lemma geb_true (a b : Q) : Js.geb a b = true <-> (b <= a)%Q.
Proof. unfold Js.geb. apply Qle_bool_iff. Qed.

Lemma geb_false (a b : Q) : Js.geb a b = false <-> (a < b)%Q.
Proof.
  unfold Js.geb. split; intros H.
  - apply Qnot_le_lt. intros Hle. apply Qle_bool_iff in Hle. congruence.
  - destruct (Qle_bool b a) eqn:E; [|reflexivity].
    apply Qle_bool_iff in E. lra.
Qed.

Lemma ltb_true (a b : Q) : Js.ltb a b = true <-> (a < b)%Q.
Proof.
  unfold Js.ltb. rewrite negb_true_iff. apply (geb_false a b).
Qed.

Lemma ltb_false (a b : Q) : Js.ltb a b = false <-> (b <= a)%Q.
Proof.
  unfold Js.ltb. rewrite negb_false_iff. apply (geb_true a b).
Qed.

Lemma truthy_false (a : Q) : Js.truthy a = false <-> (a == 0)%Q.
Proof.
  unfold Js.truthy. rewrite negb_false_iff. apply Qeq_bool_iff.
Qed.

Lemma truthy_true (a : Q) : Js.truthy a = true <-> ~ (a == 0)%Q.
Proof.
  unfold Js.truthy. rewrite negb_true_iff. split; intros H.
  - intros E. apply Qeq_bool_iff in E. congruence.
  - destruct (Qeq_bool a 0) eqn:E; [|reflexivity].
    apply Qeq_bool_iff in E. contradiction.
Qed.

(** [x || 0] is [x], up to the representation of zero. *)
Lemma or_zero (a : Q) : (Js.or a 0 == a)%Q.
Proof.
  unfold Js.or. destruct (Js.truthy a) eqn:E; [reflexivity|].
  apply truthy_false in E. symmetry. exact E.
Qed.

(** Comparisons do not see the representation of a rational. *)
Lemma geb_compat (a a' b : Q) : (a == a')%Q -> Js.geb a b = Js.geb a' b.
Proof.
  intros E. destruct (Js.geb a' b) eqn:H.
  - apply geb_true. apply geb_true in H. lra.
  - apply geb_false. apply geb_false in H. lra.
Qed.

Lemma ltb_compat (a a' b : Q) : (a == a')%Q -> Js.ltb a b = Js.ltb a' b.
Proof.
  intros E. unfold Js.ltb. f_equal. apply (geb_compat a a' b E).
Qed.

(** The rating the aggregation reads from a row. *)
Lemma rating_or_zero_rated (f : Db.feedback) (r : Q) :
  Db.average_rating f = Some r -> (rating_or_zero f == r)%Q.
Proof. intros E. unfold rating_or_zero. rewrite E. apply or_zero. Qed.

Lemma rating_or_zero_unrated (f : Db.feedback) :
  Db.average_rating f = None -> (rating_or_zero f == 0)%Q.
Proof. intros E. unfold rating_or_zero. rewrite E. apply or_zero. Qed.

(** ** Floors, lengths and the rating scale *)

Lemma floor_ge (r : Q) (k : Z) : (k <= Js.floor r)%Z <-> (inject_Z k <= r)%Q.
Proof.
  unfold Js.floor. split; intros H.
  - apply Qle_trans with (inject_Z (Qfloor r)); [|apply Qfloor_le].
    rewrite <- Zle_Qle. exact H.
  - rewrite <- (Qfloor_Z k). apply Qfloor_resp_le, H.
Qed.

Lemma floor_lt (r : Q) (k : Z) : (Js.floor r < k)%Z <-> (r < inject_Z k)%Q.
Proof.
  split; intros H.
  - apply Qnot_le_lt. intros Hle. apply floor_ge in Hle. lia.
  - apply Z.nle_gt. intros Hle. apply floor_ge in Hle. lra.
Qed.

Lemma round_between (x : Q) (lo hi : Z) :
  (inject_Z lo - (1 # 2) <= x)%Q -> (x < inject_Z hi + (1 # 2))%Q ->
  (lo <= Js.round x <= hi)%Z.
Proof.
  intros Hlo Hhi. unfold Js.round. split.
  - apply (floor_ge (x + (1 # 2)) lo). lra.
  - assert (H : (Js.floor (x + (1 # 2)) < hi + 1)%Z); [|unfold Js.floor in H; lia].
    apply floor_lt. rewrite inject_Z_plus. change (inject_Z 1) with 1%Q. lra.
Qed.

Lemma len_cons {A : Type} (x : A) (l : list A) : (Js.len (x :: l) == Js.len l + 1)%Q.
Proof.
  unfold Js.len. simpl length. rewrite Nat2Z.inj_succ, <- Z.add_1_r, inject_Z_plus.
  reflexivity.
Qed.

Lemma len_nonneg {A : Type} (l : list A) : (0 <= Js.len l)%Q.
Proof. unfold Js.len. change 0%Q with (inject_Z 0). rewrite <- Zle_Qle. lia. Qed.

Lemma len_le {A B : Type} (l : list A) (k : list B) :
  (length l <= length k)%nat -> (Js.len l <= Js.len k)%Q.
Proof. intros H. unfold Js.len. rewrite <- Zle_Qle. lia. Qed.

Lemma sum_on_scale (qs : list Q) :
  Forall (fun r => (0 <= r)%Q /\ (r <= 5)%Q) qs ->
  (0 <= Spec.sum qs)%Q /\ (Spec.sum qs <= 5 * Js.len qs)%Q.
Proof.
  induction 1 as [|q qs [Hq0 Hq5] _ [IH0 IH5]]; simpl.
  - split; [lra|]. vm_compute. discriminate.
  - rewrite len_cons. split; lra.
Qed.

Lemma div_on_scale (s n : Q) :
  (0 < n)%Q -> (0 <= s)%Q -> (s <= 5 * n)%Q -> (0 <= s / n)%Q /\ (s / n <= 5)%Q.
Proof.
  intros Hn H0 H5. split.
  - apply Qle_shift_div_l; [exact Hn | lra].
  - apply Qle_shift_div_r; [exact Hn | exact H5].
Qed.



Lemma mean_on_scale (qs : list Q) :
  Forall (fun r => (0 <= r)%Q /\ (r <= 5)%Q) qs ->
  (0 <= Spec.mean qs)%Q /\ (Spec.mean qs <= 5)%Q.
Proof.
  intros H. destruct qs as [|q qs]; [simpl; split; lra|].
  unfold Spec.mean. destruct (sum_on_scale _ H) as [Hs0 Hs5].
  apply div_on_scale; [|exact Hs0 | exact Hs5].
  rewrite len_cons. pose proof (len_nonneg qs). lra.
Qed.

(** ** Rounding to binary64 *)

Lemma pow2_pos (e : Z) : (0 < Js.pow2 e)%Q.
Proof. apply Qpower_0_lt. reflexivity. Qed.

Lemma pow2_add (a b : Z) : (Js.pow2 (a + b) == Js.pow2 a * Js.pow2 b)%Q.
Proof. apply Qpower_plus. discriminate. Qed.

Lemma pow2_le (a b : Z) : (a <= b)%Z -> (Js.pow2 a <= Js.pow2 b)%Q.
Proof. intros H. apply Qpower_le_compat_l; [exact H | discriminate]. Qed.

Lemma pow2_lt_inv (a b : Z) : (Js.pow2 a < Js.pow2 b)%Q -> (a < b)%Z.
Proof. intros H. eapply Qpower_lt_compat_l_inv; [exact H | reflexivity]. Qed.

Lemma pow2_nonneg (e : Z) : (0 <= e)%Z -> (Js.pow2 e == inject_Z (2 ^ e))%Q.
Proof. intros H. unfold Js.pow2. rewrite Zpower_Qpower by exact H. reflexivity. Qed.

Lemma nearest_even_comp (x y : Q) : (x == y)%Q -> Js.nearest_even x = Js.nearest_even y.
Proof.
  intros E. unfold Js.nearest_even.
  rewrite (Qfloor_comp x y E).
  assert (E' : (x - inject_Z (Qfloor y) == y - inject_Z (Qfloor y))%Q) by (rewrite E; reflexivity).
  rewrite (Qcompare_comp _ _ E' (1 # 2) (1 # 2) (Qeq_refl _)). reflexivity.
Qed.

Lemma nearest_even_close (x : Q) :
  (x - (1 # 2) <= inject_Z (Js.nearest_even x))%Q
  /\ (inject_Z (Js.nearest_even x) <= x + (1 # 2))%Q.
Proof.
  unfold Js.nearest_even.
  pose proof (Qfloor_le x) as Hlo. pose proof (Qlt_floor x) as Hhi.
  rewrite inject_Z_plus in *. change (inject_Z 1) with 1%Q in *.
  set (f := inject_Z (Qfloor x)) in *.
  destruct (Qcompare_spec (x - f) (1 # 2)) as [E|E|E];
    [destruct (Z.even (Qfloor x))| |];
    rewrite ?inject_Z_plus; change (inject_Z 1) with 1%Q; fold f; split; lra.
Qed.

Lemma nearest_even_Z (z : Z) : Js.nearest_even (inject_Z z) = z.
Proof.
  unfold Js.nearest_even. rewrite Qfloor_Z.
  destruct (Qcompare_spec (inject_Z z - inject_Z z) (1 # 2)) as [E|E|E]; [lra | reflexivity | lra].
Qed.

Lemma nearest_even_mono (x y : Q) : (x <= y)%Q -> (Js.nearest_even x <= Js.nearest_even y)%Z.
Proof.
  intros H.
  destruct (Z_le_gt_dec (Js.nearest_even x) (Js.nearest_even y)) as [Hle|Hgt]; [exact Hle|].
  exfalso.
  destruct (nearest_even_close x) as [_ Hx]. destruct (nearest_even_close y) as [Hy _].
  assert (Hz : (Js.nearest_even y + 1 <= Js.nearest_even x)%Z) by lia.
  rewrite Zle_Qle, inject_Z_plus in Hz. change (inject_Z 1) with 1%Q in Hz.
  assert (E : (x == y)%Q) by lra.
  rewrite (nearest_even_comp x y E) in Hgt. lia.
Qed.

Lemma nearest_even_le (x : Q) (n : Z) : (x <= inject_Z n)%Q -> (Js.nearest_even x <= n)%Z.
Proof. intros H. rewrite <- (nearest_even_Z n). apply nearest_even_mono, H. Qed.

Lemma nearest_even_ge (x : Q) (n : Z) : (inject_Z n <= x)%Q -> (n <= Js.nearest_even x)%Z.
Proof. intros H. rewrite <- (nearest_even_Z n). apply nearest_even_mono, H. Qed.

Lemma ilog2_spec (x : Q) :
  (0 < x)%Q -> (Js.pow2 (Js.ilog2 x) <= x)%Q /\ (x < Js.pow2 (Js.ilog2 x + 1))%Q.
Proof.
  intros Hx. unfold Js.ilog2.
  destruct x as [n d]. simpl Qnum. simpl Qden.
  assert (Hn : (0 < n)%Z) by (unfold Qlt in Hx; simpl in Hx; lia).
  pose proof (Z.log2_spec n Hn) as [Hn1 Hn2].
  pose proof (Z.log2_spec (Z.pos d) (Pos2Z.is_pos d)) as [Hd1 Hd2].
  pose proof (Z.log2_nonneg n) as Ha. pose proof (Z.log2_nonneg (Z.pos d)) as Hb.
  set (a := Z.log2 n) in *. set (b := Z.log2 (Z.pos d)) in *.
  assert (EA : (Js.pow2 a == inject_Z (2 ^ a))%Q) by (apply pow2_nonneg, Ha).
  assert (EB : (Js.pow2 b == inject_Z (2 ^ b))%Q) by (apply pow2_nonneg, Hb).
  assert (Ex : (n # d == inject_Z n / inject_Z (Z.pos d))%Q) by apply Qmake_Qdiv.
  assert (Hd : (0 < inject_Z (Z.pos d))%Q) by reflexivity.
  rewrite Zle_Qle in Hn1, Hd1. rewrite Zlt_Qlt in Hn2, Hd2.
  replace (Z.succ a) with (a + 1)%Z in Hn2 by lia.
  replace (Z.succ b) with (b + 1)%Z in Hd2 by lia.
  rewrite Z.pow_add_r in Hn2, Hd2 by lia. rewrite inject_Z_mult in Hn2, Hd2.
  change (inject_Z (2 ^ 1)) with 2%Q in *.
  rewrite <- EA in Hn1, Hn2. rewrite <- EB in Hd1, Hd2.
  pose proof (pow2_pos a) as PA. pose proof (pow2_pos b) as PB.
  assert (Ek : forall c, (Js.pow2 (a - b + c) == Js.pow2 a / Js.pow2 b * Js.pow2 c)%Q).
  { intros c. rewrite pow2_add. unfold Js.pow2 at 1. rewrite Qpower_minus by discriminate.
    reflexivity. }
  destruct (Qle_bool (Js.pow2 (a - b)) (n # d)) eqn:T.
  - apply Qle_bool_iff in T. split; [exact T|].
    rewrite (Ek 1%Z), Ex. change (Js.pow2 1) with 2%Q.
    apply Qlt_shift_div_r; [exact Hd|].
    assert (E : (Js.pow2 a / Js.pow2 b * 2 * inject_Z (Z.pos d)
                 == (2 * Js.pow2 a * inject_Z (Z.pos d)) / Js.pow2 b)%Q) by (field; lra).
    rewrite E. apply Qlt_shift_div_l; [exact PB|]. nra.
  - assert (T' : (n # d < Js.pow2 (a - b))%Q).
    { apply Qnot_le_lt. intros H. apply Qle_bool_iff in H. congruence. }
    replace (a - b - 1 + 1)%Z with (a - b)%Z by lia. split; [|exact T'].
    replace (a - b - 1)%Z with (a - b + -1)%Z by lia.
    rewrite (Ek (-1)%Z), Ex. change (Js.pow2 (-1)) with (1 # 2)%Q.
    apply Qle_shift_div_l; [exact Hd|].
    assert (E : (Js.pow2 a / Js.pow2 b * (1 # 2) * inject_Z (Z.pos d)
                 == (Js.pow2 a * inject_Z (Z.pos d)) / (2 * Js.pow2 b))%Q) by (field; lra).
    rewrite E. apply Qle_shift_div_r; [lra|]. nra.
Qed.

Lemma ilog2_unique (x : Q) (k : Z) :
  (Js.pow2 k <= x)%Q -> (x < Js.pow2 (k + 1))%Q -> Js.ilog2 x = k.
Proof.
  intros H1 H2.
  assert (Hx : (0 < x)%Q) by (pose proof (pow2_pos k); lra).
  destruct (ilog2_spec x Hx) as [H3 H4].
  assert (A : (Js.ilog2 x < k + 1)%Z) by (apply pow2_lt_inv; lra).
  assert (B : (k < Js.ilog2 x + 1)%Z) by (apply pow2_lt_inv; lra).
  lia.
Qed.

Lemma ilog2_comp (x y : Q) : (0 < x)%Q -> (x == y)%Q -> Js.ilog2 x = Js.ilog2 y.
Proof.
  intros Hx E. destruct (ilog2_spec x Hx) as [H1 H2].
  symmetry. apply ilog2_unique; rewrite <- E; assumption.
Qed.

Lemma ilog2_mono (x y : Q) : (0 < x)%Q -> (x <= y)%Q -> (Js.ilog2 x <= Js.ilog2 y)%Z.
Proof.
  intros Hx H.
  destruct (ilog2_spec x Hx) as [H1 _].
  destruct (ilog2_spec y) as [_ H2]; [lra|].
  assert (A : (Js.ilog2 x < Js.ilog2 y + 1)%Z) by (apply pow2_lt_inv; lra).
  lia.
Qed.

Lemma ulp_comp (x y : Q) : (0 < x)%Q -> (x == y)%Q -> Js.ulp x = Js.ulp y.
Proof. intros Hx E. unfold Js.ulp. rewrite (ilog2_comp x y Hx E). reflexivity. Qed.

Lemma ulp_mono (x y : Q) : (0 < x)%Q -> (x <= y)%Q -> (Js.ulp x <= Js.ulp y)%Z.
Proof. intros Hx H. unfold Js.ulp. pose proof (ilog2_mono x y Hx H). lia. Qed.

(** A positive number is below 2^53 units of its grid; unless the grid is
    the one of the subnormal numbers, it is at least 2^52 units. *)
Lemma ulp_above (x : Q) : (0 < x)%Q -> (x < inject_Z (2 ^ 53) * Js.pow2 (Js.ulp x))%Q.
Proof.
  intros Hx. destruct (ilog2_spec x Hx) as [_ H].
  assert (L : (Js.pow2 (Js.ilog2 x + 1) <= Js.pow2 (53 + Js.ulp x))%Q)
    by (apply pow2_le; unfold Js.ulp; lia).
  rewrite (pow2_add 53) in L. change (Js.pow2 53) with (inject_Z (2 ^ 53)) in L. lra.
Qed.

Lemma ulp_below (x : Q) :
  (0 < x)%Q -> (-1074 < Js.ulp x)%Z -> (inject_Z (2 ^ 52) * Js.pow2 (Js.ulp x) <= x)%Q.
Proof.
  intros Hx Hu. destruct (ilog2_spec x Hx) as [H _].
  assert (E : Js.ilog2 x = (52 + Js.ulp x)%Z) by (unfold Js.ulp in *; lia).
  rewrite E, pow2_add in H. change (Js.pow2 52) with (inject_Z (2 ^ 52)) in H. exact H.
Qed.

Lemma double_pos (x : Q) :
  (0 < x)%Q ->
  Js.double x = (inject_Z (Js.nearest_even (x / Js.pow2 (Js.ulp x))) * Js.pow2 (Js.ulp x))%Q.
Proof.
  intros H. unfold Js.double.
  destruct (Qcompare_spec x 0) as [E|E|E]; [lra | lra | reflexivity].
Qed.

Lemma double_neg (x : Q) : (x < 0)%Q -> Js.double x = (- Js.double (- x))%Q.
Proof.
  intros H. rewrite (double_pos (- x)) by lra.
  unfold Js.double.
  destruct (Qcompare_spec x 0) as [E|E|E]; [lra | reflexivity | lra].
Qed.

Lemma double_zero (x : Q) : (x == 0)%Q -> Js.double x = 0%Q.
Proof.
  intros H. unfold Js.double.
  destruct (Qcompare_spec x 0) as [E|E|E]; [reflexivity | lra | lra].
Qed.

(** Rounding does not see the representation of a rational. *)
Lemma double_comp (x y : Q) : (x == y)%Q -> (Js.double x == Js.double y)%Q.
Proof.
  intros E.
  assert (P : forall a b, (0 < a)%Q -> (a == b)%Q -> (Js.double a == Js.double b)%Q).
  { intros a b Ha Eab. rewrite (double_pos a Ha), (double_pos b) by lra.
    rewrite (ulp_comp a b Ha Eab).
    assert (E' : (a / Js.pow2 (Js.ulp b) == b / Js.pow2 (Js.ulp b))%Q)
      by (rewrite Eab; reflexivity).
    rewrite (nearest_even_comp _ _ E'). reflexivity. }
  destruct (Q_dec x 0) as [[H|H]|H].
  - rewrite (double_neg x H), (double_neg y) by lra.
    apply Qopp_comp, P; [lra | rewrite E; reflexivity].
  - apply P; assumption.
  - rewrite (double_zero x H), (double_zero y) by lra. reflexivity.
Qed.

Lemma double_nonneg (x : Q) : (0 <= x)%Q -> (0 <= Js.double x)%Q.
Proof.
  intros H. destruct (Qle_lt_or_eq _ _ H) as [Hx|Hx].
  - rewrite (double_pos x Hx).
    pose proof (pow2_pos (Js.ulp x)) as P.
    assert (N : (0 <= Js.nearest_even (x / Js.pow2 (Js.ulp x)))%Z).
    { apply nearest_even_ge. apply Qle_shift_div_l; [exact P|].
      change (inject_Z 0) with 0%Q. lra. }
    rewrite Zle_Qle in N. change (inject_Z 0) with 0%Q in N.
    apply Qmult_le_0_compat; lra.
  - rewrite (double_zero x) by lra. lra.
Qed.

Lemma double_mono_pos (x y : Q) : (0 < x)%Q -> (x <= y)%Q -> (Js.double x <= Js.double y)%Q.
Proof.
  intros Hx H. assert (Hy : (0 < y)%Q) by lra.
  rewrite (double_pos x Hx), (double_pos y Hy).
  pose proof (ulp_mono x y Hx H) as Hu.
  pose proof (pow2_pos (Js.ulp x)) as Px. pose proof (pow2_pos (Js.ulp y)) as Py.
  destruct (Z.eq_dec (Js.ulp x) (Js.ulp y)) as [E|NE].
  - rewrite E.
    assert (M : (Js.nearest_even (x / Js.pow2 (Js.ulp y))
                 <= Js.nearest_even (y / Js.pow2 (Js.ulp y)))%Z).
    { apply nearest_even_mono. apply Qmult_le_compat_r; [exact H|].
      apply Qlt_le_weak, Qinv_lt_0_compat, Py. }
    rewrite Zle_Qle in M. nra.
  - assert (A : (Js.nearest_even (x / Js.pow2 (Js.ulp x)) <= 2 ^ 53)%Z).
    { apply nearest_even_le. apply Qle_shift_div_r; [exact Px|].
      apply Qlt_le_weak, ulp_above, Hx. }
    assert (B : (2 ^ 52 <= Js.nearest_even (y / Js.pow2 (Js.ulp y)))%Z).
    { apply nearest_even_ge. apply Qle_shift_div_l; [exact Py|].
      assert (Lx : (-1074 <= Js.ulp x)%Z) by (unfold Js.ulp; lia).
      apply ulp_below; [exact Hy | lia]. }
    assert (C : (Js.pow2 (1 + Js.ulp x) <= Js.pow2 (Js.ulp y))%Q) by (apply pow2_le; lia).
    rewrite pow2_add in C. change (Js.pow2 1) with 2%Q in C.
    rewrite Zle_Qle in A, B.
    change (inject_Z (2 ^ 53)) with (2 * inject_Z (2 ^ 52))%Q in A.
    set (t := inject_Z (2 ^ 52)) in *. assert (0 < t)%Q by reflexivity.
    set (a := inject_Z (Js.nearest_even (x / Js.pow2 (Js.ulp x)))) in *.
    set (b := inject_Z (Js.nearest_even (y / Js.pow2 (Js.ulp y)))) in *.
    apply Qle_trans with (2 * t * Js.pow2 (Js.ulp x))%Q; [nra|].
    apply Qle_trans with (t * Js.pow2 (Js.ulp y))%Q; nra.
Qed.

(** Rounding keeps the order. *)
Lemma double_mono (x y : Q) : (x <= y)%Q -> (Js.double x <= Js.double y)%Q.
Proof.
  intros H.
  destruct (Q_dec x 0) as [[Hx|Hx]|Hx].
  - rewrite (double_neg x Hx).
    destruct (Q_dec y 0) as [[Hy|Hy]|Hy].
    + rewrite (double_neg y Hy).
      pose proof (double_mono_pos (- y) (- x)). lra.
    + pose proof (double_nonneg y). pose proof (double_nonneg (- x)). lra.
    + rewrite (double_zero y Hy). pose proof (double_nonneg (- x)). lra.
  - apply double_mono_pos; assumption.
  - rewrite (double_zero x Hx). apply double_nonneg. lra.
Qed.

(** A number on its own grid is a binary64 value. *)
Lemma double_grid (x : Q) (m : Z) :
  (0 < x)%Q -> (x == inject_Z m * Js.pow2 (Js.ulp x))%Q -> (Js.double x == x)%Q.
Proof.
  intros Hx E. rewrite (double_pos x Hx).
  pose proof (pow2_pos (Js.ulp x)) as P.
  assert (E' : (x / Js.pow2 (Js.ulp x) == inject_Z m)%Q).
  { rewrite E at 1. field. lra. }
  rewrite (nearest_even_comp _ _ E'), nearest_even_Z. symmetry. exact E.
Qed.

Lemma ilog2_Z (z : Z) : (0 < z)%Z -> Js.ilog2 (inject_Z z) = Z.log2 z.
Proof.
  intros Hz. apply ilog2_unique.
  - rewrite pow2_nonneg by apply Z.log2_nonneg. rewrite <- Zle_Qle.
    apply Z.log2_spec, Hz.
  - rewrite pow2_nonneg by (pose proof (Z.log2_nonneg z); lia). rewrite <- Zlt_Qlt.
    replace (Z.log2 z + 1)%Z with (Z.succ (Z.log2 z)) by lia. apply Z.log2_spec, Hz.
Qed.

Lemma double_Z_pos (z : Z) : (0 < z <= 2 ^ 53)%Z -> (Js.double (inject_Z z) == inject_Z z)%Q.
Proof.
  intros [H0 H1].
  destruct (Z.eq_dec z (2 ^ 53)%Z) as [->|NE]; [reflexivity|].
  assert (Hx : (0 < inject_Z z)%Q) by (change 0%Q with (inject_Z 0); rewrite <- Zlt_Qlt; exact H0).
  assert (K : (Z.log2 z < 53)%Z) by (apply Z.log2_lt_pow2; lia).
  pose proof (Z.log2_nonneg z) as K0.
  apply (double_grid _ (z * 2 ^ (52 - Z.log2 z))%Z Hx).
  unfold Js.ulp. rewrite (ilog2_Z z H0).
  replace (Z.max (Z.log2 z - 52) (-1074)) with (- (52 - Z.log2 z))%Z by lia.
  rewrite inject_Z_mult, <- pow2_nonneg by lia.
  unfold Js.pow2. rewrite Qpower_opp.
  pose proof (pow2_pos (52 - Z.log2 z)) as P. unfold Js.pow2 in P. field. lra.
Qed.

(** The integers up to 2^53 are binary64 values. *)
Lemma double_Z (z : Z) : (- 2 ^ 53 <= z <= 2 ^ 53)%Z -> (Js.double (inject_Z z) == inject_Z z)%Q.
Proof.
  intros H. destruct (Z.lt_trichotomy z 0) as [Hz|[->|Hz]].
  - assert (Hx : (inject_Z z < 0)%Q) by (change 0%Q with (inject_Z 0); rewrite <- Zlt_Qlt; exact Hz).
    rewrite (double_neg _ Hx).
    assert (E : (- inject_Z z == inject_Z (- z))%Q) by (rewrite inject_Z_opp; reflexivity).
    rewrite (double_comp _ _ E), double_Z_pos by lia. rewrite inject_Z_opp. lra.
  - reflexivity.
  - apply double_Z_pos. lia.
Qed.

(** Rounding does not cross an integer up to 2^53. *)
Lemma double_le (x : Q) (z : Z) :
  (- 2 ^ 53 <= z <= 2 ^ 53)%Z -> (x <= inject_Z z)%Q -> (Js.double x <= inject_Z z)%Q.
Proof.
  intros Hz H. apply Qle_trans with (Js.double (inject_Z z)); [apply double_mono, H|].
  rewrite (double_Z z Hz). apply Qle_refl.
Qed.

Lemma double_ge (x : Q) (z : Z) :
  (- 2 ^ 53 <= z <= 2 ^ 53)%Z -> (inject_Z z <= x)%Q -> (inject_Z z <= Js.double x)%Q.
Proof.
  intros Hz H. apply Qle_trans with (Js.double (inject_Z z)); [|apply double_mono, H].
  rewrite (double_Z z Hz). apply Qle_refl.
Qed.

(** Rounding moves a number of [0, 2^K] by 2^(K-53) at most. *)
Lemma double_close (x : Q) (K : Z) :
  (-1022 <= K)%Z -> (0 <= x)%Q -> (x <= Js.pow2 K)%Q ->
  (Qabs (Js.double x - x) <= Js.pow2 (K - 53))%Q.
Proof.
  intros HK H0 H1. destruct (Qle_lt_or_eq _ _ H0) as [Hx|Hx].
  - rewrite (double_pos x Hx).
    pose proof (pow2_pos (Js.ulp x)) as P.
    destruct (nearest_even_close (x / Js.pow2 (Js.ulp x))) as [Hlo Hhi].
    set (m := inject_Z (Js.nearest_even (x / Js.pow2 (Js.ulp x)))) in *.
    assert (Ex : (x == x / Js.pow2 (Js.ulp x) * Js.pow2 (Js.ulp x))%Q) by (field; lra).
    set (t := (x / Js.pow2 (Js.ulp x))%Q) in *.
    destruct (ilog2_spec x Hx) as [Hk _].
    assert (Hle : (Js.ilog2 x <= K)%Z).
    { assert (A : (Js.ilog2 x < K + 1)%Z).
      { apply pow2_lt_inv. apply Qle_lt_trans with (Js.pow2 K); [lra|].
        rewrite pow2_add. change (Js.pow2 1) with 2%Q. pose proof (pow2_pos K). lra. }
      lia. }
    assert (U : (Js.pow2 (Js.ulp x) <= Js.pow2 (1 + (K - 53)))%Q)
      by (apply pow2_le; unfold Js.ulp; lia).
    rewrite pow2_add in U. change (Js.pow2 1) with 2%Q in U.
    apply Qabs_Qle_condition. split; nra.
  - rewrite (double_zero x) by lra.
    pose proof (pow2_pos (K - 53)). apply Qabs_Qle_condition. split; lra.
Qed.

(** A binary64 value below 1 is at most 1 - 2^-53. *)
Lemma double_below_1 (x : Q) :
  (Js.double x == x)%Q -> (x < 1)%Q -> (x <= 1 - Js.pow2 (-53))%Q.
Proof.
  intros E H1.
  destruct (Qlt_le_dec 0 x) as [Hx|Hx]; [|change (Js.pow2 (-53)) with (1 # 9007199254740992)%Q; lra].
  destruct (ilog2_spec x Hx) as [Hk Hk'].
  assert (K : (Js.ilog2 x < 0)%Z) by (apply pow2_lt_inv; change (Js.pow2 0) with 1%Q; lra).
  destruct (Z.eq_dec (Js.ilog2 x) (-1)%Z) as [K1|K1].
  - rewrite (double_pos x Hx) in E.
    assert (U : Js.ulp x = (-53)%Z) by (unfold Js.ulp; lia).
    rewrite U in E.
    set (m := Js.nearest_even (x / Js.pow2 (-53))) in *.
    assert (M : (m < 2 ^ 53)%Z).
    { rewrite Zlt_Qlt. change (Js.pow2 (-53)) with (1 # 9007199254740992)%Q in E.
      change (inject_Z (2 ^ 53)) with 9007199254740992%Q. lra. }
    assert (M' : (m + 1 <= 2 ^ 53)%Z) by lia.
    rewrite Zle_Qle, inject_Z_plus in M'.
    change (inject_Z (2 ^ 53)) with 9007199254740992%Q in M'.
    change (inject_Z 1) with 1%Q in M'.
    change (Js.pow2 (-53)) with (1 # 9007199254740992)%Q in *. lra.
  - assert (L : (Js.pow2 (Js.ilog2 x + 1) <= Js.pow2 (-1))%Q) by (apply pow2_le; lia).
    change (Js.pow2 (-1)) with (1 # 2)%Q in L.
    change (Js.pow2 (-53)) with (1 # 9007199254740992)%Q. lra.
Qed.

(** ** Sentiment buckets *)

Lemma count_cons {A : Type} (p : A -> bool) (x : A) (l : list A) :
  Spec.count p (x :: l) = ((if p x then 1 else 0) + Spec.count p l)%nat.
Proof. unfold Spec.count. simpl. destruct (p x); reflexivity. Qed.

Lemma count_ext {A : Type} (p q : A -> bool) (l : list A) :
  (forall x, p x = q x) -> Spec.count p l = Spec.count q l.
Proof.
  intros E. induction l as [|x l IH]; [reflexivity|].
  rewrite !count_cons, IH, E. reflexivity.
Qed.

Lemma is_positive_rated (f : Db.feedback) : is_positive f = Spec.rated_positive f.
Proof.
  unfold is_positive, Spec.rated_positive.
  destruct (Db.average_rating f) as [r|] eqn:E.
  - apply geb_compat, rating_or_zero_rated, E.
  - rewrite (geb_compat _ 0 4 (rating_or_zero_unrated f E)). reflexivity.
Qed.

Lemma is_neutral_rated (f : Db.feedback) : is_neutral f = Spec.rated_neutral f.
Proof.
  unfold is_neutral, Spec.rated_neutral.
  destruct (Db.average_rating f) as [r|] eqn:E.
  - pose proof (rating_or_zero_rated f r E) as H.
    cbv zeta. rewrite (geb_compat _ r _ H), (ltb_compat _ r _ H). reflexivity.
  - pose proof (rating_or_zero_unrated f E) as H.
    cbv zeta. rewrite (geb_compat _ 0 _ H), (ltb_compat _ 0 _ H). reflexivity.
Qed.

Lemma is_negative_rated (f : Db.feedback) : is_negative f = Spec.negative_or_unrated f.
Proof.
  unfold is_negative, Spec.negative_or_unrated.
  destruct (Db.average_rating f) as [r|] eqn:E.
  - apply ltb_compat, rating_or_zero_rated, E.
  - rewrite (ltb_compat _ 0 _ (rating_or_zero_unrated f E)). reflexivity.
Qed.

(** Every row is in exactly one of the three buckets. *)
Lemma one_bucket (f : Db.feedback) :
  ((if is_positive f then 1 else 0) + (if is_neutral f then 1 else 0)
   + (if is_negative f then 1 else 0) = 1)%nat.
Proof.
  unfold is_positive, is_neutral, is_negative. cbv zeta.
  set (r := rating_or_zero f).
  destruct (Js.geb r 4) eqn:H4; destruct (Js.geb r 2.5) eqn:H25;
    destruct (Js.ltb r 4) eqn:L4; destruct (Js.ltb r 2.5) eqn:L25;
    try reflexivity; exfalso;
    repeat match goal with
           | H : Js.geb _ _ = true |- _ => apply geb_true in H
           | H : Js.geb _ _ = false |- _ => apply geb_false in H
           | H : Js.ltb _ _ = true |- _ => apply ltb_true in H
           | H : Js.ltb _ _ = false |- _ => apply ltb_false in H
           end; lra.
Qed.

Lemma buckets_sum (L : list Db.feedback) :
  (Spec.count is_positive L + Spec.count is_neutral L + Spec.count is_negative L
   = length L)%nat.
Proof.
  induction L as [|f L IH]; [reflexivity|].
  rewrite !count_cons. pose proof (one_bucket f). simpl length. lia.
Qed.

(** C1, as stated, fails: a single row without a rating is counted (as
    Negative), while no row of the list has a rating. *)
Lemma unrated_row_is_bucketed :
  negative (sentimentBuckets [unrated_row]) = 1%nat
  /\ Spec.count Spec.rated [unrated_row] = 0%nat
  /\ ~ Spec.buckets_count_rated [unrated_row].
Proof.
  split; [reflexivity|]. split; [reflexivity|].
  unfold Spec.buckets_count_rated. vm_compute. discriminate.
Qed.

(** C1, amended: the three counts add up to the number of all rows of the
    list; positive counts the rows rated 4 or more, neutral the rows rated
    from 2.5 up to 4, negative the rows rated below 2.5 together with the
    rows that have no rating (a [null] rating is read as 0). The chart data
    of Analytics, the analytics of the enhanced overview and the overview
    all carry these buckets. *)
Theorem sentiment_buckets_cover_every_row (L : list Db.feedback) :
  let s := sentimentBuckets L in
  (positive s + neutral s + negative s = length L)%nat
  /\ positive s = Spec.count Spec.rated_positive L
  /\ neutral s = Spec.count Spec.rated_neutral L
  /\ negative s = Spec.count Spec.negative_or_unrated L
  /\ (forall env cd, Analytics.chartData env L = Some cd -> Analytics.cd_sentimentData cd = s)
  /\ (forall a, EnhancedOverview.analytics L = Some a -> EnhancedOverview.sentimentData a = s)
  /\ Overview.sentimentData L = s.
Proof.
  cbv zeta. unfold sentimentBuckets. simpl.
  split; [apply buckets_sum|].
  split; [apply count_ext, is_positive_rated|].
  split; [apply count_ext, is_neutral_rated|].
  split; [apply count_ext, is_negative_rated|].
  split; [|split].
  - intros env cd H. destruct L; [discriminate|]. injection H as <-. reflexivity.
  - intros a H. destruct L; [discriminate|]. injection H as <-. reflexivity.
  - reflexivity.
Qed.

Lemma sentiment_buckets_cover_every_row_witness :
  let L := [rated_row 5; unrated_row; rated_row 3] in
  (positive (sentimentBuckets L) + neutral (sentimentBuckets L)
   + negative (sentimentBuckets L) = 3)%nat
  /\ EnhancedOverview.sentimentData
       {| EnhancedOverview.totalFeedback := 3;
          EnhancedOverview.avgRating := (sum_ratings L / Js.len L)%Q;
          EnhancedOverview.responseRate := 0;
          EnhancedOverview.sentimentData := sentimentBuckets L |}
     = sentimentBuckets L.
Proof.
  cbv zeta.
  pose proof (sentiment_buckets_cover_every_row [rated_row 5; unrated_row; rated_row 3])
    as (Hsum & _ & _ & _ & _ & Henh & _).
  split.
  - exact Hsum.
  - apply Henh. reflexivity.
Defined.

(** ** The sentiment badge of the feedback table *)

(** C10: the badge is "Not Rated" for a [null] rating and for a rating of
    exactly 0, Negative for a rating strictly between 0 and 2.5, Neutral
    from 2.5 up to 4, Positive from 4 on. *)
Theorem getSentimentBadge_bands :
  Management.getSentimentBadge None = Management.NotRated
  /\ forall r : Q,
       ((r == 0)%Q -> Management.getSentimentBadge (Some r) = Management.NotRated)
       /\ ((0 < r)%Q /\ (r < 2.5)%Q ->
           Management.getSentimentBadge (Some r) = Management.Negative)
       /\ ((2.5 <= r)%Q /\ (r < 4)%Q ->
           Management.getSentimentBadge (Some r) = Management.Neutral)
       /\ ((4 <= r)%Q -> Management.getSentimentBadge (Some r) = Management.Positive).
Proof.
  split; [reflexivity|]. intros r.
  unfold Management.getSentimentBadge. simpl.
  repeat split.
  - intros H. apply truthy_false in H. rewrite H. reflexivity.
  - intros [H0 H25].
    assert (Ht : Js.truthy r = true) by (apply truthy_true; lra).
    assert (H4 : Js.geb r 4 = false) by (apply geb_false; lra).
    assert (H5 : Js.geb r 2.5 = false) by (apply geb_false; lra).
    rewrite Ht, H4, H5. reflexivity.
  - intros [H25 H4].
    assert (Ht : Js.truthy r = true) by (apply truthy_true; lra).
    assert (H4' : Js.geb r 4 = false) by (apply geb_false; lra).
    assert (H5 : Js.geb r 2.5 = true) by (apply geb_true; lra).
    rewrite Ht, H4', H5. reflexivity.
  - intros H4.
    assert (Ht : Js.truthy r = true) by (apply truthy_true; lra).
    assert (H4' : Js.geb r 4 = true) by (apply geb_true; lra).
    rewrite Ht, H4'. reflexivity.
Qed.

Lemma getSentimentBadge_bands_witness :
  Management.getSentimentBadge (Some (0 # 7)) = Management.NotRated
  /\ Management.getSentimentBadge (Some 1.2%Q) = Management.Negative
  /\ Management.getSentimentBadge (Some 2.5%Q) = Management.Neutral
  /\ Management.getSentimentBadge (Some 4%Q) = Management.Positive.
Proof.
  destruct getSentimentBadge_bands as [_ H].
  split; [|split; [|split]].
  - apply (H (0 # 7)). reflexivity.
  - apply (H 1.2%Q). split; reflexivity.
  - apply (H 2.5%Q). split; [discriminate | reflexivity].
  - apply (H 4%Q). discriminate.
Defined.

(** ** Rating bands of the search *)

Lemma band_between (lo hi r : Q) :
  RowStore.rating_matches
    [RowStore.Gte "average_rating" (RowStore.VNum lo);
     RowStore.Lt "average_rating" (RowStore.VNum hi)] (Some r) = true
  <-> (lo <= r)%Q /\ (r < hi)%Q.
Proof.
  simpl. rewrite andb_true_r, andb_true_iff, geb_true, ltb_true. reflexivity.
Qed.

Lemma band_from (lo r : Q) :
  RowStore.rating_matches [RowStore.Gte "average_rating" (RowStore.VNum lo)] (Some r) = true
  <-> (lo <= r)%Q.
Proof. simpl. rewrite andb_true_r. apply geb_true. Qed.

Lemma band_below (hi r : Q) :
  RowStore.rating_matches [RowStore.Lt "average_rating" (RowStore.VNum hi)] (Some r) = true
  <-> (r < hi)%Q.
Proof. simpl. rewrite andb_true_r. apply ltb_true. Qed.

(** Of the calls of a query, only those on [average_rating] look at the
    rating of a row. *)
Lemma search_query_rating (env : DateEnv) (filters : Search.SearchFilters) (r : option Q) :
  RowStore.rating_matches (Search.buildQuery env filters) r
  = RowStore.rating_matches (Search.ratingOps (Search.rating filters)) r.
Proof.
  unfold Search.buildQuery, RowStore.rating_matches.
  rewrite !forallb_app.
  destruct (negb (String.eqb (Search.query filters) ""));
    destruct (negb (String.eqb (Search.dateRange filters) "all"));
    destruct (negb (String.eqb (Search.sender filters) ""));
    simpl; rewrite ?andb_true_r; reflexivity.
Qed.

Lemma management_query_rating (env : DateEnv) (s : Management.state) (r : option Q) :
  RowStore.rating_matches (Management.buildQuery env s) r
  = RowStore.rating_matches (Management.ratingOps (Management.ratingFilter s)) r.
Proof.
  unfold Management.buildQuery, RowStore.rating_matches.
  rewrite !forallb_app.
  destruct (negb (String.eqb (Management.searchTerm s) ""));
    destruct (negb (String.eqb (Management.dateFilter s) "all"));
    simpl; rewrite ?andb_true_r; reflexivity.
Qed.

(** With a rating selected the search sends its query, and the query
    asks of the rating what the selector says. *)
Lemma search_issued_with_rating (env : DateEnv) (filters : Search.SearchFilters)
  (selector : string) :
  Search.is_set selector = true ->
  Search.issued env (Search.updateFilter filters Search.Krating selector)
  = Some (Search.buildQuery env (Search.updateFilter filters Search.Krating selector)).
Proof.
  intros H. unfold Search.issued, Search.enabled, Search.values. simpl.
  rewrite H. simpl. rewrite orb_true_r. reflexivity.
Qed.

Lemma search_keeps (env : DateEnv) (filters : Search.SearchFilters) (selector : string) (r : Q) :
  Search.is_set selector = true ->
  Search.keeps env filters selector r
  = RowStore.rating_matches (Search.ratingOps selector) (Some r).
Proof.
  intros H. unfold Search.keeps.
  rewrite (search_issued_with_rating env filters selector H).
  apply search_query_rating.
Qed.

Lemma management_keeps (env : DateEnv) (s : Management.state) (selector : string) (r : Q) :
  Management.keeps env s selector r
  = RowStore.rating_matches (Management.ratingOps selector) (Some r).
Proof. unfold Management.keeps. apply management_query_rating. Qed.

(** C3, as stated, fails for the filter of the feedback page: its query
    knows the selectors "4+", "3+", "2+" and "1+" and asks nothing of the
    rating under "5" to "1", so that "5" keeps a row rated 0 and "3"
    keeps all of 2.4, 2.5, 3.4, 3.5; and no selector at all keeps
    exactly 2.5 and 3.4 of them. *)
Lemma management_has_other_bands :
  (forall env s, ~ Spec.rating_bands (Management.keeps env s))
  /\ (forall env s, ~ Spec.band_3_example (Management.keeps env s))
  /\ (forall env s selector,
        List.filter (Management.keeps env s selector) [2.4; 2.5; 3.4; 3.5]%Q
        <> [2.5; 3.4]%Q).
Proof.
  assert (H3 : forall env s selector,
             List.filter (Management.keeps env s selector) [2.4; 2.5; 3.4; 3.5]%Q
             <> [2.5; 3.4]%Q).
  { intros env s selector.
    rewrite (List.filter_ext _ _ (management_keeps env s selector)).
    unfold Management.ratingOps.
    destruct (String.eqb selector "all"); [vm_compute; discriminate|].
    destruct (String.eqb selector "4+"); [vm_compute; discriminate|].
    destruct (String.eqb selector "3+"); [vm_compute; discriminate|].
    destruct (String.eqb selector "2+"); [vm_compute; discriminate|].
    destruct (String.eqb selector "1+"); vm_compute; discriminate. }
  split; [|split].
  - intros env s H. destruct (H 0%Q) as (H5 & _).
    assert (K : Management.keeps env s "5" 0 = true)
      by (rewrite management_keeps; reflexivity).
    apply H5 in K. lra.
  - intros env s H. exact (H3 env s "3" H).
  - exact H3.
Qed.

(** C3, amended. The query the advanced search sends for the selectors
    "5" to "1" keeps the ratings of [4.5, oo), [3.5, 4.5), [2.5, 3.5),
    [1.5, 2.5) and (-oo, 1.5), whatever the other filters are; band "3"
    keeps 2.5 and 3.4 out of 2.4, 2.5, 3.4, 3.5; a row without a rating is
    in none of the five bands. The query of the feedback page has the
    selectors "4+", "3+", "2+" and "1+", for [4, oo), [3, 4), [2, 3) and
    (-oo, 2), and asks nothing of the rating under "5" to "1". *)
Theorem rating_band_intervals :
  (forall env filters,
     Spec.rating_bands (Search.keeps env filters)
     /\ Spec.band_3_example (Search.keeps env filters)
     /\ Forall (fun selector =>
                  exists q,
                    Search.issued env (Search.updateFilter filters Search.Krating selector)
                    = Some q
                    /\ RowStore.rating_matches q None = false)
               ["5"; "4"; "3"; "2"; "1"])
  /\ (forall env s (r : Q),
        (Management.keeps env s "4+" r = true <-> (4 <= r)%Q)
        /\ (Management.keeps env s "3+" r = true <-> (3 <= r)%Q /\ (r < 4)%Q)
        /\ (Management.keeps env s "2+" r = true <-> (2 <= r)%Q /\ (r < 3)%Q)
        /\ (Management.keeps env s "1+" r = true <-> (r < 2)%Q))
  /\ (forall env s (r : Q),
        Forall (fun selector => Management.keeps env s selector r = true)
               ["5"; "4"; "3"; "2"; "1"]).
Proof.
  split; [|split].
  - intros env filters. split; [|split].
    + intros r. rewrite !search_keeps by reflexivity.
      split; [apply band_from|].
      split; [apply band_between|].
      split; [apply band_between|].
      split; [apply band_between|].
      apply band_below.
    + unfold Spec.band_3_example.
      rewrite (List.filter_ext _ _
                 (fun r => search_keeps env filters "3" r eq_refl)).
      reflexivity.
    + repeat constructor;
        (eexists; split;
         [apply search_issued_with_rating; reflexivity
         | rewrite search_query_rating; reflexivity]).
  - intros env s r. rewrite !management_keeps.
    split; [apply band_from|].
    split; [apply band_between|].
    split; [apply band_between|].
    apply band_below.
  - intros env s r. repeat constructor; rewrite management_keeps; reflexivity.
Qed.

Lemma rating_band_intervals_witness :
  Search.keeps sample_env Search.initialFilters "5" 4.5 = true
  /\ Search.keeps sample_env Search.initialFilters "4" 3.5 = true
  /\ ((2.5 <= 3.4)%Q /\ (3.4 < 3.5)%Q)
  /\ Search.keeps sample_env Search.initialFilters "1" 1.4 = true
  /\ Management.keeps sample_env on_page_3 "3+" 3.4 = true.
Proof.
  destruct rating_band_intervals as (HS & HM & _).
  destruct (HS sample_env Search.initialFilters) as (H & _).
  split; [|split; [|split; [|split]]].
  - destruct (H 4.5%Q) as (H5 & _). apply H5. discriminate.
  - destruct (H 3.5%Q) as (_ & H4 & _). apply H4. split; [discriminate | reflexivity].
  - destruct (H 3.4%Q) as (_ & _ & H3 & _). apply H3. reflexivity.
  - destruct (H 1.4%Q) as (_ & _ & _ & _ & H1). apply H1. reflexivity.
  - destruct (HM sample_env on_page_3 3.4%Q) as (_ & H3 & _). apply H3.
    split; [discriminate | reflexivity].
Defined.

(** ** Priority of a notification *)

(** C6, as stated, fails: the notification of a feedback without a rating
    is given the priority high. *)
Lemma unrated_feedback_is_high_priority :
  Notifications.priority (Notifications.ofFeedback 0 unrated_row) = Notifications.high
  /\ Db.average_rating unrated_row = None
  /\ ~ Spec.feedback_priority_rule
         (Notifications.priority (Notifications.ofFeedback 0 unrated_row))
         (Db.average_rating unrated_row).
Proof.
  split; [reflexivity|]. split; [reflexivity|].
  intros [[H _] _].
  destruct (H eq_refl) as (r & E & _). discriminate E.
Qed.

(** C6, amended: the notification of a new feedback is high when its
    rating is absent (it is read as 0) or below 3, and medium otherwise,
    that is when the rating is present and at least 3; the notification of
    a new issue is always high. *)
Theorem notification_priority :
  (forall t new,
     Notifications.priority (Notifications.ofFeedback t new) = Notifications.high
     <-> Db.average_rating new = None \/ Spec.present_and_below_3 (Db.average_rating new))
  /\ (forall t new,
        Notifications.priority (Notifications.ofFeedback t new) = Notifications.medium
        <-> exists r, Db.average_rating new = Some r /\ (3 <= r)%Q)
  /\ (forall t new,
        Notifications.priority (Notifications.ofIssue t new) = Notifications.high).
Proof.
  split; [|split].
  - intros t new. simpl. unfold Spec.present_and_below_3.
    destruct (Db.average_rating new) as [r|]; simpl.
    + destruct (Js.ltb r 3) eqn:E.
      * apply ltb_true in E. split; [|reflexivity]. intros _. right. exists r. auto.
      * apply ltb_false in E. split; [discriminate|].
        intros [H | (r' & H & Hlt)]; [discriminate|]. injection H as <-. lra.
    + split; [|reflexivity]. intros _. left. reflexivity.
  - intros t new. simpl.
    destruct (Db.average_rating new) as [r|]; simpl.
    + destruct (Js.ltb r 3) eqn:E.
      * apply ltb_true in E. split; [discriminate|].
        intros (r' & H & Hle). injection H as <-. lra.
      * apply ltb_false in E. split; [|reflexivity]. intros _. exists r. auto.
    + split; [discriminate|]. intros (r & H & _). discriminate H.
  - reflexivity.
Qed.

Lemma notification_priority_witness :
  Notifications.priority (Notifications.ofFeedback 0 unrated_row) = Notifications.high
  /\ Notifications.priority (Notifications.ofFeedback 0 (rated_row 2)) = Notifications.high
  /\ Notifications.priority (Notifications.ofFeedback 0 (rated_row 3)) = Notifications.medium.
Proof.
  destruct notification_priority as (Hh & Hm & _).
  split; [|split].
  - apply Hh. left. reflexivity.
  - apply Hh. right. exists 2%Q. split; reflexivity.
  - apply Hm. exists 3%Q. split; [reflexivity | discriminate].
Defined.

(** ** Retention of notifications *)

Lemma run_snoc (events : list Notifications.insert_event) (e : Notifications.insert_event) :
  Notifications.run (events ++ [e])
  = Notifications.push (Notifications.notificationOf e) (Notifications.run events).
Proof. unfold Notifications.run. rewrite fold_left_app. reflexivity. Qed.

Lemma run_newest_first (events : list Notifications.insert_event) :
  Notifications.run events = take 10 (rev (map Notifications.notificationOf events)).
Proof.
  induction events as [|e events IH] using rev_ind; [reflexivity|].
  rewrite run_snoc, IH, map_app, rev_app_distr. simpl.
  unfold Notifications.push. f_equal.
  rewrite take_take. reflexivity.
Qed.

(** C7: after any sequence of insert events the list holds the
    notifications of the last ten events at most, the newest first; the
    older ones are gone. Twelve inserts leave the ten newest. *)
Theorem notifications_keep_ten_newest :
  (forall events,
     Notifications.run events = take 10 (rev (map Notifications.notificationOf events))
     /\ length (Notifications.run events) = Nat.min 10 (length events))
  /\ (forall e1 e2 rest,
        length rest = 10%nat ->
        Notifications.run (e1 :: e2 :: rest) = rev (map Notifications.notificationOf rest))
  /\ map Notifications.id (Notifications.run twelve_inserts)
     = ["M"; "L"; "K"; "J"; "I"; "H"; "G"; "F"; "E"; "D"].
Proof.
  split; [|split].
  - intros events. split; [apply run_newest_first|].
    rewrite run_newest_first, length_take, length_rev, length_map. reflexivity.
  - intros e1 e2 rest Hlen.
    rewrite run_newest_first. simpl map. simpl rev.
    rewrite <- !app_assoc.
    rewrite take_app_le by (rewrite length_rev, length_map; lia).
    apply take_ge. rewrite length_rev, length_map. lia.
  - reflexivity.
Qed.

Lemma notifications_keep_ten_newest_witness :
  Notifications.run twelve_inserts
  = rev (map Notifications.notificationOf (drop 2 twelve_inserts)).
Proof.
  destruct notifications_keep_ten_newest as (_ & H & _).
  apply (H (Notifications.IssueInsert 1 (sample_issue 1))
           (Notifications.IssueInsert 2 (sample_issue 2))
           (drop 2 twelve_inserts)).
  reflexivity.
Defined.

(** ** The idle state of the search *)

(** C9 on the code: with every filter at its default the count of active
    filters is 0, yet [enabled] holds, because the sort field and the sort
    direction, which are never empty nor "all", are among the values it
    looks at: the query is issued, unfiltered. In general [enabled] holds
    as soon as a filter is active or one of the two sort fields is set. *)
Theorem default_filters_still_query :
  Search.activeFiltersCount Search.initialFilters = 0%nat
  /\ Search.enabled Search.initialFilters = true
  /\ (forall env,
        Search.issued env Search.initialFilters
        = Some [RowStore.Order "received_at" false; RowStore.Limit 50])
  /\ (forall filters,
        Search.enabled filters
        = (0 <? Search.activeFiltersCount filters)%nat
          || Search.is_set (Search.sortBy filters)
          || Search.is_set (Search.sortOrder filters)).
Proof.
  split; [reflexivity|]. split; [reflexivity|]. split; [reflexivity|].
  intros filters.
  unfold Search.enabled, Search.activeFiltersCount, Search.values, Search.entries.
  cbn [map snd fst existsb List.filter Search.is_sort_key negb].
  destruct (Search.is_set (Search.query filters)),
    (Search.is_set (Search.rating filters)),
    (Search.is_set (Search.dateRange filters)),
    (Search.is_set (Search.sender filters)),
    (Search.is_set (Search.sortBy filters)),
    (Search.is_set (Search.sortOrder filters)),
    (Search.is_set (Search.category filters)); reflexivity.
Qed.

(** ** The page cursor of the feedback page *)

(** C4 on the code: the three filter controls call their setter and
    nothing else, so the page stays where it is; only "Clear Filters"
    goes back to page 1. On page 3, choosing the rating "4+" leaves the
    page at 3 and the next read asks for the rows 20 to 29. *)
Theorem filter_change_keeps_page :
  (forall totalPages s v,
     Management.currentPage (Management.handle totalPages s (Management.SearchInput v))
     = Management.currentPage s
     /\ Management.currentPage (Management.handle totalPages s (Management.RatingSelect v))
        = Management.currentPage s
     /\ Management.currentPage (Management.handle totalPages s (Management.DateSelect v))
        = Management.currentPage s)
  /\ (forall totalPages s,
        Management.currentPage (Management.handle totalPages s Management.ClearFilters) = 1%Z)
  /\ Management.currentPage
       (Management.handle 3 on_page_3 (Management.RatingSelect "4+")) = 3%Z
  /\ (forall env,
        Management.buildQuery env
          (Management.handle 3 on_page_3 (Management.RatingSelect "4+"))
        = [RowStore.Order "received_at" false;
           RowStore.Gte "average_rating" (RowStore.VNum 4);
           RowStore.Range 20 29]).
Proof.
  split; [|split; [|split]]; try reflexivity.
  intros totalPages s v. repeat split.
Qed.

(** ** Pagination *)

Lemma totalPagesOf_ceiling (c : Z) :
  let tp := Management.totalPagesOf (Some c) in
  ((tp - 1) * Management.ITEMS_PER_PAGE < c <= tp * Management.ITEMS_PER_PAGE)%Z.
Proof.
  cbv zeta. unfold Management.totalPagesOf, Management.count_or_zero,
    Management.ITEMS_PER_PAGE, Js.ceil.
  set (x := (inject_Z c / inject_Z 10)%Q).
  assert (Hx : (x * 10 == inject_Z c)%Q) by (unfold x; field).
  pose proof (Qle_ceiling x) as Hle.
  pose proof (Qceiling_lt x) as Hlt.
  set (tp := Qceiling x) in *.
  split.
  - rewrite Zlt_Qlt, inject_Z_mult.
    unfold Z.sub in *. rewrite inject_Z_plus in *.
    change (inject_Z (-1)) with (-1 # 1)%Q in *. change (inject_Z 10) with 10%Q.
    lra.
  - rewrite Zle_Qle, inject_Z_mult. change (inject_Z 10) with 10%Q. lra.
Qed.

(** The quotient under [Math.ceil] is a binary64 value; for a count
    below 2^32 its ceiling is the one of the exact quotient. *)
Remark totalPages_in_binary64 (c : Z) :
  (0 <= c < 2 ^ 32)%Z ->
  Js.ceil (Js.div (inject_Z c) (inject_Z Management.ITEMS_PER_PAGE))
  = Management.totalPagesOf (Some c).
Proof.
  intros Hc. pose proof (totalPagesOf_ceiling c) as Hk. cbv zeta in Hk.
  unfold Management.totalPagesOf, Management.count_or_zero, Management.ITEMS_PER_PAGE,
    Js.ceil, Js.div in *.
  set (x := (inject_Z c / inject_Z 10)%Q) in *.
  set (k := Qceiling x) in *.
  assert (Ex : (x * 10 == inject_Z c)%Q) by (unfold x; field).
  assert (Hk53 : (- 2 ^ 53 <= k <= 2 ^ 53)%Z) by lia.
  assert (Hlo : (k * 10 + 1 <= c + 10)%Z) by lia.
  assert (Hhi : (c <= k * 10)%Z) by lia.
  assert (H0 : (0 <= c)%Z) by lia.
  assert (H1 : (c <= 2 ^ 32)%Z) by lia.
  rewrite Zle_Qle in Hlo, Hhi, H0, H1.
  rewrite !inject_Z_plus, inject_Z_mult in Hlo. rewrite inject_Z_mult in Hhi.
  change (inject_Z 10) with 10%Q in *. change (inject_Z 1) with 1%Q in *.
  change (inject_Z 0) with 0%Q in *. change (inject_Z (2 ^ 32)) with 4294967296%Q in *.
  assert (Hcl : (Qabs (Js.double x - x) <= Js.pow2 (32 - 53))%Q).
  { apply double_close; [lia | lra|]. change (Js.pow2 32) with 4294967296%Q. lra. }
  change (Js.pow2 (32 - 53)) with (1 # 2097152)%Q in Hcl.
  apply Qabs_Qle_condition in Hcl.
  assert (Hup : (Js.double x <= inject_Z k)%Q) by (apply double_le; [exact Hk53 | lra]).
  pose proof (Qle_ceiling (Js.double x)) as Hc1.
  pose proof (Qceiling_resp_le _ _ Hup) as Hc2. rewrite Qceiling_Z in Hc2.
  assert (Hc3 : (inject_Z k < inject_Z (Qceiling (Js.double x) + 1))%Q).
  { rewrite inject_Z_plus. change (inject_Z 1) with 1%Q. lra. }
  rewrite <- Zlt_Qlt in Hc3. lia.
Qed.









(** ** The rating average *)

Lemma toFixed1_compat (x y : Q) : (x == y)%Q -> (Js.toFixed1 x == Js.toFixed1 y)%Q.
Proof.
  intros E. unfold Js.toFixed1.
  rewrite (ltb_compat x y 0 E).
  assert (E1 : Qfloor (- x * 10 + (1 # 2)) = Qfloor (- y * 10 + (1 # 2)))
    by (apply Qfloor_comp; rewrite E; reflexivity).
  assert (E2 : Qfloor (x * 10 + (1 # 2)) = Qfloor (y * 10 + (1 # 2)))
    by (apply Qfloor_comp; rewrite E; reflexivity).
  rewrite E1, E2. reflexivity.
Qed.

















(** ** The aggregation and its input *)

Lemma find_elem_of (h : list Heap.object) (d : string) (acc : list nat) (e : nat) :
  Heap.find h d acc = Some e -> e ∈ acc.
Proof.
  induction acc as [|a acc IH]; simpl; [discriminate|].
  intros H.
  destruct (h !! a) as [[f|p]|].
  - right. apply IH, H.
  - destruct (String.eqb (Analytics.date p) d).
    + injection H as <-. left.
    + right. apply IH, H.
  - right. apply IH, H.
Qed.

Lemma step_extends (env : DateEnv) (h0 : list Heap.object)
  (st : list Heap.object * list nat) (a : nat) :
  Heap.extends h0 st -> Heap.extends h0 (Heap.step env st a).
Proof.
  destruct st as [h acc]. intros (Hlen & Hold & Hacc). simpl in *.
  unfold Heap.step.
  destruct (h !! a) as [[f|p]|]; [|repeat split; assumption..].
  destruct (Heap.find h _ acc) as [e|] eqn:Hfind.
  - destruct (h !! e) as [[f'|existing]|]; [repeat split; assumption| |repeat split; assumption].
    repeat split; simpl.
    + rewrite length_insert. exact Hlen.
    + intros b Hb. rewrite list_lookup_insert_ne; [apply Hold, Hb|].
      apply find_elem_of in Hfind.
      rewrite Forall_forall in Hacc. specialize (Hacc e Hfind). lia.
    + exact Hacc.
  - repeat split; simpl.
    + rewrite length_app. lia.
    + intros b Hb. rewrite lookup_app_l by lia. apply Hold, Hb.
    + apply Forall_app. split; [exact Hacc|]. repeat constructor. exact Hlen.
Qed.

Lemma fold_extends (env : DateEnv) (h0 : list Heap.object) (feedbacks : list nat)
  (st : list Heap.object * list nat) :
  Heap.extends h0 st -> Heap.extends h0 (fold_left (Heap.step env) feedbacks st).
Proof.
  revert st. induction feedbacks as [|a feedbacks IH]; intros st H; simpl; [exact H|].
  apply IH, step_extends, H.
Qed.

(** A write to an address outside of an array leaves its entries as they
    are. *)
Lemma holds_points_insert (h : list Heap.object) (acc : list nat)
  (ps : list Analytics.timePoint) (e : nat) (o : Heap.object) :
  e ∉ acc -> Heap.holds_points h acc ps -> Heap.holds_points (<[e := o]> h) acc ps.
Proof.
  intros Hnotin H. induction H as [|a p acc ps Ha H IH]; constructor.
  - rewrite list_lookup_insert_ne; [exact Ha|]. intros ->. apply Hnotin. left.
  - apply IH. intros Hin. apply Hnotin. right. exact Hin.
Qed.

Lemma holds_points_app (h : list Heap.object) (acc : list nat)
  (ps : list Analytics.timePoint) (o : Heap.object) :
  Heap.holds_points h acc ps -> Heap.holds_points (h ++ [o]) acc ps.
Proof.
  intros H. induction H as [|a p acc ps Ha H IH]; constructor; [|exact IH].
  apply lookup_app_l_Some, Ha.
Qed.

(** [find] on the heap, followed by the write, is [bump_first] on the
    entries the accumulator holds. *)
Lemma find_bump_first (h : list Heap.object) (d : string) (f : Db.feedback)
  (acc : list nat) (ps : list Analytics.timePoint) :
  Heap.holds_points h acc ps -> NoDup acc ->
  match Analytics.bump_first d f ps with
  | None => Heap.find h d acc = None
  | Some ps' =>
      exists e existing,
        Heap.find h d acc = Some e
        /\ h !! e = Some (Heap.Point existing)
        /\ Heap.holds_points (<[e := Heap.Point (Analytics.bump existing f)]> h) acc ps'
  end.
Proof.
  intros H. induction H as [|a p acc ps Ha H IH]; intros Hnodup; simpl; [reflexivity|].
  apply NoDup_cons in Hnodup as [Hnotin Hnodup].
  rewrite Ha.
  destruct (String.eqb (Analytics.date p) d).
  - exists a, p. split; [reflexivity|]. split; [exact Ha|].
    constructor.
    + apply list_lookup_insert_eq. eapply lookup_lt_Some, Ha.
    + apply holds_points_insert; assumption.
  - specialize (IH Hnodup).
    destruct (Analytics.bump_first d f ps) as [ps'|]; simpl; [|exact IH].
    destruct IH as (e & existing & Hfind & He & Hps').
    exists e, existing. split; [exact Hfind|]. split; [exact He|].
    constructor; [|exact Hps'].
    rewrite list_lookup_insert_ne; [exact Ha|].
    intros ->. apply Hnotin. eapply find_elem_of, Hfind.
Qed.

Lemma step_computes (env : DateEnv) (h0 : list Heap.object)
  (st : list Heap.object * list nat) (ps : list Analytics.timePoint)
  (a : nat) (f : Db.feedback) :
  h0 !! a = Some (Heap.Row f) ->
  Heap.computes h0 st ps ->
  Heap.computes h0 (Heap.step env st a) (Analytics.timeSeriesStep env ps f).
Proof.
  intros Ha (Hext & Hps & Hnodup & Hlt).
  split; [apply step_extends, Hext|].
  destruct st as [h acc]. simpl in *.
  assert (Hrow : h !! a = Some (Heap.Row f)).
  { destruct Hext as (_ & Hold & _). simpl in Hold.
    rewrite Hold; [exact Ha|]. eapply lookup_lt_Some, Ha. }
  unfold Heap.step, Analytics.timeSeriesStep. rewrite Hrow.
  set (d := toLocaleDateString env (parse env (Db.received_at f))).
  pose proof (find_bump_first h d f acc ps Hps Hnodup) as Hfind.
  destruct (Analytics.bump_first d f ps) as [ps'|].
  - destruct Hfind as (e & existing & -> & -> & Hps'). simpl.
    split; [exact Hps'|]. split; [exact Hnodup|].
    rewrite length_insert. exact Hlt.
  - rewrite Hfind. simpl. split; [|split].
    + apply Forall2_app; [apply holds_points_app, Hps|].
      repeat constructor. apply list_lookup_middle. reflexivity.
    + apply NoDup_app. split; [exact Hnodup|]. split; [|apply NoDup_singleton].
      intros e He Hin. apply list_elem_of_singleton in Hin as ->.
      rewrite Forall_forall in Hlt. specialize (Hlt _ He). lia.
    + rewrite length_app. simpl. apply Forall_app. split.
      * eapply Forall_impl; [exact Hlt|]. simpl. intros; lia.
      * repeat constructor. lia.
Qed.

Lemma fold_computes (env : DateEnv) (h0 : list Heap.object) (arr : list nat)
  (rows : list Db.feedback) :
  Heap.holds_rows h0 arr rows ->
  forall st ps,
    Heap.computes h0 st ps ->
    Heap.computes h0 (fold_left (Heap.step env) arr st)
      (fold_left (Analytics.timeSeriesStep env) rows ps).
Proof.
  intros H. induction H as [|a f arr rows Ha H IH]; intros st ps Hst; simpl; [exact Hst|].
  apply IH, step_computes; assumption.
Qed.

(** C8, as stated, fails: two calls on the same rows give different
    results when [Math.random()] draws differently (0 and then 0.5 here),
    in [loadDashboardData] ([weeklyChange] is -10 and then 0) and in the
    statistics of Analytics; and the chart data of Analytics change with
    the day the call is made on. *)
Lemma two_calls_differ :
  ~ Spec.same_output_on_every_call
      (fun random L =>
         Dashboard.loadDashboardData sample_env random (Some (Z.of_nat (length L))) (Some L))
  /\ ~ Spec.same_output_on_every_call (fun random L => Analytics.stats random L [])
  /\ ~ (Dashboard.weeklyChange
          (Dashboard.loadDashboardData sample_env (always 0) (Some 1%Z) (Some [rated_row 4]))
        == Dashboard.weeklyChange
             (Dashboard.loadDashboardData sample_env (always 0.5) (Some 1%Z)
                (Some [rated_row 4])))%Q
  /\ Analytics.chartData sample_env [rated_row 4]
     <> Analytics.chartData (next_day sample_env) [rated_row 4].
Proof.
  split; [|split; [|split]].
  - intros H. specialize (H (always 0) (always 0.5) [rated_row 4]).
    apply (f_equal Dashboard.weeklyChange) in H. vm_compute in H. discriminate H.
  - intros H. specialize (H (always 0) (always 0.5) [rated_row 4]).
    apply (f_equal (option_map Analytics.responseRate)) in H.
    vm_compute in H. discriminate H.
  - vm_compute. discriminate.
  - intros H. apply (f_equal (option_map Analytics.cd_weeklyData)) in H.
    vm_compute in H. discriminate H.
Qed.

(** C8, amended. The aggregation never writes to its input: the one
    [reduce] that writes to objects leaves every object of the heap it is
    started on as it was, its writes go to the entries it has created
    itself, and for an array of rows it computes the entries of
    [timeSeriesData]. What is computed from the rows is the same on every
    call: the average, the total and the sentiment slices of
    [loadDashboardData], and the total and the average of the statistics
    of Analytics, do not depend on what [Math.random()] draws, and the
    time series, the buckets, the rating bars and the hour bars of the
    chart data do not depend on the time of the call. (The trends, rates
    and changes drawn from [Math.random()], and the week chart, which is
    relative to today, are not functions of the rows alone.) *)
Theorem aggregation_reads_its_input :
  (forall env (h : list Heap.object) feedbacks a,
     a < length h -> (Heap.timeSeriesData env h feedbacks).1 !! a = h !! a)
  /\ (forall env h feedbacks rows,
        Heap.holds_rows h feedbacks rows ->
        let st := Heap.timeSeriesData env h feedbacks in
        Heap.holds_rows st.1 feedbacks rows
        /\ Heap.holds_points st.1 st.2 (Analytics.timeSeriesData env rows))
  /\ (forall env random1 random2 count data,
        let s1 := Dashboard.loadDashboardData env random1 count data in
        let s2 := Dashboard.loadDashboardData env random2 count data in
        Dashboard.totalFeedback s1 = Dashboard.totalFeedback s2
        /\ Dashboard.ds_averageRating s1 = Dashboard.ds_averageRating s2
        /\ Dashboard.ds_sentimentDistribution s1 = Dashboard.ds_sentimentDistribution s2)
  /\ (forall random1 random2 L issues,
        option_map (fun st => (Analytics.totalFeedback st, Analytics.st_avgRating st,
                               Analytics.totalIssues st))
                   (Analytics.stats random1 L issues)
        = option_map (fun st => (Analytics.totalFeedback st, Analytics.st_avgRating st,
                                 Analytics.totalIssues st))
                     (Analytics.stats random2 L issues))
  /\ (forall env t L,
        option_map (fun cd => (Analytics.cd_timeSeriesData cd, Analytics.cd_sentimentData cd,
                               Analytics.cd_ratingDistribution cd, Analytics.cd_hourlyData cd))
                   (Analytics.chartData (at_time t env) L)
        = option_map (fun cd => (Analytics.cd_timeSeriesData cd, Analytics.cd_sentimentData cd,
                                 Analytics.cd_ratingDistribution cd,
                                 Analytics.cd_hourlyData cd))
                     (Analytics.chartData env L)).
Proof.
  split; [|split; [|split; [|split]]].
  - intros env h feedbacks a Ha.
    assert (H0 : Heap.extends h (h, [])) by (repeat split; simpl; auto).
    destruct (fold_extends env h feedbacks (h, []) H0) as (_ & Hold & _).
    apply Hold, Ha.
  - intros env h feedbacks rows Hrows. cbv zeta.
    assert (H0 : Heap.computes h (h, []) []).
    { repeat split; simpl; auto; constructor. }
    destruct (fold_computes env h feedbacks rows Hrows (h, []) [] H0)
      as ((_ & Hold & _) & Hps & _).
    split; [|exact Hps].
    eapply Forall2_impl; [exact Hrows|].
    intros a f Ha. simpl. unfold Heap.timeSeriesData.
    rewrite Hold; [exact Ha|]. eapply lookup_lt_Some, Ha.
  - intros. cbv zeta. repeat split.
  - intros random1 random2 L issues. destruct L; reflexivity.
  - intros env t L. destruct L; reflexivity.
Qed.

Lemma aggregation_reads_its_input_witness :
  (Heap.timeSeriesData sample_env sample_heap sample_array).1 !! 1%nat
  = Some (Heap.Row (rated_row 4))
  /\ Heap.holds_points
       (Heap.timeSeriesData sample_env sample_heap sample_array).1
       (Heap.timeSeriesData sample_env sample_heap sample_array).2
       (Analytics.timeSeriesData sample_env [unrated_row; rated_row 4; rated_row 2]).
Proof.
  destruct aggregation_reads_its_input as (Hsame & Hrows & _).
  split.
  - rewrite (Hsame sample_env sample_heap sample_array 1%nat); [reflexivity|].
    simpl. lia.
  - apply (Hrows sample_env sample_heap sample_array
             [unrated_row; rated_row 4; rated_row 2]).
    repeat constructor.
Defined.

(** * Further properties of the code *)

(** ** Notifications: reading *)

Lemma unreadCount_cons (n : Notifications.Notification) (l : list Notifications.Notification) :
  Notifications.unreadCount (n :: l)
  = ((if Notifications.read n then 0 else 1) + Notifications.unreadCount l)%nat.
Proof. unfold Notifications.unreadCount. simpl. destruct (Notifications.read n); reflexivity. Qed.

(** "Mark all as read" leaves nothing unread, changes nothing but the
    [read] flags, and a second click changes nothing. *)
Theorem markAllAsRead_clears (l : list Notifications.Notification) :
  Notifications.unreadCount (Notifications.markAllAsRead l) = 0%nat
  /\ Bell.bellBadge (Notifications.markAllAsRead l) = Bell.NoBadge
  /\ map Bell.content (Notifications.markAllAsRead l) = map Bell.content l
  /\ Notifications.markAllAsRead (Notifications.markAllAsRead l) = Notifications.markAllAsRead l.
Proof.
  assert (H0 : Notifications.unreadCount (Notifications.markAllAsRead l) = 0%nat).
  { induction l as [|n l IH]; [reflexivity|].
    unfold Notifications.markAllAsRead in *. simpl map. rewrite unreadCount_cons, IH.
    reflexivity. }
  split; [exact H0|]. split; [unfold Bell.bellBadge; rewrite H0; reflexivity|].
  split.
  - unfold Notifications.markAllAsRead. rewrite map_map. apply map_ext. intros n. reflexivity.
  - unfold Notifications.markAllAsRead. rewrite map_map. apply map_ext. intros n. reflexivity.
Qed.

Lemma markAsRead_cons (i : string) (n : Notifications.Notification)
  (l : list Notifications.Notification) :
  Notifications.markAsRead i (n :: l)
  = (if String.eqb (Notifications.id n) i then Notifications.setRead n else n)
      :: Notifications.markAsRead i l.
Proof. reflexivity. Qed.

(** A click on a notification marks every entry with its id, and only
    those: the others are as they were, nothing is added, dropped or
    moved, the number of unread entries falls by the number of unread
    entries with that id, and a second click changes nothing. *)
Theorem markAsRead_marks_that_id (i : string) (l : list Notifications.Notification) :
  map Bell.content (Notifications.markAsRead i l) = map Bell.content l
  /\ map Notifications.read (Notifications.markAsRead i l)
     = map (fun n => Notifications.read n || String.eqb (Notifications.id n) i) l
  /\ (Notifications.unreadCount (Notifications.markAsRead i l)
      + length (List.filter
                  (fun n => negb (Notifications.read n) && String.eqb (Notifications.id n) i) l)
      = Notifications.unreadCount l)%nat
  /\ Notifications.markAsRead i (Notifications.markAsRead i l) = Notifications.markAsRead i l.
Proof.
  induction l as [|n l (IHc & IHr & IHu & IHi)]; [repeat split|].
  rewrite !markAsRead_cons.
  destruct (String.eqb (Notifications.id n) i) eqn:E.
  - split; [simpl; f_equal; exact IHc|].
    split; [simpl; rewrite E, orb_true_r; f_equal; exact IHr|].
    split.
    + rewrite !unreadCount_cons. simpl List.filter. rewrite E, andb_true_r.
      destruct (Notifications.read n); simpl in *; lia.
    + simpl Notifications.id. rewrite E. f_equal. exact IHi.
  - split; [simpl; f_equal; exact IHc|].
    split; [simpl; rewrite E, orb_false_r; f_equal; exact IHr|].
    split.
    + rewrite !unreadCount_cons. simpl List.filter. rewrite E, andb_false_r. lia.
    + rewrite E. f_equal. exact IHi.
Qed.

(** Clicks on two notifications can be made in either order. *)
Theorem markAsRead_commutes (i j : string) (l : list Notifications.Notification) :
  Notifications.markAsRead i (Notifications.markAsRead j l)
  = Notifications.markAsRead j (Notifications.markAsRead i l).
Proof.
  induction l as [|n l IH]; [reflexivity|].
  rewrite !markAsRead_cons. rewrite IH. f_equal.
  destruct (String.eqb (Notifications.id n) j) eqn:Ej;
    destruct (String.eqb (Notifications.id n) i) eqn:Ei;
    simpl; rewrite ?Ei, ?Ej; reflexivity.
Qed.

(** ** Notifications: the list the bell shows *)

Lemma unreadCount_le_length (l : list Notifications.Notification) :
  (Notifications.unreadCount l <= length l)%nat.
Proof. unfold Notifications.unreadCount. apply filter_length_le. Qed.

Lemma apply_length (l : list Notifications.Notification) (a : Bell.action) :
  (length l <= 10)%nat -> (length (Bell.apply l a) <= 10)%nat.
Proof.
  intros H. destruct a as [e|i|]; simpl.
  - rewrite length_take. lia.
  - unfold Notifications.markAsRead. rewrite length_map. exact H.
  - unfold Notifications.markAllAsRead. rewrite length_map. exact H.
Qed.

Lemma after_length (actions : list Bell.action) : (length (Bell.after actions) <= 10)%nat.
Proof.
  unfold Bell.after.
  assert (H : forall l, (length l <= 10)%nat ->
                        (length (fold_left Bell.apply actions l) <= 10)%nat).
  { induction actions as [|a actions IH]; intros l Hl; simpl; [exact Hl|].
    apply IH, apply_length, Hl. }
  apply H. simpl. lia.
Qed.

(** Whatever the inserts and clicks, the bell never lists more than ten
    notifications, so never counts more than ten unread ones; its badge
    is absent exactly when nothing is unread, and reads "9+" exactly when
    all ten entries are unread. *)
Theorem bell_is_bounded (actions : list Bell.action) :
  let l := Bell.after actions in
  (length l <= 10)%nat
  /\ (Notifications.unreadCount l <= 10)%nat
  /\ (Bell.bellBadge l = Bell.NoBadge <-> Notifications.unreadCount l = 0%nat)
  /\ (Bell.bellBadge l = Bell.NinePlus
      <-> Notifications.unreadCount l = 10%nat /\ length l = 10%nat).
Proof.
  cbv zeta.
  pose proof (after_length actions) as Hlen.
  pose proof (unreadCount_le_length (Bell.after actions)) as Hun.
  split; [exact Hlen|]. split; [lia|].
  unfold Bell.bellBadge.
  destruct (Nat.ltb_spec 0 (Notifications.unreadCount (Bell.after actions))) as [H0|H0];
    [destruct (Nat.ltb_spec 9 (Notifications.unreadCount (Bell.after actions))) as [H9|H9]|].
  - split; split; intros H; try discriminate H; try reflexivity; try (exfalso; lia).
    split; lia.
  - split; split; intros H; try discriminate H; exfalso; lia.
  - split; split; intros H; try discriminate H; try reflexivity; try (exfalso; lia); lia.
Qed.

Lemma bell_is_bounded_witness :
  Bell.bellBadge (Bell.after (map Bell.Insert twelve_inserts)) = Bell.NinePlus
  /\ Bell.bellBadge (Bell.after (map Bell.Insert twelve_inserts ++ [Bell.MarkAll])) = Bell.NoBadge.
Proof.
  split.
  - apply (bell_is_bounded (map Bell.Insert twelve_inserts)). split; reflexivity.
  - apply (bell_is_bounded (map Bell.Insert twelve_inserts ++ [Bell.MarkAll])). reflexivity.
Defined.

Lemma inserts_over (prev : list Notifications.Notification)
  (events : list Notifications.insert_event) :
  fold_left Notifications.onInsert events prev
  = take 10 (rev (map Notifications.notificationOf events) ++ prev) \/ events = [].
Proof.
  induction events as [|e events IH] using rev_ind; [right; reflexivity|].
  left. rewrite fold_left_app, map_app, rev_app_distr. simpl.
  unfold Notifications.onInsert at 1, Notifications.push. f_equal.
  destruct IH as [-> | ->].
  - rewrite take_take. reflexivity.
  - reflexivity.
Qed.

(** Inserts push the older entries out whether they were read or not:
    after [k] inserts the list is the [k] new notifications, newest first,
    followed by what was there, cut at ten; from ten inserts on, nothing
    of what was there is left. *)
Theorem inserts_push_out (prev : list Notifications.Notification)
  (events : list Notifications.insert_event) :
  (events <> [] ->
   fold_left Notifications.onInsert events prev
   = take 10 (rev (map Notifications.notificationOf events) ++ prev))
  /\ ((10 <= length events)%nat ->
      fold_left Notifications.onInsert events prev
      = take 10 (rev (map Notifications.notificationOf events))).
Proof.
  split.
  - intros Hne. destruct (inserts_over prev events) as [H | H]; [exact H | contradiction].
  - intros Hlen. destruct (inserts_over prev events) as [H | H].
    + rewrite H. apply take_app_le. rewrite length_rev, length_map. exact Hlen.
    + subst events. simpl in Hlen. lia.
Qed.

Lemma inserts_push_out_witness :
  fold_left Notifications.onInsert twelve_inserts
    [Notifications.ofFeedback 0 unrated_row]
  = take 10 (rev (map Notifications.notificationOf twelve_inserts))
  /\ fold_left Notifications.onInsert (take 2 twelve_inserts)
       [Notifications.ofFeedback 0 unrated_row]
     = take 10 (rev (map Notifications.notificationOf (take 2 twelve_inserts))
                ++ [Notifications.ofFeedback 0 unrated_row]).
Proof.
  split.
  - apply (inserts_push_out [Notifications.ofFeedback 0 unrated_row] twelve_inserts).
    simpl. lia.
  - apply (inserts_push_out [Notifications.ofFeedback 0 unrated_row] (take 2 twelve_inserts)).
    discriminate.
Defined.

(** ** Notifications: colours *)


Lemma created_red_or_blue (e : Notifications.insert_event) :
  Bell.red_or_blue (Notifications.notificationOf e).
Proof.
  destruct e as [t new | t new]; unfold Bell.red_or_blue, Bell.colorOf; simpl.
  - destruct (Js.ltb (Js.Number (Db.average_rating new)) 3); [left | right]; reflexivity.
  - left. reflexivity.
Qed.

Lemma apply_red_or_blue (l : list Notifications.Notification) (a : Bell.action) :
  Forall Bell.red_or_blue l -> Forall Bell.red_or_blue (Bell.apply l a).
Proof.
  intros H. destruct a as [e|i|]; simpl.
  - constructor; [apply created_red_or_blue|]. apply Forall_take, H.
  - unfold Notifications.markAsRead. apply Forall_map.
    eapply Forall_impl; [exact H|]. intros n Hn. simpl.
    destruct (String.eqb (Notifications.id n) i); exact Hn.
  - unfold Notifications.markAllAsRead. apply Forall_map.
    eapply Forall_impl; [exact H|]. intros n Hn. exact Hn.
Qed.

(** A notification of a new issue is always shown in red, one of a new
    feedback in red or in blue; whatever the inserts and clicks, the bell
    never shows the orange of an issue nor the gray of the other types. *)
Theorem bell_shows_red_or_blue :
  (forall t new,
     Bell.colorOf (Notifications.ofIssue t new) = "bg-red-100 text-red-800")
  /\ (forall actions, Forall Bell.red_or_blue (Bell.after actions)).
Proof.
  split; [reflexivity|].
  intros actions. unfold Bell.after.
  assert (H : forall l, Forall Bell.red_or_blue l ->
                        Forall Bell.red_or_blue (fold_left Bell.apply actions l)).
  { induction actions as [|a actions IH]; intros l Hl; simpl; [exact Hl|].
    apply IH, apply_red_or_blue, Hl. }
  apply H. constructor.
Qed.

(** ** The filter object of the search *)

(** [updateFilter] sets the field of its key and leaves the other six as
    they are; the entries of the object are its seven fields in the order
    of the keys. *)
Theorem updateFilter_sets_one_field (filters : Search.SearchFilters)
  (k : Search.key) (v : string) :
  SearchKeys.get (Search.updateFilter filters k v) k = v
  /\ (forall k', k' <> k ->
        SearchKeys.get (Search.updateFilter filters k v) k' = SearchKeys.get filters k')
  /\ Search.entries (Search.updateFilter filters k v)
     = map (fun k' => (k', if decide (k' = k) then v else SearchKeys.get filters k'))
           SearchKeys.keys
  /\ (forall v', Search.updateFilter (Search.updateFilter filters k v') k v
                 = Search.updateFilter filters k v).
Proof.
  split; [destruct k; reflexivity|].
  split; [intros k' Hne; destruct k, k'; try reflexivity; contradiction|].
  split; [destruct k; reflexivity|].
  intros v'. destruct k; reflexivity.
Qed.

Lemma updateFilter_sets_one_field_witness :
  SearchKeys.get (Search.updateFilter Search.initialFilters Search.Krating "4") Search.KsortBy
  = "received_at".
Proof.
  destruct (updateFilter_sets_one_field Search.initialFilters Search.Krating "4")
    as (_ & H & _).
  apply (H Search.KsortBy). discriminate.
Defined.

Lemma is_set_false (v : string) : Search.is_set v = false <-> SearchKeys.unset v.
Proof.
  unfold Search.is_set, SearchKeys.unset.
  destruct (String.eqb_spec v ""), (String.eqb_spec v "all"); simpl;
    split; intros H; try reflexivity; try discriminate; auto.
  destruct H; contradiction.
Qed.

(** The count on the "Filters" button is at most five, and it is zero,
    so that "Clear All" is hidden, exactly when the query text, the
    rating, the date range, the sender and the category are all empty or
    "all"; it is zero after [clearFilters]. *)
Theorem activeFiltersCount_zero (filters : Search.SearchFilters) :
  (Search.activeFiltersCount filters <= 5)%nat
  /\ (Search.activeFiltersCount filters = 0%nat
      <-> SearchKeys.unset (Search.query filters)
          /\ SearchKeys.unset (Search.rating filters)
          /\ SearchKeys.unset (Search.dateRange filters)
          /\ SearchKeys.unset (Search.sender filters)
          /\ SearchKeys.unset (Search.category filters))
  /\ Search.activeFiltersCount (Search.clearFilters filters) = 0%nat.
Proof.
  split; [|split; [|reflexivity]].
  - unfold Search.activeFiltersCount, Search.entries.
    cbn [List.filter fst snd Search.is_sort_key negb].
    rewrite !andb_true_r, !andb_false_r.
    destruct (Search.is_set (Search.query filters)),
      (Search.is_set (Search.rating filters)),
      (Search.is_set (Search.dateRange filters)),
      (Search.is_set (Search.sender filters)),
      (Search.is_set (Search.category filters)); simpl; lia.
  - rewrite <- !is_set_false.
    unfold Search.activeFiltersCount, Search.entries.
    cbn [List.filter fst snd Search.is_sort_key negb].
    rewrite !andb_true_r, !andb_false_r.
    destruct (Search.is_set (Search.query filters)),
      (Search.is_set (Search.rating filters)),
      (Search.is_set (Search.dateRange filters)),
      (Search.is_set (Search.sender filters)),
      (Search.is_set (Search.category filters)); simpl;
      split; intros H; try discriminate H; try tauto;
      destruct H as (? & ? & ? & ? & ?); discriminate.
Qed.

Lemma activeFiltersCount_zero_witness :
  Search.activeFiltersCount
    (Search.updateFilter Search.initialFilters Search.KsortBy "subject") = 0%nat.
Proof.
  destruct (activeFiltersCount_zero
              (Search.updateFilter Search.initialFilters Search.KsortBy "subject"))
    as (_ & H & _).
  apply H. unfold SearchKeys.unset. simpl. tauto.
Defined.

(** The category is counted as an active filter but never reaches the
    store: a change of the category leaves the query as it was, while the
    count of active filters goes up by one when the category was unset
    and the new value is neither empty nor "all". *)
Theorem category_is_not_queried (env : DateEnv) (filters : Search.SearchFilters) (v : string) :
  Search.buildQuery env (Search.updateFilter filters Search.Kcategory v)
  = Search.buildQuery env filters
  /\ (SearchKeys.unset (Search.category filters) -> Search.is_set v = true ->
      Search.activeFiltersCount (Search.updateFilter filters Search.Kcategory v)
      = S (Search.activeFiltersCount filters)).
Proof.
  split; [reflexivity|].
  intros Hunset Hset. apply is_set_false in Hunset.
  unfold Search.activeFiltersCount, Search.entries.
  cbn [List.filter fst snd Search.is_sort_key negb Search.updateFilter
         Search.query Search.rating Search.dateRange Search.sender Search.sortBy
         Search.sortOrder Search.category].
  rewrite Hunset, Hset, !andb_true_r, !andb_false_r.
  destruct (Search.is_set (Search.query filters)),
    (Search.is_set (Search.rating filters)),
    (Search.is_set (Search.dateRange filters)),
    (Search.is_set (Search.sender filters)); reflexivity.
Qed.

Lemma category_is_not_queried_witness :
  Search.activeFiltersCount (Search.updateFilter Search.initialFilters Search.Kcategory "bug")
  = 1%nat.
Proof.
  apply (category_is_not_queried sample_env Search.initialFilters "bug").
  - right. reflexivity.
  - reflexivity.
Defined.

(** ** Rating selectors *)

Ltac rating_cases r :=
  unfold RowStore.rating_matches, RowStore.rating_sat; simpl;
  unfold Js.ltb, Js.geb;
  repeat match goal with
         | |- context [Qle_bool ?c r] =>
             let E := fresh "E" in
             destruct (Qle_bool c r) eqn:E;
             [apply Qle_bool_iff in E | apply (geb_false r c) in E]
         end.

(** The five selectors of the search split the ratings: every rating that
    is present is matched by exactly one of them. *)
Theorem search_bands_partition (r : Q) :
  length (List.filter (fun band => RowStore.rating_matches (Search.ratingOps band) (Some r))
                      ["5"; "4"; "3"; "2"; "1"]) = 1%nat.
Proof.
  rating_cases r; simpl; try reflexivity; exfalso; lra.
Qed.

(** So do the four selectors of the feedback page. *)
Theorem management_bands_partition (r : Q) :
  length (List.filter (fun band => RowStore.rating_matches (Management.ratingOps band) (Some r))
                      ["4+"; "3+"; "2+"; "1+"]) = 1%nat.
Proof.
  rating_cases r; simpl; try reflexivity; exfalso; lra.
Qed.

(** On the feedback page the selector "4+" lists exactly the rows whose
    badge is Positive, and every row the selector "3+" lists has the badge
    Neutral; the rows with the badge Neutral are those of "3+" together
    with the upper half of "2+". *)
Theorem selectors_and_badges (r : Q) :
  (RowStore.rating_matches (Management.ratingOps "4+") (Some r) = true
   <-> Management.getSentimentBadge (Some r) = Management.Positive)
  /\ (RowStore.rating_matches (Management.ratingOps "3+") (Some r) = true ->
      Management.getSentimentBadge (Some r) = Management.Neutral)
  /\ (Management.getSentimentBadge (Some r) = Management.Neutral
      <-> RowStore.rating_matches (Management.ratingOps "3+") (Some r) = true
          \/ (RowStore.rating_matches (Management.ratingOps "2+") (Some r) = true
              /\ (2.5 <= r)%Q)).
Proof.
  unfold Management.getSentimentBadge, Js.truthy_opt, Js.Number.
  destruct (Js.truthy r) eqn:Ht;
    [apply truthy_true in Ht | apply truthy_false in Ht]; simpl negb; cbv iota.
  - rating_cases r; simpl;
      repeat split; intros; try discriminate; try reflexivity; try (exfalso; lra);
      try tauto; try (left; reflexivity); try (right; split; [reflexivity | lra]);
      repeat match goal with
             | H : _ \/ _ |- _ => destruct H
             | H : _ /\ _ |- _ => destruct H
             end; try discriminate; try (exfalso; lra).
  - rating_cases r; simpl;
      repeat split; intros; try discriminate; try reflexivity; try (exfalso; lra);
      repeat match goal with
             | H : _ \/ _ |- _ => destruct H
             | H : _ /\ _ |- _ => destruct H
             end; try discriminate; try (exfalso; lra).
Qed.

Lemma selectors_and_badges_witness :
  Management.getSentimentBadge (Some 4.2%Q) = Management.Positive
  /\ Management.getSentimentBadge (Some 3%Q) = Management.Neutral
  /\ Management.getSentimentBadge (Some 2.7%Q) = Management.Neutral.
Proof.
  split; [|split].
  - apply (selectors_and_badges 4.2%Q). reflexivity.
  - destruct (selectors_and_badges 3%Q) as (_ & H & _). apply H. reflexivity.
  - destruct (selectors_and_badges 2.7%Q) as (_ & _ & H). apply H.
    right. split; [reflexivity | discriminate].
Defined.

(** ** The window of a page *)

Lemma buildQuery_range (env : DateEnv) (s : Management.state) :
  last (Management.buildQuery env s) = Some (RowStore.Range (Paging.from s) (Paging.to s)).
Proof.
  unfold Management.buildQuery. cbv zeta.
  rewrite !app_assoc. apply last_snoc.
Qed.

(** The read of a page asks for ten consecutive rows, and the pages tile
    the rows: the row of index [i] (from 0) is asked for on page
    [i / 10 + 1] and on no other page, and when [i] is below the total
    count that page is one of the [totalPages] pages. *)
Theorem page_windows_tile :
  (forall env s,
     last (Management.buildQuery env s) = Some (RowStore.Range (Paging.from s) (Paging.to s))
     /\ (Paging.to s - Paging.from s + 1 = 10)%Z)
  /\ (forall s i,
        (Paging.from s <= i <= Paging.to s)%Z <-> Management.currentPage s = (i / 10 + 1)%Z)
  /\ (forall count i,
        (0 <= i < count)%Z ->
        (1 <= i / 10 + 1 <= Management.totalPagesOf (Some count))%Z).
Proof.
  split; [|split].
  - intros env s. split; [apply buildQuery_range|].
    unfold Paging.to, Management.ITEMS_PER_PAGE. lia.
  - intros s i. unfold Paging.to, Paging.from, Management.ITEMS_PER_PAGE.
    pose proof (Z.div_mod i 10 ltac:(lia)) as Hdm.
    pose proof (Z.mod_pos_bound i 10 ltac:(lia)) as Hmod.
    lia.
  - intros count i Hi.
    pose proof (totalPagesOf_ceiling count) as Hc. cbv zeta in Hc.
    unfold Management.ITEMS_PER_PAGE in Hc.
    pose proof (Z.div_mod i 10 ltac:(lia)) as Hdm.
    pose proof (Z.mod_pos_bound i 10 ltac:(lia)) as Hmod.
    lia.
Qed.

Lemma page_windows_tile_witness :
  (1 <= 22 / 10 + 1 <= Management.totalPagesOf (Some 23%Z))%Z
  /\ (Paging.from on_page_3 <= 22 <= Paging.to on_page_3)%Z.
Proof.
  destruct page_windows_tile as (_ & Hpage & Hin).
  split.
  - apply (Hin 23%Z 22%Z). lia.
  - apply (Hpage on_page_3 22%Z). reflexivity.
Defined.

(** On a page between 1 and [totalPages], the line "Showing X to Y of N
    results" names the rows of the window that exist: X is one more than
    [from], Y is one more than [to] or the total count if that is less,
    X is at most Y, and Y - X + 1 is ten on every page but the last. *)
Theorem showing_names_the_window (s : Management.state) (count : Z) :
  (1 <= Management.currentPage s <= Management.totalPagesOf (Some count))%Z ->
  Paging.showingFrom s = (Paging.from s + 1)%Z
  /\ Paging.showingTo s count = Z.min (Paging.to s + 1) count
  /\ (1 <= Paging.showingFrom s <= Paging.showingTo s count)%Z
  /\ (Paging.showingTo s count <= count)%Z
  /\ (Paging.showingTo s count - Paging.showingFrom s + 1 <= 10)%Z
  /\ ((Management.currentPage s < Management.totalPagesOf (Some count))%Z ->
      (Paging.showingTo s count - Paging.showingFrom s + 1 = 10)%Z).
Proof.
  intros Hp.
  pose proof (totalPagesOf_ceiling count) as Hc. cbv zeta in Hc.
  unfold Paging.showingFrom, Paging.showingTo, Paging.to, Paging.from,
    Management.ITEMS_PER_PAGE in *.
  repeat split; try lia.
Qed.

Lemma showing_names_the_window_witness :
  Paging.showingFrom on_page_3 = 21%Z /\ Paging.showingTo on_page_3 23 = 23%Z.
Proof.
  destruct (showing_names_the_window on_page_3 23%Z) as (H1 & H2 & _).
  - simpl. split; [lia|]. discriminate.
  - split; [exact H1 | exact H2].
Defined.

(** ** The time series of Analytics *)








Lemma firsts_snoc (l : list string) (d : string) :
  Days.firsts (l ++ [d])
  = if existsb (String.eqb d) (Days.firsts l) then Days.firsts l else Days.firsts l ++ [d].
Proof. unfold Days.firsts. rewrite fold_left_app. reflexivity. Qed.

Lemma existsb_eqb_In (d : string) (l : list string) :
  existsb (String.eqb d) l = true <-> In d l.
Proof.
  rewrite existsb_exists. split.
  - intros (x & Hx & E). apply String.eqb_eq in E. subst. exact Hx.
  - intros H. exists d. split; [exact H | apply String.eqb_refl].
Qed.










(** ** Charts that count the rows by a key *)

Lemma filter_or_disjoint {A : Type} (p q : A -> bool) (l : list A) :
  (forall x, p x = true -> q x = false) ->
  length (List.filter (fun x => p x || q x) l)
  = (length (List.filter p l) + length (List.filter q l))%nat.
Proof.
  intros Hdis. induction l as [|x l IH]; [reflexivity|]. simpl.
  destruct (p x) eqn:Hp; simpl.
  - rewrite (Hdis x Hp). simpl. rewrite IH. reflexivity.
  - destruct (q x); simpl; rewrite IH; lia.
Qed.

(** Counting the elements key by key, over keys without repetition,
    counts the elements whose key is among the keys. *)
Lemma count_by_key {A K : Type} (eqb : K -> K -> bool)
  (Heqb : forall a b, eqb a b = true <-> a = b) (key : A -> K) (ks : list K) (l : list A) :
  NoDup ks ->
  sum_list (map (fun k => length (List.filter (fun x => eqb (key x) k) l)) ks)
  = length (List.filter (fun x => existsb (eqb (key x)) ks) l).
Proof.
  intros Hnd. induction ks as [|k ks IH]; simpl.
  - induction l as [|x l IHl]; [reflexivity | exact IHl].
  - apply NoDup_cons in Hnd as [Hnotin Hnd]. rewrite (IH Hnd).
    symmetry. apply filter_or_disjoint.
    intros x Hx. apply Heqb in Hx.
    destruct (existsb (eqb (key x)) ks) eqn:E; [|reflexivity].
    apply existsb_exists in E as (k' & Hk' & E). apply Heqb in E.
    exfalso. apply Hnotin. rewrite <- Hx, E. apply list_elem_of_In, Hk'.
Qed.

Lemma filter_all {A : Type} (p : A -> bool) (l : list A) :
  (forall x, In x l -> p x = true) -> List.filter p l = l.
Proof.
  induction l as [|x l IH]; [reflexivity|]. intros H. simpl.
  rewrite (H x (or_introl eq_refl)). f_equal. apply IH. intros y Hy. apply H. right. exact Hy.
Qed.

Lemma hours_NoDup : NoDup (map Z.of_nat (seq 0 24)).
Proof. apply NoDup_fmap; [intros a b; lia | apply NoDup_seq]. Qed.

Lemma hour_among (h : Z) :
  existsb (Z.eqb h) (map Z.of_nat (seq 0 24)) = true <-> (0 <= h < 24)%Z.
Proof.
  rewrite existsb_exists. split.
  - intros (k & Hk & E). apply Z.eqb_eq in E. subst k.
    apply in_map_iff in Hk as (n & <- & Hn). apply in_seq in Hn. lia.
  - intros H. exists h. split; [|apply Z.eqb_refl].
    apply in_map_iff. exists (Z.to_nat h). split; [lia|]. apply in_seq. lia.
Qed.

(** The hour chart has a bar for each hour from 0 to 23, empty hours
    included; its counts add up to the number of rows whose hour is one of
    these, which is every row when [getHours] is an hour of the day. *)
Theorem hourlyData_counts_every_row (env : DateEnv) (feedbacks : list Db.feedback) :
  map Analytics.hour (Analytics.hourlyData env feedbacks) = map Z.of_nat (seq 0 24)
  /\ sum_list (map Analytics.hour_count (Analytics.hourlyData env feedbacks))
     = length (List.filter (fun f => (0 <=? Days.hourOf env f)%Z && (Days.hourOf env f <? 24)%Z)
                           feedbacks)
  /\ ((forall f, In f feedbacks -> (0 <= Days.hourOf env f < 24)%Z) ->
      sum_list (map Analytics.hour_count (Analytics.hourlyData env feedbacks))
      = length feedbacks).
Proof.
  assert (Hsum : sum_list (map Analytics.hour_count (Analytics.hourlyData env feedbacks))
                 = length (List.filter
                             (fun f => existsb (Z.eqb (Days.hourOf env f))
                                               (map Z.of_nat (seq 0 24))) feedbacks)).
  { unfold Analytics.hourlyData. rewrite map_map. cbn [Analytics.hour_count].
    apply (count_by_key Z.eqb Z.eqb_eq (Days.hourOf env)). apply hours_NoDup. }
  split; [reflexivity|].
  split.
  - rewrite Hsum. f_equal. apply filter_ext. intros f.
    destruct (existsb _ _) eqn:E.
    + apply hour_among in E. symmetry. apply andb_true_iff. split; [apply Z.leb_le | apply Z.ltb_lt]; lia.
    + symmetry. apply not_true_is_false. intros H. apply andb_true_iff in H as [H1 H2].
      apply Z.leb_le in H1. apply Z.ltb_lt in H2.
      assert (Hh : existsb (Z.eqb (Days.hourOf env f)) (map Z.of_nat (seq 0 24)) = true)
        by (apply hour_among; lia).
      congruence.
  - intros Hall. rewrite Hsum. f_equal. apply filter_all.
    intros f Hf. apply hour_among, Hall, Hf.
Qed.

Lemma hourlyData_counts_every_row_witness :
  sum_list (map Analytics.hour_count
              (Analytics.hourlyData sample_env [unrated_row; rated_row 4])) = 2%nat.
Proof.
  apply (hourlyData_counts_every_row sample_env [unrated_row; rated_row 4]).
  intros f [<- | [<- | []]]; (vm_compute; split; [discriminate | reflexivity]).
Defined.



(** When the seven days of the week chart are shown as seven different
    strings, no row is counted twice: the counts of the chart add up to
    the number of rows received on these days, at most the number of
    rows. *)
Theorem week_chart_counts_once (env : DateEnv) (feedbacks : list Db.feedback) :
  NoDup (map (Days.daysAgo env) [6; 5; 4; 3; 2; 1; 0]%Z) ->
  sum_list (map Analytics.wd_feedback (Analytics.weeklyData env feedbacks))
  = length (List.filter
              (fun f => existsb (String.eqb (Days.dayOf env f))
                                (map (Days.daysAgo env) [6; 5; 4; 3; 2; 1; 0]%Z))
              feedbacks)
  /\ (sum_list (map Analytics.wd_feedback (Analytics.weeklyData env feedbacks))
      <= length feedbacks)%nat.
Proof.
  intros Hnd.
  assert (Hsum : sum_list (map Analytics.wd_feedback (Analytics.weeklyData env feedbacks))
                 = length (List.filter
                             (fun f => existsb (String.eqb (Days.dayOf env f))
                                               (map (Days.daysAgo env) [6; 5; 4; 3; 2; 1; 0]%Z))
                             feedbacks)).
  { rewrite <- (count_by_key String.eqb String.eqb_eq (Days.dayOf env) _ feedbacks Hnd).
    reflexivity. }
  split; [exact Hsum|]. rewrite Hsum. apply filter_length_le.
Qed.

Lemma week_chart_counts_once_witness :
  (sum_list (map Analytics.wd_feedback
               (Analytics.weeklyData sample_env [unrated_row; rated_row 4; rated_row 2]))
   <= 3)%nat.
Proof.
  apply (week_chart_counts_once sample_env [unrated_row; rated_row 4; rated_row 2]).
  vm_compute. repeat (apply NoDup_cons_2; [intros H; repeat (apply elem_of_cons in H as [H|H]; [discriminate H|]); inversion H|]).
  apply NoDup_nil_2.
Defined.

(** ** The rating chart of Analytics *)

Lemma floor_eqb_cases (r : Q) (k : Z) :
  ((Js.floor r =? k)%Z = true /\ (inject_Z k <= r)%Q /\ (r < inject_Z k + 1)%Q)
  \/ ((Js.floor r =? k)%Z = false /\ ((r < inject_Z k)%Q \/ (inject_Z k + 1 <= r)%Q)).
Proof.
  pose proof (floor_ge r k) as Hk. pose proof (floor_ge r (k + 1)) as Hk1.
  rewrite inject_Z_plus in Hk1. change (inject_Z 1) with 1%Q in Hk1.
  destruct (Z.eqb_spec (Js.floor r) k) as [E|E].
  - left. split; [reflexivity|]. split; [apply Hk; lia|].
    apply Qnot_le_lt. intros H. apply Hk1 in H. lia.
  - right. split; [reflexivity|].
    destruct (Z.lt_ge_cases (Js.floor r) k) as [Hlt|Hge].
    + left. apply Qnot_le_lt. intros H. apply Hk in H. lia.
    + right. apply Hk1. lia.
Qed.

Lemma gtb_true (a b : Q) : Js.gtb a b = true <-> (b < a)%Q.
Proof. unfold Js.gtb. rewrite negb_true_iff. apply (geb_false b a). Qed.

Lemma gtb_false (a b : Q) : Js.gtb a b = false <-> (a <= b)%Q.
Proof. unfold Js.gtb. rewrite negb_false_iff. apply (geb_true b a). Qed.

Lemma bars_of_floor (f : Db.feedback) :
  Days.bars_of f
  = ((if (Js.floor (rating_or_zero f) =? 1)%Z then 1 else 0)
     + (if (Js.floor (rating_or_zero f) =? 2)%Z then 1 else 0)
     + (if (Js.floor (rating_or_zero f) =? 3)%Z then 1 else 0)
     + (if (Js.floor (rating_or_zero f) =? 4)%Z then 1 else 0)
     + (if (Js.floor (rating_or_zero f) =? 5)%Z || Js.gtb (rating_or_zero f) 4.5
        then 1 else 0))%nat.
Proof.
  unfold Days.bars_of, Analytics.in_bar. cbv zeta. simpl List.filter.
  rewrite !orb_false_r.
  destruct (Js.floor (rating_or_zero f) =? 1)%Z, (Js.floor (rating_or_zero f) =? 2)%Z,
    (Js.floor (rating_or_zero f) =? 3)%Z, (Js.floor (rating_or_zero f) =? 4)%Z,
    ((Js.floor (rating_or_zero f) =? 5)%Z || Js.gtb (rating_or_zero f) 4.5);
    reflexivity.
Qed.

(** The rating chart counts a row rated from 1 up to 4.5, or 5 and more,
    in one bar; a row rated above 4.5 and below 5 in two bars, "4 Stars"
    and "5 Stars"; and a row rated below 1, among them every row without
    a rating, in no bar. The counts of the bars add up to the number of
    bars each row is counted in. *)
Theorem rating_bars_of_a_row :
  (forall f,
     let r := rating_or_zero f in
     (((1 <= r)%Q /\ (r <= 4.5)%Q) \/ (5 <= r)%Q -> Days.bars_of f = 1%nat)
     /\ ((4.5 < r)%Q /\ (r < 5)%Q ->
         Days.bars_of f = 2%nat
         /\ Analytics.in_bar 4 f = true /\ Analytics.in_bar 5 f = true)
     /\ ((r < 1)%Q -> Days.bars_of f = 0%nat)
     /\ (Db.average_rating f = None -> Days.bars_of f = 0%nat))
  /\ (forall feedbacks,
        sum_list (map Analytics.bar_count (Analytics.ratingDistribution feedbacks))
        = sum_list (map Days.bars_of feedbacks)).
Proof.
  split.
  - intros f. cbv zeta.
    assert (Hbars :
              (((1 <= rating_or_zero f)%Q /\ (rating_or_zero f <= 4.5)%Q)
               \/ (5 <= rating_or_zero f)%Q ->
               Days.bars_of f = 1%nat)
              /\ ((4.5 < rating_or_zero f)%Q /\ (rating_or_zero f < 5)%Q ->
                  Days.bars_of f = 2%nat
                  /\ Analytics.in_bar 4 f = true /\ Analytics.in_bar 5 f = true)
              /\ ((rating_or_zero f < 1)%Q -> Days.bars_of f = 0%nat)).
    { rewrite bars_of_floor. unfold Analytics.in_bar. cbv zeta.
      set (r := rating_or_zero f).
      destruct (floor_eqb_cases r 1) as [[-> E1] | [-> E1]];
        destruct (floor_eqb_cases r 2) as [[-> E2] | [-> E2]];
        destruct (floor_eqb_cases r 3) as [[-> E3] | [-> E3]];
        destruct (floor_eqb_cases r 4) as [[-> E4] | [-> E4]];
        destruct (floor_eqb_cases r 5) as [[-> E5] | [-> E5]];
        destruct (Js.gtb r 4.5) eqn:Hg;
        (apply gtb_true in Hg || apply gtb_false in Hg);
        unfold inject_Z in *; simpl;
        (split; [|split]); intros H; try (split; [|split]); try reflexivity;
        exfalso; lra. }
    destruct Hbars as (H1 & H2 & H0).
    split; [exact H1|]. split; [exact H2|]. split; [exact H0|].
    intros Hnone. apply H0. rewrite (rating_or_zero_unrated f Hnone). reflexivity.
  - intros feedbacks. unfold Analytics.ratingDistribution. rewrite map_map.
    cbn [Analytics.bar_count map sum_list sum_list_with].
    induction feedbacks as [|f l IH]; [reflexivity|].
    cbn [map sum_list sum_list_with List.filter]. rewrite <- IH, bars_of_floor.
    unfold Analytics.in_bar. cbv zeta. rewrite !orb_false_r.
    simpl Z.eqb. rewrite ?andb_false_l, ?andb_true_l, ?orb_false_r.
    destruct (Js.floor (rating_or_zero f) =? 1)%Z, (Js.floor (rating_or_zero f) =? 2)%Z,
      (Js.floor (rating_or_zero f) =? 3)%Z, (Js.floor (rating_or_zero f) =? 4)%Z,
      ((Js.floor (rating_or_zero f) =? 5)%Z || Js.gtb (rating_or_zero f) 4.5);
      simpl; lia.
Qed.

Lemma rating_bars_of_a_row_witness :
  Days.bars_of (rated_row 4.7) = 2%nat
  /\ Days.bars_of (rated_row 3) = 1%nat
  /\ Days.bars_of unrated_row = 0%nat.
Proof.
  destruct rating_bars_of_a_row as (H & _).
  split; [|split].
  - destruct (H (rated_row 4.7)) as (_ & H2 & _). apply H2. split; reflexivity.
  - destruct (H (rated_row 3)) as (H1 & _). apply H1. left. split; discriminate.
  - destruct (H unrated_row) as (_ & _ & _ & H0). apply H0. reflexivity.
Defined.

(** ** The figures drawn at random *)


Lemma always_unit (x : Q) : (0 <= x)%Q -> (x < 1)%Q -> Bounds.unit_interval (always x).
Proof. intros H0 H1 k. split; assumption. Qed.


Lemma always_double (x : Q) : (Js.double x == x)%Q -> Bounds.doubles (always x).
Proof. intros H k. exact H. Qed.

(** What [Math.random()] returns is at most [1 - 2^-53]. *)
Lemma random_below_1 (random : nat -> Q) (k : nat) :
  Bounds.unit_interval random -> Bounds.doubles random ->
  (0 <= random k)%Q /\ (random k <= below_1)%Q.
Proof.
  intros Hr Hd. destruct (Hr k) as [H0 H1]. split; [exact H0|].
  apply double_below_1; [apply Hd | exact H1].
Qed.

(** [Math.random() * c - h] for the largest and the least draw bound it
    for every draw. *)
Lemma scaled_draw_between (r c h : Q) :
  (0 <= c)%Q -> (0 <= r)%Q -> (r <= below_1)%Q ->
  (Js.sub (Js.mul 0 c) h <= Js.sub (Js.mul r c) h)%Q
  /\ (Js.sub (Js.mul r c) h <= Js.sub (Js.mul below_1 c) h)%Q.
Proof.
  intros Hc H0 H1. unfold Js.sub, Js.mul.
  assert (P : (0 <= below_1)%Q) by (vm_compute; discriminate).
  split; apply double_mono.
  - assert (M : (Js.double (0 * c) <= Js.double (r * c))%Q) by (apply double_mono; nra).
    lra.
  - assert (M : (Js.double (r * c) <= Js.double (below_1 * c))%Q)
      by (apply double_mono; nra).
    lra.
Qed.

(** For binary64 numbers drawn from [0, 1), [loadDashboardData] gives
    seven rating trend points, each from 3 to 5, a weekly change from -10
    up to, and not including, 10, and a monthly change from -15 up to, and
    not including, 15. A rating of 5 is met: the sum rounds to 5 for the
    largest number below 1. *)
Theorem dashboard_mock_figures (env : DateEnv) (count : option Z)
  (data : option (list Db.feedback)) :
  (forall random,
     Bounds.unit_interval random -> Bounds.doubles random ->
     let s := Dashboard.loadDashboardData env random count data in
     length (Dashboard.ds_ratingTrends s) = 7%nat
     /\ Forall (fun p => (3 <= Dashboard.tr_rating p)%Q /\ (Dashboard.tr_rating p <= 5)%Q)
               (Dashboard.ds_ratingTrends s)
     /\ ((-10 <= Dashboard.weeklyChange s)%Q /\ (Dashboard.weeklyChange s < 10)%Q)
     /\ ((-15 <= Dashboard.monthlyChange s)%Q /\ (Dashboard.monthlyChange s < 15)%Q))
  /\ (Bounds.unit_interval (always below_1)
      /\ Bounds.doubles (always below_1)
      /\ Forall (fun p => (Dashboard.tr_rating p == 5)%Q)
                (Dashboard.ds_ratingTrends
                   (Dashboard.loadDashboardData env (always below_1) count data))).
Proof.
  split.
  - intros random Hr Hd. cbv zeta. simpl.
    split; [reflexivity|]. split; [|split].
    + unfold Dashboard.ratingTrends. apply Forall_map. apply Forall_forall.
      intros i _. simpl.
      destruct (random_below_1 random i Hr Hd) as [H0 H1].
      assert (P : (0 <= below_1)%Q) by (vm_compute; discriminate).
      assert (Lo : (Js.add (Js.mul 0 2) 3 <= Js.add (Js.mul (random i) 2) 3)%Q).
      { unfold Js.add, Js.mul. apply double_mono.
        assert (M : (Js.double (0 * 2) <= Js.double (random i * 2))%Q)
          by (apply double_mono; lra).
        lra. }
      assert (Hi : (Js.add (Js.mul (random i) 2) 3 <= Js.add (Js.mul below_1 2) 3)%Q).
      { unfold Js.add, Js.mul. apply double_mono.
        assert (M : (Js.double (random i * 2) <= Js.double (below_1 * 2))%Q)
          by (apply double_mono; lra).
        lra. }
      assert (E0 : (Js.add (Js.mul 0 2) 3 == 3)%Q) by (vm_compute; reflexivity).
      assert (E1 : (Js.add (Js.mul below_1 2) 3 == 5)%Q) by (vm_compute; reflexivity).
      split; lra.
    + destruct (random_below_1 random 7%nat Hr Hd) as [H0 H1].
      destruct (scaled_draw_between (random 7%nat) 20 10) as [Lo Hi]; [lra | exact H0 | exact H1|].
      assert (E0 : (Js.sub (Js.mul 0 20) 10 == -10)%Q) by (vm_compute; reflexivity).
      assert (E1 : (Js.sub (Js.mul below_1 20) 10 < 10)%Q) by (vm_compute; reflexivity).
      split; lra.
    + destruct (random_below_1 random 8%nat Hr Hd) as [H0 H1].
      destruct (scaled_draw_between (random 8%nat) 30 15) as [Lo Hi]; [lra | exact H0 | exact H1|].
      assert (E0 : (Js.sub (Js.mul 0 30) 15 == -15)%Q) by (vm_compute; reflexivity).
      assert (E1 : (Js.sub (Js.mul below_1 30) 15 < 15)%Q) by (vm_compute; reflexivity).
      split; lra.
  - split; [|split].
    + apply always_unit; [vm_compute; discriminate | vm_compute; reflexivity].
    + apply always_double. vm_compute. reflexivity.
    + simpl. unfold Dashboard.ratingTrends. apply Forall_map. apply Forall_forall.
      intros i _. simpl. vm_compute. reflexivity.
Qed.

Lemma dashboard_mock_figures_witness :
  (Dashboard.weeklyChange (Dashboard.loadDashboardData sample_env (always 0.5) None None)
   < 10)%Q
  /\ (Dashboard.monthlyChange
        (Dashboard.loadDashboardData sample_env (always below_1) None None) < 15)%Q.
Proof.
  destruct (dashboard_mock_figures sample_env None None) as (H & Hu & Hd & _).
  split.
  - apply (H (always 0.5)).
    + apply always_unit; [discriminate | reflexivity].
    + apply always_double. reflexivity.
  - apply (H (always below_1) Hu Hd).
Defined.

(** ** Averages on the rating scale *)



(** ** The enhanced overview *)

(** The rows of the last seven days are among the rows of the last thirty
    days, in the same order, so the count of the week is at most the count
    of the month, which is at most the total. *)
Theorem week_within_month (env : DateEnv) (feedbacks : list Db.feedback) :
  EnhancedTrends.thisWeekFeedbacks env feedbacks
  = EnhancedTrends.thisWeekFeedbacks env (EnhancedTrends.thisMonthFeedbacks env feedbacks)
  /\ (length (EnhancedTrends.thisWeekFeedbacks env feedbacks)
      <= length (EnhancedTrends.thisMonthFeedbacks env feedbacks) <= length feedbacks)%nat.
Proof.
  assert (E : EnhancedTrends.thisWeekFeedbacks env feedbacks
              = EnhancedTrends.thisWeekFeedbacks env
                  (EnhancedTrends.thisMonthFeedbacks env feedbacks)).
  { unfold EnhancedTrends.thisWeekFeedbacks, EnhancedTrends.thisMonthFeedbacks.
    induction feedbacks as [|f l IH]; [reflexivity|]. simpl.
    destruct (Z.ltb_spec (EnhancedTrends.lastWeek env) (parse env (Db.received_at f)))
      as [Hw|Hw];
      destruct (Z.ltb_spec (EnhancedTrends.lastMonth env) (parse env (Db.received_at f)))
        as [Hm|Hm]; simpl.
    - destruct (Z.ltb_spec (EnhancedTrends.lastWeek env) (parse env (Db.received_at f)));
        [f_equal; exact IH | lia].
    - unfold EnhancedTrends.lastWeek, EnhancedTrends.lastMonth in *. lia.
    - destruct (Z.ltb_spec (EnhancedTrends.lastWeek env) (parse env (Db.received_at f)));
        [lia | exact IH].
    - exact IH. }
  split; [exact E|]. split.
  - rewrite E. apply filter_length_le.
  - apply filter_length_le.
Qed.

(** Whole numbers up to 2^53, their quotient by 1 and their product by
    100 are binary64 values: the operations are exact on them. *)
Lemma div_by_1 (n : Z) : (- 2 ^ 53 <= n <= 2 ^ 53)%Z -> (Js.div (inject_Z n) (inject_Z 1) == inject_Z n)%Q.
Proof.
  intros H. unfold Js.div.
  assert (E : (inject_Z n / inject_Z 1 == inject_Z n)%Q) by (change (inject_Z 1) with 1%Q; field).
  rewrite (double_comp _ _ E). apply double_Z, H.
Qed.

Lemma mul_by_100 (x : Q) (n : Z) :
  (- 2 ^ 53 <= 100 * n <= 2 ^ 53)%Z -> (x == inject_Z n)%Q ->
  (Js.mul x 100 == inject_Z (100 * n))%Q.
Proof.
  intros H E. unfold Js.mul.
  assert (E' : (x * 100 == inject_Z (100 * n))%Q)
    by (rewrite E, inject_Z_mult; change (inject_Z 100) with 100%Q; ring).
  rewrite (double_comp _ _ E'). apply double_Z, H.
Qed.

Lemma round_Z (x : Q) (n : Z) : (x == inject_Z n)%Q -> Js.round x = n.
Proof.
  intros E.
  assert (H : (n <= Js.round x <= n)%Z) by (apply round_between; rewrite E; lra).
  lia.
Qed.

(** For a list of rows that is not empty, the trend of the feedback is 0
    when no row is of this week; when all rows are of this week it is a
    hundred times their number (the divisor is 1 then, there is no
    division by zero; an array has fewer than 2^32 elements); and it is
    never below -100. *)
Theorem feedbackTrend_edges (env : DateEnv) (feedbacks : list Db.feedback) :
  feedbacks <> [] ->
  (EnhancedTrends.thisWeekFeedbacks env feedbacks = [] ->
   EnhancedTrends.feedbackTrend env feedbacks = 0%Z)
  /\ (EnhancedTrends.thisWeekFeedbacks env feedbacks = feedbacks ->
      (Z.of_nat (length feedbacks) < 2 ^ 32)%Z ->
      EnhancedTrends.feedbackTrend env feedbacks = (100 * Z.of_nat (length feedbacks))%Z)
  /\ (-100 <= EnhancedTrends.feedbackTrend env feedbacks)%Z.
Proof.
  intros _. unfold EnhancedTrends.feedbackTrend. cbv zeta.
  set (w := Z.of_nat (length (EnhancedTrends.thisWeekFeedbacks env feedbacks))).
  set (n := Z.of_nat (length feedbacks)).
  assert (Hw : (0 <= w <= n)%Z).
  { unfold w, n. pose proof (filter_length_le
      (fun f => (EnhancedTrends.lastWeek env <? parse env (Db.received_at f))%Z) feedbacks).
    unfold EnhancedTrends.thisWeekFeedbacks. lia. }
  split; [|split].
  - intros E. unfold w. rewrite E. reflexivity.
  - intros E Hlen. assert (Hwn : w = n) by (unfold w, n; rewrite E; reflexivity).
    destruct (Z.ltb_spec 0 w) as [Hpos|Hzero]; [|lia].
    rewrite Hwn, Z.sub_diag, Z.sub_0_r. change (Z.max 0 1) with 1%Z.
    apply round_Z. apply mul_by_100; [lia|]. apply div_by_1. lia.
  - destruct (Z.ltb_spec 0 w) as [Hpos|Hzero]; [|lia].
    set (b := (n - w)%Z).
    assert (Hm : (0 < inject_Z (Z.max b 1))%Q)
      by (change 0%Q with (inject_Z 0); rewrite <- Zlt_Qlt; lia).
    assert (Hq : (-1 <= inject_Z (w - b) / inject_Z (Z.max b 1))%Q).
    { apply Qle_shift_div_l; [exact Hm|].
      assert (Hz : (- Z.max b 1 <= w - b)%Z) by lia.
      rewrite Zle_Qle, inject_Z_opp in Hz. lra. }
    assert (Hd : (-1 <= Js.div (inject_Z (w - b)) (inject_Z (Z.max b 1)))%Q)
      by (apply (double_ge _ (-1)); [lia | exact Hq]).
    assert (Hx : (-100 <= Js.mul (Js.div (inject_Z (w - b)) (inject_Z (Z.max b 1))) 100)%Q)
      by (apply (double_ge _ (-100)); [lia | change (inject_Z (-100)) with (-100)%Q; lra]).
    unfold Js.round. apply (floor_ge _ (-100)).
    change (inject_Z (-100)) with (-100)%Q. lra.
Qed.

Lemma feedbackTrend_edges_witness :
  EnhancedTrends.feedbackTrend day_30 [row_of_day "25" false; row_of_day "26" true] = 200%Z
  /\ EnhancedTrends.feedbackTrend day_30 [row_of_day "10" false] = 0%Z.
Proof.
  split.
  - apply (feedbackTrend_edges day_30 [row_of_day "25" false; row_of_day "26" true]).
    + discriminate.
    + reflexivity.
    + simpl. lia.
  - apply (feedbackTrend_edges day_30 [row_of_day "10" false]);
      [discriminate | reflexivity].
Defined.

(** Of 69 rows, 29 of this week: the quotient -11/40 times 100 is, in
    binary64, just below -27.5, and the trend is -28. *)
Example feedbackTrend_of_29_in_69 :
  EnhancedTrends.feedbackTrend day_30
    (repeat (row_of_day "10" false) 40 ++ repeat (row_of_day "25" false) 29)
  = (-28)%Z.
Proof. vm_compute. reflexivity. Qed.

Lemma filter_from_low {A : Type} (i : nat) (l : list A) :
  length (EnhancedTrends.filter_from (fun i => (i <? 3)%nat) i l) = Nat.min (3 - i) (length l)
  /\ (length (EnhancedTrends.filter_from (fun i => (i <? 3)%nat) i l)
      + length (EnhancedTrends.filter_from (fun i => (3 <=? i)%nat) i l) = length l)%nat.
Proof.
  revert i. induction l as [|x l IH]; intros i;
    cbn [EnhancedTrends.filter_from length]; [split; lia|].
  destruct (IH (S i)) as [IH1 IH2].
  destruct (Nat.ltb_spec i 3), (Nat.leb_spec 3 i);
    cbn [EnhancedTrends.filter_from length]; split; lia.
Qed.

(** On the card of the issues the two badges split the issues by their
    position: the first three are "High", the others "Low"; the two counts
    add up to the number of issues. *)
Theorem issue_badges_split (issues : list Db.issue) :
  EnhancedTrends.highIssues issues = Nat.min 3 (length issues)
  /\ EnhancedTrends.lowIssues issues = (length issues - 3)%nat
  /\ (EnhancedTrends.highIssues issues + EnhancedTrends.lowIssues issues = length issues)%nat.
Proof.
  unfold EnhancedTrends.highIssues, EnhancedTrends.lowIssues.
  destruct (filter_from_low 0 issues) as [H1 H2]. rewrite Nat.sub_0_r in H1. lia.
Qed.

(** ** The ranking of the issues *)

Example ranking_of_four_issues :
  Ranking.topIssues (Some (issues_titled ["Login"; "Login"; "Crash"; "Login"]))
  = [ {| Ranking.title := "Login"; Ranking.count := 3 |};
      {| Ranking.title := "Crash"; Ranking.count := 1 |} ].
Proof. reflexivity. Qed.

Example ranking_with_numeric_titles :
  map Ranking.title
      (Ranking.issuesData (issues_titled ["slow"; "404"; "crash"; "7"; "007"]))
  = ["7"; "404"; "slow"; "crash"; "007"].
Proof. reflexivity. Qed.

Lemma get_set_same (o : list (string * nat)) (k : string) (v : nat) :
  JsObject.get (JsObject.set o k v) k = Some v.
Proof.
  induction o as [|[k' v'] o IH]; simpl; [rewrite String.eqb_refl; reflexivity|].
  destruct (String.eqb k' k) eqn:E; simpl; rewrite E; [reflexivity | exact IH].
Qed.

Lemma get_set_other (o : list (string * nat)) (k k' : string) (v : nat) :
  k' <> k -> JsObject.get (JsObject.set o k v) k' = JsObject.get o k'.
Proof.
  intros Hne. induction o as [|[k0 v0] o IH]; simpl.
  - destruct (String.eqb_spec k k'); [congruence | reflexivity].
  - destruct (String.eqb_spec k0 k) as [E|E]; simpl.
    + subst k0. destruct (String.eqb_spec k k'); [congruence | reflexivity].
    + rewrite IH. reflexivity.
Qed.

Lemma get_None (o : list (string * nat)) (k : string) :
  JsObject.get o k = None <-> ~ In k (map fst o).
Proof.
  induction o as [|[k' v'] o IH]; simpl; [tauto|].
  destruct (String.eqb_spec k' k) as [E|E].
  - split; [discriminate|]. intros H. exfalso. apply H. left. exact E.
  - rewrite IH. tauto.
Qed.

Lemma keys_set (o : list (string * nat)) (k : string) (v : nat) :
  map fst (JsObject.set o k v)
  = if existsb (String.eqb k) (map fst o) then map fst o else map fst o ++ [k].
Proof.
  induction o as [|[k' v'] o IH]; simpl; [reflexivity|].
  rewrite (String.eqb_sym k k').
  destruct (String.eqb k' k); simpl; [reflexivity|].
  rewrite IH. destruct (existsb (String.eqb k) (map fst o)); reflexivity.
Qed.

Lemma get_In (o : list (string * nat)) (k : string) (v : nat) :
  NoDup (map fst o) -> (In (k, v) o <-> JsObject.get o k = Some v).
Proof.
  induction o as [|[k' v'] o IH]; simpl; intros Hnd.
  - split; [intros [] | discriminate].
  - apply NoDup_cons in Hnd as [Hnotin Hnd]. specialize (IH Hnd).
    destruct (String.eqb_spec k' k) as [E|E].
    + subst k'. split.
      * intros [H | H]; [congruence|]. exfalso. apply Hnotin.
        apply list_elem_of_In, in_map_iff. exists (k, v). split; [reflexivity | exact H].
      * intros H. left. congruence.
    + rewrite <- IH. split; [intros [H | H]; [congruence | exact H] | intros H; right; exact H].
Qed.

Lemma reports_snoc (l : list Db.issue) (i : Db.issue) (t : string) :
  Ranking.reports (l ++ [i]) t
  = (Ranking.reports l t + (if String.eqb (Db.issue_title i) t then 1 else 0))%nat.
Proof.
  unfold Ranking.reports. rewrite List.filter_app, length_app. simpl.
  destruct (String.eqb (Db.issue_title i) t); reflexivity.
Qed.

(** What the table of the counts holds after the issues [l]: a property
    for each title that occurs, in the order in which the titles first
    occur, with the number of its issues. *)
Lemma tally_invariant (l : list Db.issue) :
  let o := fold_left Ranking.tally l [] in
  map fst o = Days.firsts (map Db.issue_title l)
  /\ NoDup (map fst o)
  /\ forall t, JsObject.get o t
               = if (Ranking.reports l t =? 0)%nat then None else Some (Ranking.reports l t).
Proof.
  cbv zeta. induction l as [|i l (Hkeys & Hnd & Hget)] using rev_ind.
  - split; [reflexivity|]. split; [constructor | reflexivity].
  - rewrite fold_left_app, map_app. simpl fold_left.
    change (map Db.issue_title [i]) with [Db.issue_title i]. rewrite firsts_snoc.
    set (o := fold_left Ranking.tally l []) in *.
    unfold Ranking.tally. set (t0 := Db.issue_title i).
    rewrite keys_set, Hkeys.
    split; [reflexivity|]. split.
    + rewrite <- Hkeys. destruct (existsb (String.eqb t0) (map fst o)) eqn:E; [exact Hnd|].
      apply NoDup_app. split; [exact Hnd|]. split; [|apply NoDup_singleton].
      intros k Hk Hk'. apply list_elem_of_singleton in Hk'. subst k.
      apply list_elem_of_In, existsb_eqb_In in Hk. congruence.
    + intros t. rewrite reports_snoc. fold t0.
      destruct (String.eqb_spec t0 t) as [E|E].
      * subst t. rewrite get_set_same, Hget.
        destruct (Ranking.reports l t0) as [|n]; simpl; [reflexivity|].
        replace (n + 1)%nat with (S n) by lia. reflexivity.
      * rewrite get_set_other by congruence. rewrite Hget, Nat.add_0_r. reflexivity.
Qed.

Lemma insert_index_perm (p : string * nat) (l : list (string * nat)) :
  Permutation (JsObject.insert_index p l) (p :: l).
Proof.
  induction l as [|q l IH]; simpl; [reflexivity|].
  destruct (JsObject.indexOf p <? JsObject.indexOf q)%N; [reflexivity|].
  rewrite IH. apply perm_swap.
Qed.

Lemma by_index_perm (l : list (string * nat)) : Permutation (JsObject.by_index l) l.
Proof.
  induction l as [|p l IH]; simpl; [reflexivity|].
  rewrite insert_index_perm, IH. reflexivity.
Qed.

Lemma filter_split_perm {A : Type} (p : A -> bool) (l : list A) :
  Permutation (List.filter p l ++ List.filter (fun x => negb (p x)) l) l.
Proof.
  induction l as [|x l IH]; simpl; [reflexivity|].
  destruct (p x); simpl.
  - rewrite IH. reflexivity.
  - rewrite <- Permutation_middle, IH. reflexivity.
Qed.

Lemma entries_perm (o : list (string * nat)) : Permutation (JsObject.entries o) o.
Proof.
  unfold JsObject.entries. rewrite by_index_perm. apply filter_split_perm.
Qed.

(** Without a key that is an array index, the entries are the properties
    in the order of their creation. *)
Lemma entries_plain (o : list (string * nat)) :
  Forall (fun p => JsObject.isIndex p = false) o -> JsObject.entries o = o.
Proof.
  intros H. unfold JsObject.entries.
  assert (E : List.filter JsObject.isIndex o = []
              /\ List.filter (fun p => negb (JsObject.isIndex p)) o = o).
  { induction H as [|p o Hp _ [IH1 IH2]]; simpl; [split; reflexivity|].
    rewrite Hp. simpl. split; [exact IH1 | f_equal; exact IH2]. }
  destruct E as [-> ->]. reflexivity.
Qed.

Lemma insert_desc_perm (x : Ranking.entry) (l : list Ranking.entry) :
  Permutation (Ranking.insert_desc x l) (x :: l).
Proof.
  induction l as [|y l IH]; simpl; [reflexivity|].
  destruct (Ranking.count x <? Ranking.count y)%nat; [|reflexivity].
  rewrite IH. apply perm_swap.
Qed.

Lemma sort_desc_perm (l : list Ranking.entry) : Permutation (Ranking.sort_desc l) l.
Proof.
  induction l as [|x l IH]; simpl; [reflexivity|].
  rewrite insert_desc_perm, IH. reflexivity.
Qed.

Lemma insert_desc_sorted (x : Ranking.entry) (l : list Ranking.entry) :
  StronglySorted Ranking.no_lower l -> StronglySorted Ranking.no_lower (Ranking.insert_desc x l).
Proof.
  induction 1 as [|y l Hl IH Hy]; simpl; [repeat constructor|].
  destruct (Nat.ltb_spec (Ranking.count x) (Ranking.count y)) as [Hlt|Hge].
  - constructor; [exact IH|].
    rewrite Forall_forall in *. intros z Hz.
    apply list_elem_of_In in Hz.
    apply (Permutation_in _ (insert_desc_perm x l)) in Hz as [<- | Hz].
    + unfold Ranking.no_lower. lia.
    + apply Hy, list_elem_of_In, Hz.
  - constructor; [constructor; assumption|].
    constructor; [exact Hge|].
    rewrite Forall_forall in *. intros z Hz. specialize (Hy z Hz). unfold Ranking.no_lower in *. lia.
Qed.

Lemma sort_desc_sorted (l : list Ranking.entry) : StronglySorted Ranking.no_lower (Ranking.sort_desc l).
Proof.
  induction l as [|x l IH]; simpl; [constructor|]. apply insert_desc_sorted, IH.
Qed.

(** The sort keeps the order of the entries that have the same count. *)
Lemma insert_desc_stable (c : nat) (x : Ranking.entry) (l : list Ranking.entry) :
  List.filter (fun e => (Ranking.count e =? c)%nat) (Ranking.insert_desc x l)
  = List.filter (fun e => (Ranking.count e =? c)%nat) (x :: l).
Proof.
  induction l as [|y l IH]; [reflexivity|]. simpl Ranking.insert_desc.
  destruct (Nat.ltb_spec (Ranking.count x) (Ranking.count y)) as [Hlt|Hge]; [|reflexivity].
  simpl List.filter in *. rewrite IH.
  destruct (Nat.eqb_spec (Ranking.count x) c), (Nat.eqb_spec (Ranking.count y) c);
    try reflexivity. lia.
Qed.

Lemma sort_desc_stable (c : nat) (l : list Ranking.entry) :
  List.filter (fun e => (Ranking.count e =? c)%nat) (Ranking.sort_desc l)
  = List.filter (fun e => (Ranking.count e =? c)%nat) l.
Proof.
  induction l as [|x l IH]; [reflexivity|]. simpl Ranking.sort_desc.
  rewrite insert_desc_stable. simpl. rewrite IH. reflexivity.
Qed.

Lemma sorted_app_inv (l1 l2 : list Ranking.entry) :
  StronglySorted Ranking.no_lower (l1 ++ l2) ->
  forall x y, In x l1 -> In y l2 -> Ranking.no_lower x y.
Proof.
  induction l1 as [|a l1 IH]; simpl; intros H x y Hx Hy; [contradiction|].
  apply StronglySorted_inv in H as [Hs Ha].
  destruct Hx as [<- | Hx].
  - rewrite Forall_forall in Ha. apply Ha, list_elem_of_In, in_or_app. right. exact Hy.
  - apply (IH Hs x y Hx Hy).
Qed.

Lemma sorted_take (n : nat) (l : list Ranking.entry) :
  StronglySorted Ranking.no_lower l -> StronglySorted Ranking.no_lower (take n l).
Proof.
  intros H. revert n. induction H as [|x l Hl IH Hx]; intros [|n]; simpl; try constructor.
  - apply IH.
  - apply Forall_take, Hx.
Qed.

Lemma sum_set (o : list (string * nat)) (k : string) (v : nat) :
  (sum_list (map snd (JsObject.set o k v)) + JsObject.or_zero (JsObject.get o k)
   = sum_list (map snd o) + v)%nat.
Proof.
  induction o as [|[k' v'] o IH]; simpl; [lia|].
  destruct (String.eqb k' k); simpl; lia.
Qed.

Lemma tally_sum (l : list Db.issue) :
  sum_list (map snd (fold_left Ranking.tally l [])) = length l.
Proof.
  induction l as [|i l IH] using rev_ind; [reflexivity|].
  rewrite fold_left_app, length_app. simpl.
  unfold Ranking.tally at 1.
  pose proof (sum_set (fold_left Ranking.tally l []) (Db.issue_title i)
                (JsObject.or_zero (JsObject.get (fold_left Ranking.tally l [])
                                                (Db.issue_title i)) + 1)).
  lia.
Qed.

Lemma sum_perm (l l' : list (string * nat)) :
  Permutation l l' -> sum_list (map snd l) = sum_list (map snd l').
Proof. induction 1; simpl; lia. Qed.

(** The entries made of a table of counts are, in some order, its
    properties. *)
Lemma ranked_In (o : list (string * nat)) (e : Ranking.entry) :
  In e (Ranking.ranked o) <-> In (Ranking.title e, Ranking.count e) o.
Proof.
  unfold Ranking.ranked. rewrite in_map_iff. split.
  - intros ([t c] & <- & H). simpl. apply (Permutation_in _ (entries_perm o)), H.
  - intros H. exists (Ranking.title e, Ranking.count e). split; [destruct e; reflexivity|].
    apply (Permutation_in _ (Permutation_sym (entries_perm o))), H.
Qed.

Lemma ranked_titles (o : list (string * nat)) :
  Permutation (map Ranking.title (Ranking.ranked o)) (map fst o).
Proof.
  unfold Ranking.ranked. rewrite map_map. simpl.
  apply Permutation_map, entries_perm.
Qed.

Lemma ranked_reports (issues : list Db.issue) (e : Ranking.entry) :
  In e (Ranking.ranked (fold_left Ranking.tally issues []))
  <-> (1 <= Ranking.reports issues (Ranking.title e))%nat
      /\ Ranking.count e = Ranking.reports issues (Ranking.title e).
Proof.
  destruct (tally_invariant issues) as (_ & Hnd & Hget). cbv zeta in *.
  rewrite ranked_In, (get_In _ _ _ Hnd), Hget.
  destruct (Nat.eqb_spec (Ranking.reports issues (Ranking.title e)) 0) as [E|E].
  - split; [discriminate | lia].
  - split; [intros H; injection H as H; lia | intros [_ H]; congruence].
Qed.

(** For titles that [Object.prototype] does not define, the chart of the
    common issues has one entry for each title that occurs, with the number of the issues that carry it; the counts add up
    to the number of issues; five entries are shown at most; and when no
    title is the decimal text of an integer, the entries are in the order
    in which the titles first occur. *)
Theorem issuesData_counts_by_title (issues : list Db.issue) :
  Ranking.own_titles issues ->
  let es := Ranking.issuesData issues in
  (forall e, In e es
             <-> (1 <= Ranking.reports issues (Ranking.title e))%nat
                 /\ Ranking.count e = Ranking.reports issues (Ranking.title e))
  /\ NoDup (map Ranking.title es)
  /\ sum_list (map Ranking.count es) = length issues
  /\ length (Ranking.shownIssues issues)
     = Nat.min 5 (length (Days.firsts (map Db.issue_title issues)))
  /\ (Forall (fun i => JsObject.arrayIndex (Db.issue_title i) = None) issues ->
      map Ranking.title es = Days.firsts (map Db.issue_title issues)).
Proof.
  intros _. cbv zeta. unfold Ranking.issuesData.
  destruct (tally_invariant issues) as (Hkeys & Hnd & Hget). cbv zeta in *.
  set (o := fold_left Ranking.tally issues []) in *.
  split; [intros e; apply ranked_reports|].
  split; [rewrite ranked_titles; exact Hnd|].
  split.
  - unfold Ranking.ranked. rewrite map_map. simpl.
    rewrite <- (tally_sum issues). fold o.
    apply (sum_perm _ _ (entries_perm o)).
  - split.
    + unfold Ranking.shownIssues, Ranking.issuesData. fold o.
      rewrite length_take. f_equal.
      rewrite <- Hkeys, length_map. unfold Ranking.ranked. rewrite length_map.
      apply Permutation_length, entries_perm.
    + intros Hplain. unfold Ranking.ranked. rewrite entries_plain.
      * rewrite map_map. simpl. exact Hkeys.
      * rewrite Forall_forall in Hplain. apply Forall_forall.
        intros [t c] Hp. unfold JsObject.isIndex. simpl.
        assert (Ht : In t (map fst o)).
        { apply in_map_iff. exists (t, c). split; [reflexivity|]. apply list_elem_of_In, Hp. }
        rewrite Hkeys in Ht.
        assert (Hin : In t (map Db.issue_title issues)).
        { clear -Ht. induction issues as [|i l IH] using rev_ind; [contradiction|].
          rewrite map_app in *. simpl in Ht. rewrite firsts_snoc in Ht.
          apply in_or_app.
          destruct (existsb (String.eqb (Db.issue_title i))
                      (Days.firsts (map Db.issue_title l))).
          - left. apply IH, Ht.
          - apply in_app_or in Ht as [Ht | [<- | []]]; [left; apply IH, Ht | right; left; reflexivity]. }
        apply in_map_iff in Hin as (i & <- & Hi).
        rewrite (Hplain i (proj2 (list_elem_of_In _ _) Hi)). reflexivity.
Qed.

Lemma issuesData_counts_by_title_witness :
  map Ranking.title (Ranking.issuesData (issues_titled ["Login"; "Crash"; "Login"]))
  = ["Login"; "Crash"]
  /\ In {| Ranking.title := "Login"; Ranking.count := 2 |}
        (Ranking.issuesData (issues_titled ["Login"; "Crash"; "Login"])).
Proof.
  destruct (issuesData_counts_by_title (issues_titled ["Login"; "Crash"; "Login"]))
    as (Hin & _ & _ & _ & Hplain).
  { repeat constructor; vm_compute; intuition discriminate. }
  split.
  - rewrite Hplain; [reflexivity|]. repeat constructor.
  - apply Hin. split; [vm_compute; lia | reflexivity].
Defined.

(** For titles that [Object.prototype] does not define, the ranking of
    [loadDashboardData] lists three titles at most, each once, with the number of the issues that carry it, the higher counts
    first; a title that is left out has no more issues than any title
    listed; titles with the same count keep the order the entries of the
    table have; and a failed read gives an empty ranking. *)
Theorem topIssues_ranks_by_count (issues : list Db.issue) :
  Ranking.own_titles issues ->
  let top := Ranking.topIssues (Some issues) in
  length top = Nat.min 3 (length (Days.firsts (map Db.issue_title issues)))
  /\ (forall e, In e top ->
        (1 <= Ranking.count e)%nat
        /\ Ranking.count e = Ranking.reports issues (Ranking.title e))
  /\ NoDup (map Ranking.title top)
  /\ StronglySorted Ranking.no_lower top
  /\ (forall i e,
        In i issues -> ~ In (Db.issue_title i) (map Ranking.title top) -> In e top ->
        (Ranking.reports issues (Db.issue_title i) <= Ranking.count e)%nat)
  /\ (forall c,
        List.filter (fun e => (Ranking.count e =? c)%nat)
          (Ranking.sort_desc (Ranking.ranked (Ranking.issueCounts (Some issues))))
        = List.filter (fun e => (Ranking.count e =? c)%nat)
            (Ranking.ranked (Ranking.issueCounts (Some issues))))
  /\ Ranking.topIssues None = [].
Proof.
  intros _. cbv zeta. unfold Ranking.topIssues, Ranking.issueCounts.
  destruct (tally_invariant issues) as (Hkeys & Hnd & Hget). cbv zeta in *.
  set (o := fold_left Ranking.tally issues []) in *.
  set (full := Ranking.sort_desc (Ranking.ranked o)).
  assert (Hperm : Permutation full (Ranking.ranked o)) by apply sort_desc_perm.
  assert (Hsorted : StronglySorted Ranking.no_lower full) by apply sort_desc_sorted.
  assert (Hfull : forall e, In e full
                            <-> (1 <= Ranking.reports issues (Ranking.title e))%nat
                                /\ Ranking.count e = Ranking.reports issues (Ranking.title e)).
  { intros e. rewrite <- (ranked_reports issues e). fold o. split; intros H.
    - apply (Permutation_in _ Hperm), H.
    - apply (Permutation_in _ (Permutation_sym Hperm)), H. }
  assert (Htake : forall e, In e (take 3 full) -> In e full).
  { intros e He. rewrite <- (firstn_skipn 3 full). apply in_or_app. left. exact He. }
  split; [|split; [|split; [|split; [|split; [|split]]]]].
  - rewrite length_take. f_equal. rewrite <- Hkeys, length_map.
    rewrite (Permutation_length Hperm). unfold Ranking.ranked. rewrite length_map.
    apply Permutation_length, entries_perm.
  - intros e He. apply Htake, Hfull in He. lia.
  - rewrite <- firstn_map.
    eapply sublist_NoDup; [|apply sublist_take].
    rewrite Hperm, ranked_titles. exact Hnd.
  - apply sorted_take, Hsorted.
  - intros i e Hi Hnot He.
    assert (Hone : (1 <= Ranking.reports issues (Db.issue_title i))%nat).
    { unfold Ranking.reports. clear -Hi. induction issues as [|j l IH]; [contradiction|].
      simpl. destruct Hi as [-> | Hi].
      - rewrite String.eqb_refl. simpl. lia.
      - specialize (IH Hi). destruct (String.eqb (Db.issue_title j) (Db.issue_title i));
          simpl; lia. }
    set (e' := {| Ranking.title := Db.issue_title i;
                  Ranking.count := Ranking.reports issues (Db.issue_title i) |}).
    assert (He' : In e' full) by (apply Hfull; simpl; split; [exact Hone | reflexivity]).
    rewrite <- (firstn_skipn 3 full) in He'. apply in_app_or in He' as [He' | He'].
    + exfalso. apply Hnot. apply in_map_iff. exists e'. split; [reflexivity | exact He'].
    + rewrite <- (firstn_skipn 3 full) in Hsorted.
      apply (sorted_app_inv _ _ Hsorted e e' He He').
  - intros c. apply sort_desc_stable.
  - reflexivity.
Qed.

Lemma topIssues_ranks_by_count_witness :
  (Ranking.reports (issues_titled ["a"; "b"; "b"; "c"; "d"; "d"]) "c" <= 2)%nat.
Proof.
  destruct (topIssues_ranks_by_count (issues_titled ["a"; "b"; "b"; "c"; "d"; "d"]))
    as (_ & _ & _ & _ & Hout & _).
  { repeat constructor; vm_compute; intuition discriminate. }
  apply (Hout {| Db.issue_id := "c"; Db.issue_username := "ann"; Db.issue_title := "c";
                 Db.created_at := "2025-01-03T09:00:00Z" |}
              {| Ranking.title := "b"; Ranking.count := 2 |}).
  - right. right. right. left. reflexivity.
  - vm_compute. intros [H | [H | [H | []]]]; discriminate H.
  - left. reflexivity.
Defined.

(** ** The recent feedback *)

Lemma or_str_nonempty (v : option string) (b : string) : b <> "" -> Js.or_str v b <> "".
Proof.
  intros Hb. destruct v as [s|]; simpl; [|exact Hb].
  destruct (String.eqb_spec s ""); [exact Hb | assumption].
Qed.

(** The list of the recent feedback holds the first five rows of the read,
    in their order, or all of them when there are fewer, and nothing when
    the read failed; no item has an empty sender, subject or summary; the
    rating of an item is the rating of its row, 0 when the row has none;
    and from 0 to 5 stars are filled, as many as the whole part of the
    rating. *)
Theorem recentFeedback_items (rows : list Db.feedback) :
  map Recent.id (Recent.recentFeedback (Some rows)) = take 5 (map Db.id rows)
  /\ length (Recent.recentFeedback (Some rows)) = Nat.min 5 (length rows)
  /\ Recent.recentFeedback None = []
  /\ Forall (fun it =>
               Recent.sender_name it <> "" /\ Recent.subject it <> ""
               /\ Recent.feedback_summary it <> "")
            (Recent.recentFeedback (Some rows))
  /\ (forall f, (Recent.average_rating (Recent.ofRow f) == rating_or_zero f)%Q)
  /\ (forall it,
        Recent.filledStars it
        = Z.to_nat (Z.max 0 (Z.min 5 (Js.floor (Recent.average_rating it))))).
Proof.
  split; [|split; [|split; [|split; [|split]]]].
  - unfold Recent.recentFeedback. rewrite map_map. simpl. rewrite firstn_map. reflexivity.
  - unfold Recent.recentFeedback. rewrite length_map, length_take. reflexivity.
  - reflexivity.
  - unfold Recent.recentFeedback. apply Forall_map, Forall_forall. intros f _. simpl.
    repeat split; apply or_str_nonempty; discriminate.
  - intros f. unfold rating_or_zero. simpl.
    destruct (Db.average_rating f) as [r|]; simpl; [reflexivity|].
    symmetry. apply or_zero.
  - intros it. unfold Recent.filledStars.
    set (m := Js.floor (Recent.average_rating it)).
    change (seq 0 5) with [0; 1; 2; 3; 4]%nat. cbn [List.filter].
    change (Z.of_nat 0) with 0%Z. change (Z.of_nat 1) with 1%Z.
    change (Z.of_nat 2) with 2%Z. change (Z.of_nat 3) with 3%Z.
    change (Z.of_nat 4) with 4%Z.
    destruct (Z.ltb_spec 0 m), (Z.ltb_spec 1 m), (Z.ltb_spec 2 m), (Z.ltb_spec 3 m),
      (Z.ltb_spec 4 m); cbn [length]; lia.
Qed.

(** ** The response rate of the enhanced overview *)

Lemma rate_of_processed (feedbacks : list Db.feedback) :
  feedbacks <> [] ->
  let rate :=
    Js.round
      (Js.mul
         (Js.div (Js.len (List.filter (fun f => Js.truthy_str (Db.processed_at f)) feedbacks))
                 (Js.len feedbacks))
         100) in
  (0 <= rate <= 100)%Z
  /\ (Forall (fun f => Js.truthy_str (Db.processed_at f) = true) feedbacks -> rate = 100%Z)
  /\ (Forall (fun f => Js.truthy_str (Db.processed_at f) = false) feedbacks -> rate = 0%Z).
Proof.
  intros Hne. cbv zeta.
  set (p := Js.len (List.filter (fun f => Js.truthy_str (Db.processed_at f)) feedbacks)).
  set (n := Js.len feedbacks).
  assert (Hn : (0 < n)%Q).
  { unfold n. destruct feedbacks as [|f l]; [contradiction|].
    rewrite len_cons. pose proof (len_nonneg l). lra. }
  assert (Hp0 : (0 <= p)%Q) by apply len_nonneg.
  assert (Hpn : (p <= n)%Q) by (apply len_le, filter_length_le).
  assert (Hq0 : (0 <= p / n)%Q) by (apply Qle_shift_div_l; lra).
  assert (Hq1 : (p / n <= 1)%Q) by (apply Qle_shift_div_r; lra).
  assert (E0 : (Js.double 0 == 0)%Q) by reflexivity.
  assert (E1 : (Js.double 1 == 1)%Q) by reflexivity.
  assert (Hd0 : (0 <= Js.div p n)%Q) by (apply double_nonneg, Hq0).
  assert (Hd1 : (Js.div p n <= 1)%Q) by (apply (double_le _ 1); [lia | exact Hq1]).
  assert (Hm0 : (0 <= Js.mul (Js.div p n) 100)%Q) by (apply double_nonneg; lra).
  assert (Hm1 : (Js.mul (Js.div p n) 100 <= 100)%Q)
    by (apply (double_le _ 100); [lia | change (inject_Z 100) with 100%Q; lra]).
  split; [apply round_between; unfold inject_Z; lra|].
  split.
  - intros Hall.
    assert (Ep : (p / n == 1)%Q).
    { unfold p. rewrite filter_all.
      - fold n. field. lra.
      - rewrite Forall_forall in Hall. intros x Hx. apply Hall, list_elem_of_In, Hx. }
    assert (Ed : (Js.div p n == 1)%Q)
      by (unfold Js.div; rewrite (double_comp _ _ Ep); exact E1).
    apply round_Z. apply (mul_by_100 _ 1); [lia | exact Ed].
  - intros Hnone.
    assert (Ep : (p / n == 0)%Q).
    { unfold p. replace (List.filter _ feedbacks) with (@nil Db.feedback).
      - unfold Js.len at 1. simpl. field. lra.
      - symmetry. clear -Hnone. induction Hnone as [|x k Hx _ IH]; simpl; [reflexivity|].
        rewrite Hx. exact IH. }
    assert (Ed : (Js.div p n == 0)%Q)
      by (unfold Js.div; rewrite (double_comp _ _ Ep); exact E0).
    apply round_Z. apply (mul_by_100 _ 0); [lia | exact Ed].
Qed.

(** The response rate is a whole number of percent from 0 to 100: 100
    when every row has been processed, 0 when none has. *)
Theorem responseRate_is_a_percentage (feedbacks : list Db.feedback)
  (a : EnhancedOverview.analyticsT) :
  EnhancedOverview.analytics feedbacks = Some a ->
  (0 <= EnhancedOverview.responseRate a <= 100)%Z
  /\ (Forall (fun f => Js.truthy_str (Db.processed_at f) = true) feedbacks ->
      EnhancedOverview.responseRate a = 100%Z)
  /\ (Forall (fun f => Js.truthy_str (Db.processed_at f) = false) feedbacks ->
      EnhancedOverview.responseRate a = 0%Z).
Proof.
  intros Ha. destruct feedbacks as [|f l]; [discriminate|].
  injection Ha as <-.
  apply (rate_of_processed (f :: l)). discriminate.
Qed.

Lemma responseRate_is_a_percentage_witness :
  option_map EnhancedOverview.responseRate
    (EnhancedOverview.analytics [row_of_day "25" true; row_of_day "26" true])
  = Some 100%Z
  /\ (exists a,
        EnhancedOverview.analytics [row_of_day "25" true; row_of_day "26" false; rated_row 3]
        = Some a
        /\ (0 <= EnhancedOverview.responseRate a <= 100)%Z).
Proof.
  split.
  - destruct (EnhancedOverview.analytics [row_of_day "25" true; row_of_day "26" true])
      as [a|] eqn:E; [|discriminate E].
    simpl. f_equal.
    apply (responseRate_is_a_percentage
             [row_of_day "25" true; row_of_day "26" true] a E).
    repeat constructor.
  - destruct (EnhancedOverview.analytics
                [row_of_day "25" true; row_of_day "26" false; rated_row 3])
      as [a|] eqn:E; [|discriminate E].
    exists a. split; [reflexivity|].
    apply (responseRate_is_a_percentage
             [row_of_day "25" true; row_of_day "26" false; rated_row 3] a E).
Defined.

(** Of 40 rows, 23 processed: the quotient 23/40 times 100 is, in
    binary64, just below 57.5, and the rate is 57. *)
Example responseRate_of_23_in_40 :
  option_map EnhancedOverview.responseRate
    (EnhancedOverview.analytics
       (repeat (row_of_day "25" true) 23 ++ repeat (row_of_day "25" false) 17))
  = Some 57%Z.
Proof. vm_compute. reflexivity. Qed.

(** ** A page past the last one *)

(** When the page is above [totalPages], as it is after a filter has cut
    the result down while the page stayed, the window of the read lies
    past every row, so the read returns nothing, and the line "Showing X
    to Y" names a first row after the last one. *)
Theorem window_past_the_last_page (s : Management.state) (count : Z) :
  (0 <= count)%Z ->
  (Management.totalPagesOf (Some count) < Management.currentPage s)%Z ->
  (count <= Paging.from s)%Z
  /\ (Paging.showingTo s count < Paging.showingFrom s)%Z.
Proof.
  intros H0 Hp.
  pose proof (totalPagesOf_ceiling count) as Hc. cbv zeta in Hc.
  unfold Paging.showingFrom, Paging.showingTo, Paging.from, Management.ITEMS_PER_PAGE in *.
  split; lia.
Qed.

Lemma window_past_the_last_page_witness :
  (15 <= Paging.from (Management.handle 3 on_page_3 (Management.RatingSelect "4+")))%Z.
Proof.
  apply (window_past_the_last_page
           (Management.handle 3 on_page_3 (Management.RatingSelect "4+")) 15%Z).
  - lia.
  - reflexivity.
Defined.
